(** * sf-ui-automation: the batch configuration command and its browser layer

    A shallow embedding of
      - [lib/browser.ts]            (BrowserManager, SalesforceUI),
      - [lib/setup-automations.ts]  (SetupAutomations),
      - [commands/ui/setup/apply.ts] (SetupApply.run),
      - [commands/ui/config/session.ts], [commands/ui/config/sharing.ts] and
        [commands/ui/setup/flow.ts] (the commands of one operation),
    and the properties of the batch run, of the automations and of the
    commands that follow from them.  [BrowserManager.screenshot] is left
    out: it writes a file and nothing here depends on it.

    Asynchronous code is sequential here: every [await] is a step of a
    state-and-exception monad.  Puppeteer, the URL parser and the console
    are outside the repository; they are an environment [Env] that answers
    every call from the history of the calls made so far, so that a theorem
    quantified over [Env] holds for every deterministic browser.

    What the model takes from the libraries the code is written against:
      - [page.waitForSelector] without [hidden] resolves to an element or
        throws, so that the optional chaining on its result always calls;
      - [this.error] of the command framework throws, and [this.log],
        [this.warn], [this.logSuccess] and the spinner do not;
      - the numbers of the configuration are integers, printed in plain
        decimal, as [toString()] prints the safe ones;
      - the run starts where the outer [try] of [SetupApply.run] starts,
        with the flags parsed and the configuration file read;
      - a boolean flag of the flow command that is not given is false. *)

From Stdlib Require Import String Ascii List Bool Arith ZArith NArith Lia.
From Stdlib Require Import DecimalString Permutation Sorted.
Import ListNotations.

Open Scope list_scope.
Open Scope string_scope.

(** ** Thrown values and results *)

(** A JavaScript value that was thrown: an [Error] object (class name and
    message) or something else, kept as its [String(...)] rendering. *)
Inductive Thrown : Type :=
| ErrorObj (name message : string)
| NonError (text : string).

(** [error instanceof Error ? error.message : String(error)] *)
Definition errorMessage (error : Thrown) : string :=
  match error with
  | ErrorObj _ message => message
  | NonError text => text
  end.

Definition newError (message : string) : Thrown := ErrorObj "Error" message.

Inductive Res (A : Type) : Type :=
| Ok (a : A)
| Throw (e : Thrown).
Arguments Ok {A} a.
Arguments Throw {A} e.

(** ** The monad of sequential code over a state [S] *)

Definition M (S A : Type) : Type := S -> Res A * S.

Definition ret {S A} (a : A) : M S A := fun s => (Ok a, s).

Definition throw {S A} (e : Thrown) : M S A := fun s => (Throw e, s).

Definition bind {S A B} (m : M S A) (k : A -> M S B) : M S B :=
  fun s =>
    match m s with
    | (Ok a, s') => k a s'
    | (Throw e, s') => (Throw e, s')
    end.

Declare Scope js_scope.
Delimit Scope js_scope with js.
Notation "x <- m ;; k" := (bind m (fun x => k))
  (at level 61, m at next level, right associativity) : js_scope.
Notation "m ;; k" := (bind m (fun _ => k))
  (at level 61, right associativity) : js_scope.
Open Scope js_scope.

(** [try { body } catch (error) { handler }] *)
Definition tryCatch {S A} (body : M S A) (handler : Thrown -> M S A) : M S A :=
  fun s =>
    match body s with
    | (Ok a, s') => (Ok a, s')
    | (Throw e, s') => handler e s'
    end.

(** [try { body } finally { cleanup }]: the cleanup runs on both exits and
    its own throw replaces the outcome of the body. *)
Definition tryFinally {S A} (body : M S A) (cleanup : M S unit) : M S A :=
  fun s =>
    match body s with
    | (r, s') =>
        match cleanup s' with
        | (Ok _, s'') => (r, s'')
        | (Throw e, s'') => (Throw e, s'')
        end
    end.

(** [promise.catch(() => {})] *)
Definition swallow {S A} (m : M S A) : M S unit :=
  fun s => (Ok tt, snd (m s)).

(** [for (const x of xs) { body }] *)
Fixpoint forOf {S A} (xs : list A) (body : A -> M S unit) : M S unit :=
  match xs with
  | [] => ret tt
  | x :: rest => body x ;; forOf rest body
  end.

(** [if (x) { body }] for an optional object [x] *)
Definition whenPresent {S A} (x : option A) (body : A -> M S unit) : M S unit :=
  match x with
  | Some a => body a
  | None => ret tt
  end.

Definition when {S} (b : bool) (body : M S unit) : M S unit :=
  if b then body else ret tt.

(** ** Strings *)

(** [s.includes(sub)] *)
Fixpoint includes (s sub : string) : bool :=
  if prefix sub s then true
  else match s with
       | EmptyString => false
       | String _ rest => includes rest sub
       end.

(** [s.startsWith(p)] *)
Definition startsWith (s p : string) : bool := prefix p s.

(** [n.toString()] for the integral numbers of the configuration: the plain
    decimal digits.  This is the string the code gets for a safe integer
    (below 2^53 in absolute value, [isSafeInteger] below); beyond, a number
    shows only the digits that tell it from its neighbours, and from 1e21 on
    the exponent form, which these two definitions do not follow. *)
Definition N_toString (n : N) : string := NilEmpty.string_of_uint (N.to_uint n).
Definition Z_toString (z : Z) : string := NilEmpty.string_of_int (Z.to_int z).

Definition quote : string := String (ascii_of_nat 34) EmptyString.

(** ** The browser as an environment *)

(** A page-like context: the top-level page or the Setup iframe that
    [getSetupIframe] hands out in its place. *)
Inductive Ctx : Type := TopPage | SetupFrame.

(** An element handle is known by how it was obtained. *)
Inductive Handle : Type :=
| El (ctx : Ctx) (selector : string)
| Sub (parent : Handle) (selector : string).

(** Every call that leaves the program. *)
Inductive Call : Type :=
| Launch (headless : bool) (slowMo : option N) (args : list string)
| NewPage
| SetViewport (width height : N)
| SetDefaultTimeout (ms : N)
| Goto (ctx : Ctx) (url : string)
| DocHas (ctx : Ctx) (selector : string)
| PageUrl (ctx : Ctx)
| NewURL (url : string)
| WaitForSelector (ctx : Ctx) (selector : string) (hidden : bool) (timeout : option N)
| WaitForNetworkIdle (ctx : Ctx) (idleTime : N) (timeout : option N)
| Query (ctx : Ctx) (selector : string)
| ContentFrame (h : Handle)
| HQuery (h : Handle) (selector : string)
| PClick (ctx : Ctx) (selector : string) (clickCount : option N)
| PType (ctx : Ctx) (selector text : string)
| PSelect (ctx : Ctx) (selector value : string)
| KeyPress (ctx : Ctx) (key : string)
| HClick (h : Handle)
| HType (h : Handle) (text : string)
| HChecked (h : Handle)
| HTextContent (h : Handle)
| HClickInside (h : Handle) (selector : string)
| Close
| ConsoleLog (line : string).

(** The history of calls, most recent first. *)
Definition History : Type := list Call.

(** The environment answers a call from the history before it: whether it
    throws, and its boolean (or null / non-null) and textual answers. *)
Record Env : Type := {
  rejects : History -> Call -> option Thrown;
  holds   : History -> Call -> bool;
  says    : History -> Call -> option string
}.

(** ** lib/browser.ts *)

Record Viewport : Type := { width : N; height : N }.

Record BrowserOptions : Type := {
  headless : option bool;
  slowMo   : option N;
  timeout  : option N;
  viewport : option Viewport
}.

Definition DEFAULT_OPTIONS : BrowserOptions :=
  {| headless := Some true;
     slowMo   := Some 50%N;
     timeout  := Some 60000%N;
     viewport := Some {| width := 1920; height := 1080 |} |}.

Definition orElse {A} (x d : option A) : option A :=
  match x with Some _ => x | None => d end.

(** [{ ...base, ...over }]: a key of [over] wins when it is there.  [None]
    is a key that is absent, as in the options that the commands construct
    ([{ headless: ... }]); a key written with the value [undefined], which
    the spread would copy over the default, is not told apart from it. *)
Definition spread (base over : BrowserOptions) : BrowserOptions :=
  {| headless := orElse over.(headless) base.(headless);
     slowMo   := orElse over.(slowMo) base.(slowMo);
     timeout  := orElse over.(timeout) base.(timeout);
     viewport := orElse over.(viewport) base.(viewport) |}.

Inductive Browser : Type := Chromium.

Record BrowserManager : Type := {
  browser : option Browser;
  page    : option Ctx;
  options : BrowserOptions
}.

(** [new BrowserManager(options)] *)
Definition newBrowserManager (opts : BrowserOptions) : BrowserManager :=
  {| browser := None; page := None; options := spread DEFAULT_OPTIONS opts |}.

Record SalesforceSession : Type := {
  session_browser : Browser;
  session_page : Ctx;
  instanceUrl : string;
  accessToken : string
}.

(** What [org.getConnection()] exposes. *)
Record Org : Type := {
  connection_instanceUrl : option string;
  connection_accessToken : option string
}.

(** The state the browser layer works on: the calls made so far and the
    fields of the one [BrowserManager]. *)
Record BState : Type := {
  history : History;
  manager : BrowserManager
}.

Definition record (c : Call) (s : BState) : BState :=
  {| history := c :: s.(history); manager := s.(manager) |}.

(** A truthy string: neither [undefined] nor empty. *)
Definition truthy (x : option string) : option string :=
  match x with
  | Some EmptyString => None
  | other => other
  end.

(** [x || d] on numbers *)
Definition orNumber (x : option N) (d : N) : N :=
  match x with
  | Some 0%N | None => d
  | Some n => n
  end.

(** [`${x}`] for an optional number *)
Definition showNumber (x : option N) : string :=
  match x with
  | Some n => N_toString n
  | None => "undefined"
  end.

Definition isTrue (x : option bool) : bool :=
  match x with Some true => true | _ => false end.

(** [launchOptions] of [connect], as the call that [puppeteer.launch] makes. *)
Definition launchOptions (opts : BrowserOptions) : Call :=
  Launch (isTrue opts.(headless)) opts.(slowMo)
    [ "--no-sandbox";
      "--disable-setuid-sandbox";
      "--disable-dev-shm-usage";
      "--disable-gpu";
      "--window-size=" ++ showNumber (option_map width opts.(viewport))
        ++ "," ++ showNumber (option_map height opts.(viewport)) ].

Section Browser.

Variable env : Env.

(** *** Calls into the environment *)

(** A call made for its effect. *)
Definition perform (c : Call) : M BState unit :=
  fun s =>
    match env.(rejects) s.(history) c with
    | Some e => (Throw e, record c s)
    | None => (Ok tt, record c s)
    end.

(** A call made for a boolean or for null / non-null. *)
Definition ask (c : Call) : M BState bool :=
  fun s =>
    match env.(rejects) s.(history) c with
    | Some e => (Throw e, record c s)
    | None => (Ok (env.(holds) s.(history) c), record c s)
    end.

(** A call made for a string, [None] being [null]. *)
Definition read (c : Call) : M BState (option string) :=
  fun s =>
    match env.(rejects) s.(history) c with
    | Some e => (Throw e, record c s)
    | None => (Ok (env.(says) s.(history) c), record c s)
    end.

(** [console.log(line)] *)
Definition consoleLog (line : string) : M BState unit :=
  fun s => (Ok tt, record (ConsoleLog line) s).

(** [page.waitForSelector(selector)]: resolves to the element, or throws
    when the wait times out. *)
Definition waitForSelector (ctx : Ctx) (selector : string) (timeout : option N)
  : M BState Handle :=
  perform (WaitForSelector ctx selector false timeout) ;;
  ret (El ctx selector).

(** [page.$(selector)] *)
Definition query (ctx : Ctx) (selector : string) : M BState (option Handle) :=
  found <- ask (Query ctx selector) ;;
  ret (if found then Some (El ctx selector) else None).

(** *** BrowserManager *)

Definition setBrowser (b : option Browser) : M BState unit :=
  fun s => (Ok tt, {| history := s.(history);
                      manager := {| browser := b;
                                    page := s.(manager).(page);
                                    options := s.(manager).(options) |} |}).

Definition setPage (p : option Ctx) : M BState unit :=
  fun s => (Ok tt, {| history := s.(history);
                      manager := {| browser := s.(manager).(browser);
                                    page := p;
                                    options := s.(manager).(options) |} |}).

Definition this : M BState BrowserManager :=
  fun s => (Ok s.(manager), s).

Definition frontdoorUrl (instanceUrl accessToken : string) : string :=
  instanceUrl ++ "/secur/frontdoor.jsp?sid=" ++ accessToken.

Definition connect (org : Org) : M BState SalesforceSession :=
  match truthy org.(connection_instanceUrl), truthy org.(connection_accessToken) with
  | Some instanceUrl, Some accessToken =>
      self <- this ;;
      let opts := self.(options) in
      perform (launchOptions opts) ;;
      setBrowser (Some Chromium) ;;
      perform NewPage ;;
      setPage (Some TopPage) ;;
      perform (SetViewport (orNumber (option_map width opts.(viewport)) 1920)
                           (orNumber (option_map height opts.(viewport)) 1080)) ;;
      perform (SetDefaultTimeout (orNumber opts.(timeout) 60000)) ;;
      perform (Goto TopPage (frontdoorUrl instanceUrl accessToken)) ;;
      isLoggedIn <- (lightning <- ask (DocHas TopPage ".slds-global-header") ;;
                     if lightning then ret true
                     else ask (DocHas TopPage "#phHeaderLogoImage")) ;;
      if negb isLoggedIn then
        throw (newError "Failed to authenticate to Salesforce")
      else
        ret {| session_browser := Chromium;
               session_page := TopPage;
               instanceUrl := instanceUrl;
               accessToken := accessToken |}
  | _, _ =>
      throw (newError "Unable to get Salesforce session. Please authenticate first.")
  end.

Definition getSetupUrl (page : Ctx) (setupPath : string) : M BState string :=
  currentUrl <- read (PageUrl page) ;;
  baseUrl <- read (NewURL (match currentUrl with Some u => u | None => "" end)) ;;
  let baseUrl := match baseUrl with Some o => o | None => "null" end in
  if startsWith setupPath "/lightning/" then
    ret (baseUrl ++ setupPath)
  else
    ret (baseUrl ++ "/lightning/setup/" ++ setupPath ++ "/home").

Definition waitForSetupPageLoad (page : Ctx) : M BState unit :=
  swallow (perform (WaitForSelector page ".slds-spinner" true (Some 30000%N))) ;;
  swallow (perform (WaitForSelector page
                      (".setupcontent, .setup-content, [class*=" ++ quote ++ "setup" ++ quote ++ "]")
                      false (Some 30000%N))) ;;
  swallow (perform (WaitForNetworkIdle page 500 (Some 10000%N))).

Definition navigateToSetup (page : Ctx) (setupPath : string) : M BState unit :=
  setupUrl <- getSetupUrl page setupPath ;;
  perform (Goto page setupUrl) ;;
  waitForSetupPageLoad page.

Definition getSetupIframe (page : Ctx) : M BState Ctx :=
  iframeHandle <- query page
    ("iframe[name=" ++ quote ++ "setupFrame" ++ quote ++ "], iframe.setupFrame") ;;
  match iframeHandle with
  | Some h =>
      frame <- ask (ContentFrame h) ;;
      if frame then ret SetupFrame else ret page
  | None => ret page
  end.

Definition disconnect : M BState unit :=
  self <- this ;;
  match self.(browser) with
  | Some _ =>
      perform Close ;;
      setBrowser None ;;
      setPage None
  | None => ret tt
  end.

(** *** SalesforceUI *)

Definition hasText (tag label : string) : string :=
  tag ++ ":has-text(" ++ quote ++ label ++ quote ++ ")".

Definition clickButton (page : Ctx) (label : string) : M BState unit :=
  button <- waitForSelector page
    (hasText "button" label ++ ", " ++ hasText "lightning-button" label
       ++ ", " ++ hasText "a.slds-button" label) None ;;
  perform (HClick button).

Definition setInput (page : Ctx) (selector value : string) : M BState unit :=
  waitForSelector page selector None ;;
  perform (PClick page selector (Some 3%N)) ;;
  perform (PType page selector value).

Definition setCheckbox (page : Ctx) (selector : string) (checked : bool)
  : M BState unit :=
  checkbox <- waitForSelector page selector None ;;
  isChecked <- ask (HChecked checkbox) ;;
  if negb (Bool.eqb isChecked checked) then
    perform (HClick checkbox)
  else ret tt.

Definition selectOption (page : Ctx) (selector value : string) : M BState unit :=
  waitForSelector page selector None ;;
  perform (PSelect page selector value).

Definition toastSelector : string := ".toastMessage, .slds-notify__content".

Definition waitForToast (page : Ctx) (expectedMessage : option string)
  : M BState string :=
  toast <- waitForSelector page toastSelector (Some 30000%N) ;;
  textContent <- read (HTextContent toast) ;;
  let message := match truthy textContent with Some t => t | None => "" end in
  match truthy expectedMessage with
  | Some expected =>
      if negb (includes message expected) then
        throw (newError ("Expected toast " ++ quote ++ expected ++ quote
                           ++ " but got " ++ quote ++ message ++ quote))
      else ret message
  | None => ret message
  end.

End Browser.

(** ** The options of the six configuration operations *)

Module SessionSettings.
Record t : Type := {
  sessionTimeout : option Z;
  forceLogoutOnSessionTimeout : option bool;
  lockSessionsToIp : option bool;
  requireHttpOnly : option bool;
  requireSecureConnections : option bool
}.
End SessionSettings.

Inductive Access : Type :=
| Private | PublicReadOnly | PublicReadWrite | ControlledByParent.

Definition accessText (a : Access) : string :=
  match a with
  | Private => "Private"
  | PublicReadOnly => "Public Read Only"
  | PublicReadWrite => "Public Read/Write"
  | ControlledByParent => "Controlled by Parent"
  end.

Module SharingSettings.
Record t : Type := {
  objectName : string;
  internalAccess : Access;
  externalAccess : option Access;
  grantAccessUsingHierarchies : option bool
}.
End SharingSettings.

Module ActivityCapture.
Record t : Type := {
  enabled : bool;
  captureEmails : option bool;
  captureEvents : option bool
}.
End ActivityCapture.

Module OmniChannel.
Record t : Type := {
  enabled : bool;
  enableSkillBasedRouting : option bool;
  enableExternalRouting : option bool
}.
End OmniChannel.

Module FlowActivation.
Record t : Type := {
  flowApiName : string;
  activate : bool
}.
End FlowActivation.

Module OrgWideEmail.
Record t : Type := {
  displayName : string;
  emailAddress : string;
  allowAllProfiles : bool
}.
End OrgWideEmail.

(** ** lib/setup-automations.ts *)

(** [input[type="checkbox"][id*="<id>"]] *)
Definition checkboxById (id : string) : string :=
  "input[type=" ++ quote ++ "checkbox" ++ quote ++ "][id*=" ++ quote ++ id ++ quote ++ "]".

(** [<tag>[<attr>*="<v>"]] *)
Definition byAttr (tag attr v : string) : string :=
  tag ++ "[" ++ attr ++ "*=" ++ quote ++ v ++ quote ++ "]".

Section SetupAutomations.

Variable env : Env.

(** [if (x !== undefined) { body(x) }] *)
Definition ifDefined {A} (x : option A) (body : A -> M BState unit) : M BState unit :=
  whenPresent x body.

Definition configureEinsteinActivityCapture (page : Ctx) (options : ActivityCapture.t)
  : M BState unit :=
  consoleLog "Configuring Einstein Activity Capture..." ;;
  navigateToSetup env page "ActivitySyncEngineSettings" ;;
  setupPage <- getSetupIframe env page ;;
  let toggleSelector := checkboxById "activityCapture" in
  setCheckbox env setupPage toggleSelector options.(ActivityCapture.enabled) ;;
  when options.(ActivityCapture.enabled)
    (ifDefined options.(ActivityCapture.captureEmails)
       (setCheckbox env setupPage (checkboxById "emailCapture")) ;;
     ifDefined options.(ActivityCapture.captureEvents)
       (setCheckbox env setupPage (checkboxById "eventCapture"))) ;;
  clickButton env setupPage "Save" ;;
  waitForToast env setupPage None ;;
  consoleLog "Einstein Activity Capture configured successfully".

Definition configureSessionSettings (page : Ctx) (options : SessionSettings.t)
  : M BState unit :=
  consoleLog "Configuring Session Settings..." ;;
  navigateToSetup env page "SecuritySession" ;;
  setupPage <- getSetupIframe env page ;;
  clickButton env setupPage "Edit" ;;
  perform env (WaitForNetworkIdle page 500 None) ;;
  ifDefined options.(SessionSettings.sessionTimeout)
    (fun sessionTimeout =>
       selectOption env setupPage (byAttr "select" "id" "timeout")
         (Z_toString sessionTimeout)) ;;
  ifDefined options.(SessionSettings.forceLogoutOnSessionTimeout)
    (setCheckbox env setupPage (checkboxById "forceLogout")) ;;
  ifDefined options.(SessionSettings.lockSessionsToIp)
    (setCheckbox env setupPage (checkboxById "lockIp")) ;;
  ifDefined options.(SessionSettings.requireHttpOnly)
    (setCheckbox env setupPage (checkboxById "httpOnly")) ;;
  ifDefined options.(SessionSettings.requireSecureConnections)
    (setCheckbox env setupPage (checkboxById "secureConnections")) ;;
  clickButton env setupPage "Save" ;;
  waitForToast env setupPage None ;;
  consoleLog "Session Settings configured successfully".

Definition configureOrgWideEmailAddress (page : Ctx) (options : OrgWideEmail.t)
  : M BState unit :=
  consoleLog "Configuring Org-Wide Email Address..." ;;
  navigateToSetup env page "OrgWideEmailAddresses" ;;
  setupPage <- getSetupIframe env page ;;
  clickButton env setupPage "Add" ;;
  perform env (WaitForNetworkIdle page 500 None) ;;
  setInput env setupPage (byAttr "input" "id" "displayName")
    options.(OrgWideEmail.displayName) ;;
  setInput env setupPage (byAttr "input" "id" "emailAddress")
    options.(OrgWideEmail.emailAddress) ;;
  when options.(OrgWideEmail.allowAllProfiles)
    (setCheckbox env setupPage (checkboxById "allowAll") true) ;;
  clickButton env setupPage "Save" ;;
  waitForToast env setupPage None ;;
  consoleLog "Org-Wide Email Address configured successfully".

Definition configureOmniChannel (page : Ctx) (options : OmniChannel.t)
  : M BState unit :=
  consoleLog "Configuring Omni-Channel..." ;;
  navigateToSetup env page "OmniChannelSettings" ;;
  setupPage <- getSetupIframe env page ;;
  setCheckbox env setupPage (checkboxById "enableOmni") options.(OmniChannel.enabled) ;;
  when options.(OmniChannel.enabled)
    (ifDefined options.(OmniChannel.enableSkillBasedRouting)
       (setCheckbox env setupPage (checkboxById "skillBased")) ;;
     ifDefined options.(OmniChannel.enableExternalRouting)
       (setCheckbox env setupPage (checkboxById "externalRouting"))) ;;
  clickButton env setupPage "Save" ;;
  waitForToast env setupPage None ;;
  consoleLog "Omni-Channel configured successfully".

Definition configureOrgWideDefaults (page : Ctx) (options : SharingSettings.t)
  : M BState unit :=
  consoleLog ("Configuring OWD for " ++ options.(SharingSettings.objectName) ++ "...") ;;
  navigateToSetup env page "SecuritySharing" ;;
  setupPage <- getSetupIframe env page ;;
  objectRow <- waitForSelector env setupPage
    (hasText "tr" options.(SharingSettings.objectName)) None ;;
  (* objectRow.evaluate(row => row.querySelector('a:has-text("Edit")')?.click()):
     one call; whether the row has the link, and so whether anything is
     clicked, is settled in the page and not reported back *)
  perform env (HClickInside objectRow (hasText "a" "Edit")) ;;
  perform env (WaitForNetworkIdle page 500 None) ;;
  selectOption env setupPage (byAttr "select" "id" "internalAccess")
    (accessText options.(SharingSettings.internalAccess)) ;;
  whenPresent options.(SharingSettings.externalAccess)
    (fun externalAccess =>
       selectOption env setupPage (byAttr "select" "id" "externalAccess")
         (accessText externalAccess)) ;;
  ifDefined options.(SharingSettings.grantAccessUsingHierarchies)
    (setCheckbox env setupPage (checkboxById "hierarchy")) ;;
  clickButton env setupPage "Save" ;;
  waitForToast env setupPage None ;;
  consoleLog ("OWD configured for " ++ options.(SharingSettings.objectName)).

Definition activateFlow (page : Ctx) (options : FlowActivation.t) : M BState unit :=
  let flowApiName := options.(FlowActivation.flowApiName) in
  let activate := options.(FlowActivation.activate) in
  consoleLog ((if activate then "Activating" else "Deactivating")
                ++ " Flow: " ++ flowApiName ++ "...") ;;
  navigateToSetup env page "Flows/home" ;;
  perform env (WaitForNetworkIdle page 1000 None) ;;
  searchInput <- waitForSelector env page (byAttr "input" "placeholder" "Search") None ;;
  perform env (HType searchInput flowApiName) ;;
  perform env (KeyPress page "Enter") ;;
  perform env (WaitForNetworkIdle page 500 None) ;;
  flowRow <- waitForSelector env page (hasText "tr" flowApiName) None ;;
  dropdown <- ask env (HQuery flowRow (byAttr "button" "class" "rowActions")) ;;
  when dropdown
    (perform env (HClick (Sub flowRow (byAttr "button" "class" "rowActions")))) ;;
  let actionLabel := if activate then "Activate" else "Deactivate" in
  perform env (PClick page (hasText "a" actionLabel) None) ;;
  confirmBtn <- query env page
    (hasText "button" "Confirm" ++ ", " ++ hasText "button" "OK") ;;
  whenPresent confirmBtn (fun confirmBtn => perform env (HClick confirmBtn)) ;;
  waitForToast env page None ;;
  consoleLog ("Flow " ++ flowApiName ++ " "
                ++ (if activate then "activated" else "deactivated")).

End SetupAutomations.

(** ** commands/ui/setup/apply.ts *)

(** [interface SetupConfig]: every section is optional. *)
Record SetupConfig : Type := {
  sessionSettings : option SessionSettings.t;
  sharingSettings : option (list SharingSettings.t);
  einsteinActivityCapture : option ActivityCapture.t;
  omniChannel : option OmniChannel.t;
  flows : option (list FlowActivation.t);
  orgWideEmails : option (list OrgWideEmail.t)
}.

Definition emptyConfig : SetupConfig :=
  {| sessionSettings := None; sharingSettings := None;
     einsteinActivityCapture := None; omniChannel := None;
     flows := None; orgWideEmails := None |}.

(** The configuration file is a JSON object: its members in the order they
    are written. *)
Inductive Member : Type :=
| MemSessionSettings (v : SessionSettings.t)
| MemSharingSettings (v : list SharingSettings.t)
| MemEinsteinActivityCapture (v : ActivityCapture.t)
| MemOmniChannel (v : OmniChannel.t)
| MemFlows (v : list FlowActivation.t)
| MemOrgWideEmails (v : list OrgWideEmail.t).

Definition Document : Type := list Member.

Definition setMember (config : SetupConfig) (m : Member) : SetupConfig :=
  match m with
  | MemSessionSettings v =>
      {| sessionSettings := Some v;
         sharingSettings := config.(sharingSettings);
         einsteinActivityCapture := config.(einsteinActivityCapture);
         omniChannel := config.(omniChannel);
         flows := config.(flows);
         orgWideEmails := config.(orgWideEmails) |}
  | MemSharingSettings v =>
      {| sessionSettings := config.(sessionSettings);
         sharingSettings := Some v;
         einsteinActivityCapture := config.(einsteinActivityCapture);
         omniChannel := config.(omniChannel);
         flows := config.(flows);
         orgWideEmails := config.(orgWideEmails) |}
  | MemEinsteinActivityCapture v =>
      {| sessionSettings := config.(sessionSettings);
         sharingSettings := config.(sharingSettings);
         einsteinActivityCapture := Some v;
         omniChannel := config.(omniChannel);
         flows := config.(flows);
         orgWideEmails := config.(orgWideEmails) |}
  | MemOmniChannel v =>
      {| sessionSettings := config.(sessionSettings);
         sharingSettings := config.(sharingSettings);
         einsteinActivityCapture := config.(einsteinActivityCapture);
         omniChannel := Some v;
         flows := config.(flows);
         orgWideEmails := config.(orgWideEmails) |}
  | MemFlows v =>
      {| sessionSettings := config.(sessionSettings);
         sharingSettings := config.(sharingSettings);
         einsteinActivityCapture := config.(einsteinActivityCapture);
         omniChannel := config.(omniChannel);
         flows := Some v;
         orgWideEmails := config.(orgWideEmails) |}
  | MemOrgWideEmails v =>
      {| sessionSettings := config.(sessionSettings);
         sharingSettings := config.(sharingSettings);
         einsteinActivityCapture := config.(einsteinActivityCapture);
         omniChannel := config.(omniChannel);
         flows := config.(flows);
         orgWideEmails := Some v |}
  end.

(** [JSON.parse] of the document: a key written twice keeps its last value. *)
Definition parseConfig (doc : Document) : SetupConfig :=
  fold_left setMember doc emptyConfig.

(** The key of a member, for documents that write each key once. *)
Inductive Key : Type :=
| KSession | KSharing | KEinstein | KOmni | KFlows | KEmails.

Definition keyOf (m : Member) : Key :=
  match m with
  | MemSessionSettings _ => KSession
  | MemSharingSettings _ => KSharing
  | MemEinsteinActivityCapture _ => KEinstein
  | MemOmniChannel _ => KOmni
  | MemFlows _ => KFlows
  | MemOrgWideEmails _ => KEmails
  end.

Module ApplySetupResult.
Record t : Type := {
  success : bool;
  message : string;
  applied : list string;
  failed : list string
}.
End ApplySetupResult.

Record Flags : Type := {
  targetOrg : Org;
  configFile : string;
  noHeadless : bool;
  continueOnError : bool
}.

(** What the command shows to its user. *)
Inductive Ux : Type :=
| SpinnerStart (text : string)
| SpinnerStop
| Log (text : string)
| LogSuccess (text : string)
| Warn (text : string).

(** The state of one run: the browser layer, the output so far (most recent
    first) and the two local arrays. *)
Record CState : Type := {
  below : BState;
  ux : list Ux;
  applied : list string;
  failed : list string
}.

Definition lift {A} (m : M BState A) : M CState A :=
  fun s =>
    match m s.(below) with
    | (r, b') => (r, {| below := b'; ux := s.(ux);
                        applied := s.(applied); failed := s.(failed) |})
    end.

Definition emit (u : Ux) : M CState unit :=
  fun s => (Ok tt, {| below := s.(below); ux := u :: s.(ux);
                      applied := s.(applied); failed := s.(failed) |}).

Definition spinnerStart (text : string) : M CState unit := emit (SpinnerStart text).
Definition spinnerStop : M CState unit := emit SpinnerStop.
Definition log (text : string) : M CState unit := emit (Log text).
Definition logSuccess (text : string) : M CState unit := emit (LogSuccess text).
Definition warn (text : string) : M CState unit := emit (Warn text).

(** [this.error(text)] of the command framework throws a [CLIError]. *)
Definition error {A} (text : string) : M CState A := throw (ErrorObj "CLIError" text).

(** [applied.push(x)], [failed.push(x)] *)
Definition pushApplied (x : string) : M CState unit :=
  fun s => (Ok tt, {| below := s.(below); ux := s.(ux);
                      applied := (s.(applied) ++ [x])%list; failed := s.(failed) |}).

Definition pushFailed (x : string) : M CState unit :=
  fun s => (Ok tt, {| below := s.(below); ux := s.(ux);
                      applied := s.(applied); failed := (s.(failed) ++ [x])%list |}).

Definition get : M CState CState := fun s => (Ok s, s).

(** [s.repeat(n)] *)
Fixpoint repeatString (s : string) (n : nat) : string :=
  match n with
  | O => ""
  | S k => s ++ repeatString s k
  end.

Definition newline : string := String (ascii_of_nat 10) EmptyString.

(** The check mark and the cross of the summary, in UTF-8. *)
Definition checkMark : string :=
  String (ascii_of_nat 226) (String (ascii_of_nat 156) (String (ascii_of_nat 147) "")).
Definition crossMark : string :=
  String (ascii_of_nat 226) (String (ascii_of_nat 156) (String (ascii_of_nat 151) "")).

Definition lengthText {A} (l : list A) : string := N_toString (N.of_nat (length l)).

Section SetupApply.

Variable env : Env.
Variable flags : Flags.

(** The six blocks of [run], in the order they are written. *)

Definition applySessionSettings (session : SalesforceSession) (config : SetupConfig)
  : M CState unit :=
  whenPresent config.(sessionSettings) (fun sessionSettings =>
    tryCatch
      (spinnerStart "Applying session settings..." ;;
       lift (configureSessionSettings env session.(session_page) sessionSettings) ;;
       spinnerStop ;;
       pushApplied "Session Settings" ;;
       logSuccess "Session settings applied")
      (fun error =>
         spinnerStop ;;
         let msg := "Session Settings: " ++ errorMessage error in
         pushFailed msg ;;
         warn msg ;;
         if negb flags.(continueOnError) then throw error else ret tt)).

Definition applySharingSettings (session : SalesforceSession) (config : SetupConfig)
  : M CState unit :=
  whenPresent config.(sharingSettings) (fun sharingSettings =>
    forOf sharingSettings (fun sharing =>
      let objectName := sharing.(SharingSettings.objectName) in
      tryCatch
        (spinnerStart ("Applying sharing settings for " ++ objectName ++ "...") ;;
         lift (configureOrgWideDefaults env session.(session_page) sharing) ;;
         spinnerStop ;;
         pushApplied ("Sharing: " ++ objectName) ;;
         logSuccess ("Sharing settings applied for " ++ objectName))
        (fun error =>
           spinnerStop ;;
           let msg := "Sharing " ++ objectName ++ ": " ++ errorMessage error in
           pushFailed msg ;;
           warn msg ;;
           if negb flags.(continueOnError) then throw error else ret tt))).

Definition applyEinsteinActivityCapture (session : SalesforceSession) (config : SetupConfig)
  : M CState unit :=
  whenPresent config.(einsteinActivityCapture) (fun einsteinActivityCapture =>
    tryCatch
      (spinnerStart "Applying Einstein Activity Capture settings..." ;;
       lift (configureEinsteinActivityCapture env session.(session_page)
               einsteinActivityCapture) ;;
       spinnerStop ;;
       pushApplied "Einstein Activity Capture" ;;
       logSuccess "Einstein Activity Capture settings applied")
      (fun error =>
         spinnerStop ;;
         let msg := "Einstein Activity Capture: " ++ errorMessage error in
         pushFailed msg ;;
         warn msg ;;
         if negb flags.(continueOnError) then throw error else ret tt)).

Definition applyOmniChannel (session : SalesforceSession) (config : SetupConfig)
  : M CState unit :=
  whenPresent config.(omniChannel) (fun omniChannel =>
    tryCatch
      (spinnerStart "Applying Omni-Channel settings..." ;;
       lift (configureOmniChannel env session.(session_page) omniChannel) ;;
       spinnerStop ;;
       pushApplied "Omni-Channel" ;;
       logSuccess "Omni-Channel settings applied")
      (fun error =>
         spinnerStop ;;
         let msg := "Omni-Channel: " ++ errorMessage error in
         pushFailed msg ;;
         warn msg ;;
         if negb flags.(continueOnError) then throw error else ret tt)).

Definition applyFlows (session : SalesforceSession) (config : SetupConfig)
  : M CState unit :=
  whenPresent config.(flows) (fun flows =>
    forOf flows (fun flow =>
      let flowApiName := flow.(FlowActivation.flowApiName) in
      let activate := flow.(FlowActivation.activate) in
      tryCatch
        (spinnerStart ((if activate then "Activating" else "Deactivating")
                         ++ " flow " ++ flowApiName ++ "...") ;;
         lift (activateFlow env session.(session_page) flow) ;;
         spinnerStop ;;
         pushApplied ("Flow: " ++ flowApiName) ;;
         logSuccess ("Flow " ++ flowApiName ++ " "
                       ++ (if activate then "activated" else "deactivated")))
        (fun error =>
           spinnerStop ;;
           let msg := "Flow " ++ flowApiName ++ ": " ++ errorMessage error in
           pushFailed msg ;;
           warn msg ;;
           if negb flags.(continueOnError) then throw error else ret tt))).

Definition applyOrgWideEmails (session : SalesforceSession) (config : SetupConfig)
  : M CState unit :=
  whenPresent config.(orgWideEmails) (fun orgWideEmails =>
    forOf orgWideEmails (fun email =>
      let displayName := email.(OrgWideEmail.displayName) in
      tryCatch
        (spinnerStart ("Configuring org-wide email: " ++ displayName ++ "...") ;;
         lift (configureOrgWideEmailAddress env session.(session_page) email) ;;
         spinnerStop ;;
         pushApplied ("Org-Wide Email: " ++ displayName) ;;
         logSuccess ("Org-wide email configured: " ++ displayName))
        (fun error =>
           spinnerStop ;;
           let msg := "Org-Wide Email " ++ displayName ++ ": " ++ errorMessage error in
           pushFailed msg ;;
           warn msg ;;
           if negb flags.(continueOnError) then throw error else ret tt))).

(** The summary and the value returned. *)
Definition summary : M CState ApplySetupResult.t :=
  log (newline ++ repeatString "=" 60) ;;
  log "CONFIGURATION SUMMARY" ;;
  log (repeatString "=" 60) ;;
  s <- get ;;
  log ("Applied: " ++ lengthText s.(applied)) ;;
  forOf s.(applied) (fun item => log ("  " ++ checkMark ++ " " ++ item)) ;;
  when (0 <? length s.(failed))%nat
    (log ("Failed: " ++ lengthText s.(failed)) ;;
     forOf s.(failed) (fun item => log ("  " ++ crossMark ++ " " ++ item))) ;;
  log (repeatString "=" 60) ;;
  ret {| ApplySetupResult.success := (length s.(failed) =? 0)%nat;
         ApplySetupResult.message :=
           "Applied " ++ lengthText s.(applied) ++ " settings, "
             ++ lengthText s.(failed) ++ " failed";
         ApplySetupResult.applied := s.(applied);
         ApplySetupResult.failed := s.(failed) |}.

(** The body of the outer [try]. *)
Definition runTry (config : SetupConfig) : M CState ApplySetupResult.t :=
  session <- lift (connect env flags.(targetOrg)) ;;
  spinnerStop ;;
  log ("Connected to: " ++ session.(instanceUrl)) ;;
  applySessionSettings session config ;;
  applySharingSettings session config ;;
  applyEinsteinActivityCapture session config ;;
  applyOmniChannel session config ;;
  applyFlows session config ;;
  applyOrgWideEmails session config ;;
  summary.

(** The outer [catch]. *)
Definition runCatch (e : Thrown) : M CState ApplySetupResult.t :=
  spinnerStop ;;
  let errorMessage := errorMessage e in
  error ("Configuration failed: " ++ errorMessage).

(** The state in which the outer [try] is entered: the browser manager
    was just constructed, both arrays are empty. *)
Definition start : CState :=
  {| below := {| history := [];
                 manager := newBrowserManager
                              {| headless := Some (negb flags.(noHeadless));
                                 slowMo := None; timeout := None;
                                 viewport := None |} |};
     ux := [ SpinnerStart "Connecting to Salesforce...";
             Log ("Loaded configuration from: " ++ flags.(configFile)) ];
     applied := [];
     failed := [] |}.

(** [SetupApply.run], after the flags and the configuration file were read. *)
Definition run (config : SetupConfig) : Res ApplySetupResult.t * CState :=
  tryFinally (tryCatch (runTry config) runCatch) (lift (disconnect env)) start.

End SetupApply.

(** ** The batch as a sequence of operations

    The reading of the batch that the specification gives: a closed variant
    of six kinds of operation, listed in a fixed category order, each
    attempted in turn.  [SetupApply.run] is compared with it below. *)

Inductive Operation : Type :=
| OpSessionSettings (v : SessionSettings.t)
| OpSharingSettings (v : SharingSettings.t)
| OpActivityCapture (v : ActivityCapture.t)
| OpOmniChannel (v : OmniChannel.t)
| OpFlowActivation (v : FlowActivation.t)
| OpOrgWideEmail (v : OrgWideEmail.t).

Definition single {A} (x : option A) : list A :=
  match x with Some a => [a] | None => [] end.

Definition entries {A} (x : option (list A)) : list A :=
  match x with Some l => l | None => [] end.

(** The operations of a batch in the fixed category order; a category that
    is absent contributes nothing. *)
Definition operations (config : SetupConfig) : list Operation :=
  (map OpSessionSettings (single config.(sessionSettings))
   ++ map OpSharingSettings (entries config.(sharingSettings))
   ++ map OpActivityCapture (single config.(einsteinActivityCapture))
   ++ map OpOmniChannel (single config.(omniChannel))
   ++ map OpFlowActivation (entries config.(flows))
   ++ map OpOrgWideEmail (entries config.(orgWideEmails)))%list.

(** The position of a category in the fixed order. *)
Definition rank (op : Operation) : nat :=
  match op with
  | OpSessionSettings _ => 0
  | OpSharingSettings _ => 1
  | OpActivityCapture _ => 2
  | OpOmniChannel _ => 3
  | OpFlowActivation _ => 4
  | OpOrgWideEmail _ => 5
  end.

Definition dispatch (env : Env) (page : Ctx) (op : Operation) : M BState unit :=
  match op with
  | OpSessionSettings v => configureSessionSettings env page v
  | OpSharingSettings v => configureOrgWideDefaults env page v
  | OpActivityCapture v => configureEinsteinActivityCapture env page v
  | OpOmniChannel v => configureOmniChannel env page v
  | OpFlowActivation v => activateFlow env page v
  | OpOrgWideEmail v => configureOrgWideEmailAddress env page v
  end.

(** The text with which the spinner announces an attempt. *)
Definition spinnerText (op : Operation) : string :=
  match op with
  | OpSessionSettings _ => "Applying session settings..."
  | OpSharingSettings v =>
      "Applying sharing settings for " ++ v.(SharingSettings.objectName) ++ "..."
  | OpActivityCapture _ => "Applying Einstein Activity Capture settings..."
  | OpOmniChannel _ => "Applying Omni-Channel settings..."
  | OpFlowActivation v =>
      (if v.(FlowActivation.activate) then "Activating" else "Deactivating")
        ++ " flow " ++ v.(FlowActivation.flowApiName) ++ "..."
  | OpOrgWideEmail v =>
      "Configuring org-wide email: " ++ v.(OrgWideEmail.displayName) ++ "..."
  end.

(** The label pushed to [applied]. *)
Definition appliedLabel (op : Operation) : string :=
  match op with
  | OpSessionSettings _ => "Session Settings"
  | OpSharingSettings v => "Sharing: " ++ v.(SharingSettings.objectName)
  | OpActivityCapture _ => "Einstein Activity Capture"
  | OpOmniChannel _ => "Omni-Channel"
  | OpFlowActivation v => "Flow: " ++ v.(FlowActivation.flowApiName)
  | OpOrgWideEmail v => "Org-Wide Email: " ++ v.(OrgWideEmail.displayName)
  end.

(** The label that starts an entry of [failed]. *)
Definition failedLabel (op : Operation) : string :=
  match op with
  | OpSessionSettings _ => "Session Settings"
  | OpSharingSettings v => "Sharing " ++ v.(SharingSettings.objectName)
  | OpActivityCapture _ => "Einstein Activity Capture"
  | OpOmniChannel _ => "Omni-Channel"
  | OpFlowActivation v => "Flow " ++ v.(FlowActivation.flowApiName)
  | OpOrgWideEmail v => "Org-Wide Email " ++ v.(OrgWideEmail.displayName)
  end.

Definition failedEntry (op : Operation) (e : Thrown) : string :=
  failedLabel op ++ ": " ++ errorMessage e.

Definition successText (op : Operation) : string :=
  match op with
  | OpSessionSettings _ => "Session settings applied"
  | OpSharingSettings v =>
      "Sharing settings applied for " ++ v.(SharingSettings.objectName)
  | OpActivityCapture _ => "Einstein Activity Capture settings applied"
  | OpOmniChannel _ => "Omni-Channel settings applied"
  | OpFlowActivation v =>
      "Flow " ++ v.(FlowActivation.flowApiName) ++ " "
        ++ (if v.(FlowActivation.activate) then "activated" else "deactivated")
  | OpOrgWideEmail v =>
      "Org-wide email configured: " ++ v.(OrgWideEmail.displayName)
  end.

(** One attempt: the shape that the six blocks of [run] share. *)
Definition attempt (env : Env) (flags : Flags) (page : Ctx) (op : Operation)
  : M CState unit :=
  tryCatch
    (spinnerStart (spinnerText op) ;;
     lift (dispatch env page op) ;;
     spinnerStop ;;
     pushApplied (appliedLabel op) ;;
     logSuccess (successText op))
    (fun error =>
       spinnerStop ;;
       let msg := failedEntry op error in
       pushFailed msg ;;
       warn msg ;;
       if negb flags.(continueOnError) then throw error else ret tt).

(** The result of one operation: [None] for normal completion, the error
    otherwise. *)
Definition OperationResult : Type := (Operation * option Thrown)%type.

(** The ordered stream of results of a batch, with the browser state it
    leaves: operations are dispatched in order, and after a failure the
    rest is dispatched only when [continue] is set. *)
Fixpoint results (env : Env) (continue : bool) (page : Ctx) (ops : list Operation)
  (b : BState) : list OperationResult * BState :=
  match ops with
  | [] => ([], b)
  | op :: rest =>
      match dispatch env page op b with
      | (Ok _, b') =>
          let (rs, b'') := results env continue page rest b' in
          ((op, None) :: rs, b'')
      | (Throw e, b') =>
          if continue then
            let (rs, b'') := results env continue page rest b' in
            ((op, Some e) :: rs, b'')
          else ([(op, Some e)], b')
      end
  end.

Definition attempted (rs : list OperationResult) : list Operation := map fst rs.

(** The reduction of the stream of results into the two lists. *)
Definition appliedOf (rs : list OperationResult) : list string :=
  flat_map (fun r => match snd r with
                     | None => [appliedLabel (fst r)]
                     | Some _ => []
                     end) rs.

Definition failedOf (rs : list OperationResult) : list string :=
  flat_map (fun r => match snd r with
                     | None => []
                     | Some e => [failedEntry (fst r) e]
                     end) rs.

(** What the command shows for a stream of results, in the order shown. *)
Definition shownFor (rs : list OperationResult) : list Ux :=
  flat_map (fun r => match snd r with
                     | None => [SpinnerStart (spinnerText (fst r)); SpinnerStop;
                                LogSuccess (successText (fst r))]
                     | Some e => [SpinnerStart (spinnerText (fst r)); SpinnerStop;
                                  Warn (failedEntry (fst r) e)]
                     end) rs.

(** The error of the first operation that failed. *)
Fixpoint firstFailure (rs : list OperationResult) : option Thrown :=
  match rs with
  | [] => None
  | (_, Some e) :: _ => Some e
  | (_, None) :: rest => firstFailure rest
  end.

(** The error that leaves the sequence of attempts: the first failure when
    the batch does not continue on error. *)
Definition escaping (continue : bool) (rs : list OperationResult) : option Thrown :=
  if continue then None else firstFailure rs.

(** How the sequence of attempts ends. *)
Definition outcomeOf (escaped : option Thrown) : Res unit :=
  match escaped with
  | None => Ok tt
  | Some e => Throw e
  end.

(** The stream of results of operations that all completed. *)
Definition succeeded (ops : list Operation) : list OperationResult :=
  map (fun op => (op, None)) ops.

(** ** Reading a run *)

(** The texts of the spinner, in the order they were shown. *)
Definition spinnerStarts (shown : list Ux) : list string :=
  flat_map (fun u => match u with SpinnerStart t => [t] | _ => [] end) (rev shown).

(** The number of [browser.close()] calls in a history. *)
Fixpoint released (h : History) : nat :=
  match h with
  | [] => 0
  | Close :: rest => S (released rest)
  | _ :: rest => released rest
  end.

(** The number of browsers that [puppeteer.launch] handed out in a history:
    the launches that did not throw. *)
Fixpoint acquired (env : Env) (h : History) : nat :=
  match h with
  | [] => 0
  | Launch hl sm args :: rest =>
      match env.(rejects) rest (Launch hl sm args) with
      | None => S (acquired env rest)
      | Some _ => acquired env rest
      end
  | _ :: rest => acquired env rest
  end.

(** The spinner texts of the attempts: all but the first one shown,
    [Connecting to Salesforce...]. *)
Definition attemptsShown (shown : list Ux) : list string := tl (spinnerStarts shown).

(** A browser-layer computation is quiet for [P] when it leaves the
    [browser] field of the manager as it was and every call it makes
    satisfies [P]. *)
Definition quiet (P : Call -> Prop) {A} (m : M BState A) : Prop :=
  forall s,
    (snd (m s)).(manager).(browser) = s.(manager).(browser)
    /\ exists added,
        (snd (m s)).(history) = (added ++ s.(history))%list /\ Forall P added.

(** Calls that neither hand out nor release a browser. *)
Definition keepsBrowser (c : Call) : Prop :=
  match c with
  | Launch _ _ _ | Close => False
  | _ => True
  end.

(** The value that [run] returns from a state. *)
Definition resultOf (s : CState) : ApplySetupResult.t :=
  {| ApplySetupResult.success := (length s.(failed) =? 0)%nat;
     ApplySetupResult.message :=
       "Applied " ++ lengthText s.(applied) ++ " settings, "
         ++ lengthText s.(failed) ++ " failed";
     ApplySetupResult.applied := s.(applied);
     ApplySetupResult.failed := s.(failed) |}.

(** The state in which the attempts start, once [connect] returned. *)
Definition connected (flags : Flags) (session : SalesforceSession) (b : BState) : CState :=
  {| below := b;
     ux := Log ("Connected to: " ++ session.(instanceUrl)) :: SpinnerStop
             :: (start flags).(ux);
     applied := [];
     failed := [] |}.

(** The error that the outer [catch] hands to the caller. *)
Definition configurationFailed (e : Thrown) : Thrown :=
  ErrorObj "CLIError" ("Configuration failed: " ++ errorMessage e).

(** Two states of a run that differ at most by lines logged in between. *)
Definition sameButLogs (s s' : CState) : Prop :=
  s'.(below) = s.(below) /\ s'.(applied) = s.(applied) /\ s'.(failed) = s.(failed)
  /\ spinnerStarts s'.(ux) = spinnerStarts s.(ux).

(** A computation that only logs, and returns [a]. *)
Definition logging {A} (m : M CState A) (a : A) : Prop :=
  forall s, exists s', m s = (Ok a, s') /\ sameButLogs s s'.

(** The outer [try] with its [catch], before the [finally] block runs. *)
Definition runGuarded (env : Env) (flags : Flags) (config : SetupConfig)
  : Res ApplySetupResult.t * CState :=
  tryCatch (runTry env flags config) runCatch (start flags).

(** The stream of results of a run whose [connect] returned [session] and
    left the browser layer in [b]. *)
Definition stream (env : Env) (flags : Flags) (config : SetupConfig)
  (session : SalesforceSession) (b : BState) : list OperationResult :=
  fst (results env flags.(continueOnError) session.(session_page)
         (operations config) b).

(** What [connect] does when the run starts. *)
Definition connecting (env : Env) (flags : Flags) : Res SalesforceSession * BState :=
  connect env flags.(targetOrg) (start flags).(below).

(** The number of browsers that the manager holds: one or none. *)
Definition held (s : BState) : nat :=
  match s.(manager).(browser) with
  | Some _ => 1
  | None => 0
  end.

(** The run ended with the error that [browser.close()] threw. *)
Definition closeThrew {A} (env : Env) (out : Res A * CState) : Prop :=
  exists h e,
    (snd out).(below).(history) = Close :: h
    /\ env.(rejects) h Close = Some e
    /\ fst out = Throw e.

(** The operations that one member of the document stands for, in the
    order it lists them. *)
Definition operationsOf (m : Member) : list Operation :=
  match m with
  | MemSessionSettings v => [OpSessionSettings v]
  | MemSharingSettings l => map OpSharingSettings l
  | MemEinsteinActivityCapture v => [OpActivityCapture v]
  | MemOmniChannel v => [OpOmniChannel v]
  | MemFlows l => map OpFlowActivation l
  | MemOrgWideEmails l => map OpOrgWideEmail l
  end.

(** The position of the category that a key names. *)
Definition rankOf (k : Key) : nat :=
  match k with
  | KSession => 0
  | KSharing => 1
  | KEinstein => 2
  | KOmni => 3
  | KFlows => 4
  | KEmails => 5
  end.

(** The operations of one category among a list of operations. *)
Definition ofCategory (k : Key) (ops : list Operation) : list Operation :=
  filter (fun op => rank op =? rankOf k)%nat ops.

(** The section of a configuration under a key, as a member. *)
Definition memberAt (config : SetupConfig) (k : Key) : option Member :=
  match k with
  | KSession => option_map MemSessionSettings config.(sessionSettings)
  | KSharing => option_map MemSharingSettings config.(sharingSettings)
  | KEinstein => option_map MemEinsteinActivityCapture config.(einsteinActivityCapture)
  | KOmni => option_map MemOmniChannel config.(omniChannel)
  | KFlows => option_map MemFlows config.(flows)
  | KEmails => option_map MemOrgWideEmails config.(orgWideEmails)
  end.

(** ** Failing to authenticate *)

(** The calls of [connect] up to the navigation to the front door, in the
    order they are made. *)
Definition loginCalls (opts : BrowserOptions) (instanceUrl accessToken : string)
  : list Call :=
  [ launchOptions opts;
    NewPage;
    SetViewport (orNumber (option_map width opts.(viewport)) 1920)
                (orNumber (option_map height opts.(viewport)) 1080);
    SetDefaultTimeout (orNumber opts.(timeout) 60000);
    Goto TopPage (frontdoorUrl instanceUrl accessToken) ].

(** The environment lets every call of [calls] through, made in turn after
    the history [h]. *)
Fixpoint accepted (env : Env) (h : History) (calls : list Call) : bool :=
  match calls with
  | [] => true
  | c :: rest =>
      match env.(rejects) h c with
      | None => accepted env (c :: h) rest
      | Some _ => false
      end
  end.

(** The page shown after the history [h] has neither the Lightning header
    nor the Classic logo. *)
Definition noLoginMarker (env : Env) (h : History) : bool :=
  match env.(rejects) h (DocHas TopPage ".slds-global-header") with
  | Some _ => false
  | None =>
      negb (env.(holds) h (DocHas TopPage ".slds-global-header"))
      && match env.(rejects) (DocHas TopPage ".slds-global-header" :: h)
                 (DocHas TopPage "#phHeaderLogoImage") with
         | Some _ => false
         | None =>
             negb (env.(holds) (DocHas TopPage ".slds-global-header" :: h)
                     (DocHas TopPage "#phHeaderLogoImage"))
         end
  end.

(** The two ways in which [connect], entered in state [s], finds no usable
    session, with the error of each. *)
Inductive AuthenticationFailed (env : Env) (org : Org) (s : BState) : Thrown -> Prop :=
| SessionMissing :
    truthy org.(connection_instanceUrl) = None
    \/ truthy org.(connection_accessToken) = None ->
    AuthenticationFailed env org s
      (newError "Unable to get Salesforce session. Please authenticate first.")
| MarkerAbsent (instanceUrl accessToken : string) :
    truthy org.(connection_instanceUrl) = Some instanceUrl ->
    truthy org.(connection_accessToken) = Some accessToken ->
    accepted env s.(history)
      (loginCalls s.(manager).(options) instanceUrl accessToken) = true ->
    noLoginMarker env
      (rev (loginCalls s.(manager).(options) instanceUrl accessToken)
       ++ s.(history))%list = true ->
    AuthenticationFailed env org s (newError "Failed to authenticate to Salesforce").

(** The front-door URL that [connect] navigates to for [org]. *)
Definition frontdoorOf (org : Org) : string :=
  frontdoorUrl (match org.(connection_instanceUrl) with Some u => u | None => "" end)
               (match org.(connection_accessToken) with Some t => t | None => "" end).

(** A login page without markers: nothing throws, no question is answered
    with yes. *)
Definition loginPageOnly : Env :=
  {| rejects := fun _ _ => None;
     holds := fun _ _ => false;
     says := fun _ _ => None |}.

Definition noToken : Org :=
  {| connection_instanceUrl := Some "https://acme.my.salesforce.com";
     connection_accessToken := None |}.

(** ** Checkboxes *)

Definition ctx_eqb (a b : Ctx) : bool :=
  match a, b with
  | TopPage, TopPage | SetupFrame, SetupFrame => true
  | _, _ => false
  end.

Fixpoint handle_eqb (a b : Handle) : bool :=
  match a, b with
  | El c s, El c' s' => ctx_eqb c c' && (s =? s')%string
  | Sub p s, Sub p' s' => handle_eqb p p' && (s =? s')%string
  | _, _ => false
  end.

(** The call is a click on the element [box]. *)
Definition isClickOn (box : Handle) (c : Call) : bool :=
  match c with
  | HClick h => handle_eqb h box
  | _ => false
  end.

(** The number of clicks on [box] in a history: the toggle interactions. *)
Fixpoint toggles (box : Handle) (h : History) : nat :=
  match h with
  | [] => 0
  | c :: rest => (if isClickOn box c then 1 else 0) + toggles box rest
  end.


(** The checked state of [box] after a history, from its initial state. *)
Fixpoint checkedAfter (box : Handle) (initial : bool) (h : History) : bool :=
  match h with
  | [] => initial
  | c :: rest => xorb (isClickOn box c) (checkedAfter box initial rest)
  end.

(** A page of checkboxes that all start in the state [initial]. *)
Definition checkboxes (initial : bool) : Env :=
  {| rejects := fun _ _ => None;
     holds := fun h c =>
                match c with
                | HChecked box => checkedAfter box initial h
                | _ => true
                end;
     says := fun _ _ => Some "Saved" |}.

Definition emptyState : BState :=
  {| history := []; manager := newBrowserManager
                                 {| headless := None; slowMo := None;
                                    timeout := None; viewport := None |} |}.

(** ** Selectors that a call names *)

Fixpoint handleNames (selector : string) (h : Handle) : bool :=
  match h with
  | El _ s => (s =? selector)%string
  | Sub parent s => (s =? selector)%string || handleNames selector parent
  end.

(** The call names [selector], directly or through the handle it acts on. *)
Definition names (selector : string) (c : Call) : bool :=
  match c with
  | DocHas _ s | WaitForSelector _ s _ _ | Query _ s | PClick _ s _
  | PType _ s _ | PSelect _ s _ => (s =? selector)%string
  | ContentFrame h | HClick h | HType h _ | HChecked h | HTextContent h =>
      handleNames selector h
  | HQuery h s | HClickInside h s => (s =? selector)%string || handleNames selector h
  | _ => false
  end.

(** The call leaves the controls of both selectors alone. *)
Definition leavesAlone (selector selector' : string) (c : Call) : Prop :=
  names selector c = false /\ names selector' c = false.

Definition disabledCapture (emails events : option bool) : ActivityCapture.t :=
  {| ActivityCapture.enabled := false;
     ActivityCapture.captureEmails := emails;
     ActivityCapture.captureEvents := events |}.

Definition disabledOmni (skill external : option bool) : OmniChannel.t :=
  {| OmniChannel.enabled := false;
     OmniChannel.enableSkillBasedRouting := skill;
     OmniChannel.enableExternalRouting := external |}.

(** The calls that a browser-layer computation adds to the history. *)
Definition addedBy {A} (m : M BState A) (s : BState) : list Call :=
  firstn (length (snd (m s)).(history) - length s.(history)) (snd (m s)).(history).

(** ** Toasts *)

(** A page on which a toast with the given text content shows up. *)
Definition toastPage (textContent : option string) : Env :=
  {| rejects := fun _ _ => None;
     holds := fun _ _ => true;
     says := fun _ _ => textContent |}.

(** ** Scripted browsers

    Concrete environments and batches on which the definitions are run. *)

Definition timeoutError : Thrown :=
  ErrorObj "TimeoutError" "Waiting for selector failed: 60000ms exceeded".

(** A browser in which the calls that [bad] selects throw, every question
    is answered with yes and every toast reads [Saved]. *)
Definition scripted (bad : Call -> option Thrown) : Env :=
  {| rejects := fun _ c => bad c;
     holds := fun _ _ => true;
     says := fun _ c =>
               match c with
               | PageUrl _ => Some "https://acme.my.salesforce.com/lightning/page/home"
               | NewURL _ => Some "https://acme.my.salesforce.com"
               | _ => Some "Saved"
               end |}.

Definition nothingFails (c : Call) : option Thrown := None.

(** The table row of [name] never shows up. *)
Definition rowMissing (name : string) (c : Call) : option Thrown :=
  match c with
  | WaitForSelector _ selector _ _ =>
      if (selector =? hasText "tr" name)%string then Some timeoutError else None
  | _ => None
  end.

(** No toast ever shows up: every operation fails at its last step. *)
Definition toastMissing (c : Call) : option Thrown :=
  match c with
  | WaitForSelector _ selector _ _ =>
      if (selector =? toastSelector)%string then Some timeoutError else None
  | _ => None
  end.

(** The browser refuses to close. *)
Definition closeError : Thrown := newError "Protocol error: Connection closed.".

Definition closeFails (c : Call) : option Thrown :=
  match c with
  | Close => Some closeError
  | _ => None
  end.

Definition acme : Org :=
  {| connection_instanceUrl := Some "https://acme.my.salesforce.com";
     connection_accessToken := Some "00Dxx0000001gPL!AQ4AQ" |}.

Definition acmeSession : SalesforceSession :=
  {| session_browser := Chromium;
     session_page := TopPage;
     instanceUrl := "https://acme.my.salesforce.com";
     accessToken := "00Dxx0000001gPL!AQ4AQ" |}.

Definition batchFlags (continue : bool) : Flags :=
  {| targetOrg := acme; configFile := "setup-config.json";
     noHeadless := false; continueOnError := continue |}.

Definition timeoutOnly (minutes : Z) : SessionSettings.t :=
  {| SessionSettings.sessionTimeout := Some minutes;
     SessionSettings.forceLogoutOnSessionTimeout := None;
     SessionSettings.lockSessionsToIp := None;
     SessionSettings.requireHttpOnly := None;
     SessionSettings.requireSecureConnections := None |}.

Definition flowA : FlowActivation.t :=
  {| FlowActivation.flowApiName := "A"; FlowActivation.activate := true |}.

Definition flowB : FlowActivation.t :=
  {| FlowActivation.flowApiName := "B"; FlowActivation.activate := false |}.

(** The batch of the two scenarios: the flows are written first. *)
Definition scenarioDocument : Document :=
  [ MemFlows [flowA; flowB]; MemSessionSettings (timeoutOnly 60) ].

Definition scenarioBatch : SetupConfig := parseConfig scenarioDocument.

(** The browser layer as [connect] leaves it when the run starts. *)
Definition loggedIn (env : Env) (flags : Flags) : BState := snd (connecting env flags).

(** ** The rest of lib/browser.ts and lib/setup-automations.ts *)

(** [SalesforceUI.confirmDialog] *)
Definition confirmDialog (env : Env) (page : Ctx) (confirm : bool) : M BState unit :=
  let buttonLabel := if confirm then "Confirm" else "Cancel" in
  waitForSelector env page ".slds-modal__container, .modal-container" None ;;
  perform env (PClick page
                 (hasText "button" buttonLabel ++ ", input[value=" ++ quote
                    ++ buttonLabel ++ quote ++ "]")
                 None).

Module IdentityProvider.
Record t : Type := {
  enabled : bool;
  certificateName : option string
}.
End IdentityProvider.

Module DataLoader.
Record t : Type := {
  enableBulkApi : option bool;
  enableBulkApiSerialMode : option bool;
  batchSize : option Z
}.
End DataLoader.

Module PlatformEvent.
Record t : Type := {
  eventApiName : string;
  retentionDays : Z
}.
End PlatformEvent.

Definition configureIdentityProvider (env : Env) (page : Ctx)
  (options : IdentityProvider.t) : M BState unit :=
  consoleLog "Configuring Identity Provider..." ;;
  navigateToSetup env page "IdpPage" ;;
  setupPage <- getSetupIframe env page ;;
  (if options.(IdentityProvider.enabled) then
     clickButton env setupPage "Enable Identity Provider" ;;
     perform env (WaitForNetworkIdle page 1000 None) ;;
     whenPresent (truthy options.(IdentityProvider.certificateName))
       (fun certificateName =>
          selectOption env setupPage (byAttr "select" "id" "certificate")
            certificateName) ;;
     clickButton env setupPage "Save"
   else
     clickButton env setupPage "Disable" ;;
     confirmDialog env setupPage true) ;;
  waitForToast env setupPage None ;;
  consoleLog "Identity Provider configured successfully".

Definition configureDataLoaderSettings (env : Env) (page : Ctx)
  (options : DataLoader.t) : M BState unit :=
  consoleLog "Configuring Data Loader Settings..." ;;
  navigateToSetup env page "DataLoaderSettings" ;;
  setupPage <- getSetupIframe env page ;;
  clickButton env setupPage "Edit" ;;
  perform env (WaitForNetworkIdle page 500 None) ;;
  ifDefined options.(DataLoader.enableBulkApi)
    (setCheckbox env setupPage (checkboxById "bulkApi")) ;;
  ifDefined options.(DataLoader.enableBulkApiSerialMode)
    (setCheckbox env setupPage (checkboxById "serialMode")) ;;
  ifDefined options.(DataLoader.batchSize)
    (fun batchSize =>
       setInput env setupPage (byAttr "input" "id" "batchSize") (Z_toString batchSize)) ;;
  clickButton env setupPage "Save" ;;
  waitForToast env setupPage None ;;
  consoleLog "Data Loader Settings configured successfully".

Definition configurePlatformEventRetention (env : Env) (page : Ctx)
  (options : PlatformEvent.t) : M BState unit :=
  let eventApiName := options.(PlatformEvent.eventApiName) in
  consoleLog ("Configuring retention for Platform Event: " ++ eventApiName ++ "...") ;;
  navigateToSetup env page ("PlatformEvents/" ++ eventApiName) ;;
  setupPage <- getSetupIframe env page ;;
  clickButton env setupPage "Edit" ;;
  perform env (WaitForNetworkIdle page 500 None) ;;
  setInput env setupPage (byAttr "input" "id" "retention")
    (Z_toString options.(PlatformEvent.retentionDays)) ;;
  clickButton env setupPage "Save" ;;
  waitForToast env setupPage None ;;
  consoleLog ("Platform Event retention configured for " ++ eventApiName).

(** ** commands/ui/config/session.ts, sharing.ts and commands/ui/setup/flow.ts *)

(** [{ headless: !flags['no-headless'] }] *)
Definition visibleOr (noHeadless : bool) : BrowserOptions :=
  {| headless := Some (negb noHeadless); slowMo := None; timeout := None;
     viewport := None |}.

Module ConfigSession.

Record Flags : Type := {
  targetOrg : Org;
  timeout : option Z;
  forceLogout : option bool;
  lockIp : option bool;
  httpOnly : option bool;
  secureConnections : option bool;
  noHeadless : bool
}.

Record Settings : Type := {
  settings_sessionTimeout : option Z;
  settings_forceLogout : option bool;
  settings_lockIp : option bool;
  settings_httpOnly : option bool;
  settings_secureConnections : option bool
}.

Record Result : Type := {
  success : bool;
  message : string;
  settings : Settings
}.

(** The options handed to [configureSessionSettings]. *)
Definition optionsOf (flags : Flags) : SessionSettings.t :=
  {| SessionSettings.sessionTimeout := flags.(timeout);
     SessionSettings.forceLogoutOnSessionTimeout := flags.(forceLogout);
     SessionSettings.lockSessionsToIp := flags.(lockIp);
     SessionSettings.requireHttpOnly := flags.(httpOnly);
     SessionSettings.requireSecureConnections := flags.(secureConnections) |}.

Definition runTry (env : Env) (flags : Flags) : M CState Result :=
  session <- lift (connect env flags.(targetOrg)) ;;
  spinnerStop ;;
  log ("Connected to: " ++ session.(instanceUrl)) ;;
  spinnerStart "Configuring session settings..." ;;
  lift (configureSessionSettings env session.(session_page) (optionsOf flags)) ;;
  spinnerStop ;;
  let settings :=
    {| settings_sessionTimeout := flags.(timeout);
       settings_forceLogout := flags.(forceLogout);
       settings_lockIp := flags.(lockIp);
       settings_httpOnly := flags.(httpOnly);
       settings_secureConnections := flags.(secureConnections) |} in
  logSuccess "Session settings configured successfully" ;;
  ret {| success := true;
         message := "Session settings configured successfully";
         settings := settings |}.

Definition runCatch (e : Thrown) : M CState Result :=
  spinnerStop ;;
  let errorMessage := errorMessage e in
  error ("Failed to configure session settings: " ++ errorMessage).

Definition start (flags : Flags) : CState :=
  {| below := {| history := [];
                 manager := newBrowserManager (visibleOr flags.(noHeadless)) |};
     ux := [ SpinnerStart "Connecting to Salesforce..." ];
     applied := [];
     failed := [] |}.

Definition run (env : Env) (flags : Flags) : Res Result * CState :=
  tryFinally (tryCatch (runTry env flags) runCatch) (lift (disconnect env)) (start flags).

End ConfigSession.

Module ConfigSharing.

Record Flags : Type := {
  targetOrg : Org;
  object : string;
  internal : Access;
  external : option Access;
  noHierarchy : bool;
  noHeadless : bool
}.

Record Settings : Type := {
  settings_internalAccess : Access;
  settings_externalAccess : option Access;
  settings_grantAccessUsingHierarchies : bool
}.

Record Result : Type := {
  success : bool;
  message : string;
  result_object : string;
  settings : Settings
}.

(** The options handed to [configureOrgWideDefaults]. *)
Definition optionsOf (flags : Flags) : SharingSettings.t :=
  {| SharingSettings.objectName := flags.(object);
     SharingSettings.internalAccess := flags.(internal);
     SharingSettings.externalAccess := flags.(external);
     SharingSettings.grantAccessUsingHierarchies := Some (negb flags.(noHierarchy)) |}.

Definition runTry (env : Env) (flags : Flags) : M CState Result :=
  session <- lift (connect env flags.(targetOrg)) ;;
  spinnerStop ;;
  log ("Connected to: " ++ session.(instanceUrl)) ;;
  log ("Configuring sharing for: " ++ flags.(object)) ;;
  spinnerStart "Configuring Organization-Wide Defaults..." ;;
  lift (configureOrgWideDefaults env session.(session_page) (optionsOf flags)) ;;
  spinnerStop ;;
  let settings :=
    {| settings_internalAccess := flags.(internal);
       settings_externalAccess := flags.(external);
       settings_grantAccessUsingHierarchies := negb flags.(noHierarchy) |} in
  logSuccess ("Sharing settings configured for " ++ flags.(object)) ;;
  ret {| success := true;
         message := "Sharing settings configured for " ++ flags.(object);
         result_object := flags.(object);
         settings := settings |}.

Definition runCatch (e : Thrown) : M CState Result :=
  spinnerStop ;;
  let errorMessage := errorMessage e in
  error ("Failed to configure sharing settings: " ++ errorMessage).

Definition start (flags : Flags) : CState :=
  {| below := {| history := [];
                 manager := newBrowserManager (visibleOr flags.(noHeadless)) |};
     ux := [ SpinnerStart "Connecting to Salesforce..." ];
     applied := [];
     failed := [] |}.

Definition run (env : Env) (flags : Flags) : Res Result * CState :=
  tryFinally (tryCatch (runTry env flags) runCatch) (lift (disconnect env)) (start flags).

End ConfigSharing.

Module SetupFlow.

Record Flags : Type := {
  targetOrg : Org;
  flowName : string;
  activate : bool;
  deactivate : bool;
  noHeadless : bool
}.

Inductive Action : Type := activated | deactivated.

Record Result : Type := {
  success : bool;
  message : string;
  result_flowName : string;
  action : Action
}.

Definition shouldActivate (flags : Flags) : bool := flags.(activate).

(** The options handed to [activateFlow]. *)
Definition optionsOf (flags : Flags) : FlowActivation.t :=
  {| FlowActivation.flowApiName := flags.(flowName);
     FlowActivation.activate := shouldActivate flags |}.

Definition runTry (env : Env) (flags : Flags) : M CState Result :=
  session <- lift (connect env flags.(targetOrg)) ;;
  spinnerStop ;;
  log ("Connected to: " ++ session.(instanceUrl)) ;;
  log ((if shouldActivate flags then "Activating" else "Deactivating")
         ++ " Flow: " ++ flags.(flowName)) ;;
  spinnerStart ((if shouldActivate flags then "Activating" else "Deactivating")
                  ++ " Flow...") ;;
  lift (activateFlow env session.(session_page) (optionsOf flags)) ;;
  spinnerStop ;;
  logSuccess ("Flow " ++ flags.(flowName) ++ " "
                ++ (if shouldActivate flags then "activated" else "deactivated")
                ++ " successfully") ;;
  ret {| success := true;
         message := "Flow " ++ (if shouldActivate flags then "activated" else "deactivated")
                      ++ " successfully";
         result_flowName := flags.(flowName);
         action := if shouldActivate flags then activated else deactivated |}.

Definition runCatch (flags : Flags) (e : Thrown) : M CState Result :=
  spinnerStop ;;
  let errorMessage := errorMessage e in
  error ("Failed to " ++ (if shouldActivate flags then "activate" else "deactivate")
           ++ " Flow: " ++ errorMessage).

(** The state before anything is shown: the check of the two flags comes
    before the spinner and the browser manager. *)
Definition idle (flags : Flags) : CState :=
  {| below := {| history := [];
                 manager := newBrowserManager (visibleOr flags.(noHeadless)) |};
     ux := [];
     applied := [];
     failed := [] |}.

Definition run (env : Env) (flags : Flags) : Res Result * CState :=
  (if negb flags.(activate) && negb flags.(deactivate) then
     error "You must specify either --activate or --deactivate"
   else
     spinnerStart "Connecting to Salesforce..." ;;
     tryFinally (tryCatch (runTry env flags) (runCatch flags)) (lift (disconnect env)))
    (idle flags).

End SetupFlow.

(** ** Reading the calls of a computation *)

(** The selector under which [clickButton] looks for a button. *)
Definition buttonSelector (label : string) : string :=
  hasText "button" label ++ ", " ++ hasText "lightning-button" label
    ++ ", " ++ hasText "a.slds-button" label.

(** The selector of the Setup iframe. *)
Definition iframeSelector : string :=
  "iframe[name=" ++ quote ++ "setupFrame" ++ quote ++ "], iframe.setupFrame".

(** The URL that [getSetupUrl] makes of an origin and a Setup path. *)
Definition setupUrlFor (baseUrl setupPath : string) : string :=
  if startsWith setupPath "/lightning/" then baseUrl ++ setupPath
  else baseUrl ++ "/lightning/setup/" ++ setupPath ++ "/home".

(** [subsequence calls made]: the calls of the first list are among those
    of the second, in the same order. *)
Inductive subsequence : list Call -> list Call -> Prop :=
| subsequence_nil made : subsequence [] made
| subsequence_skip calls c made :
    subsequence calls made -> subsequence calls (c :: made)
| subsequence_take calls c made :
    subsequence calls made -> subsequence (c :: calls) (c :: made).

(** A computation that returns has made the calls [calls], one after the
    other in this order, maybe with other calls between them. *)
Definition makes (calls : list Call) {A} (m : M BState A) : Prop :=
  forall s a s', m s = (Ok a, s') -> subsequence calls (rev (addedBy m s)).

(** The same for a part of a computation: when it returns it has made the
    first calls of [calls], and [rest] is left for what follows. *)
Definition consumes (calls rest : list Call) {A} (m : M BState A) : Prop :=
  forall s a s',
    m s = (Ok a, s') ->
    exists added,
      s'.(history) = (added ++ s.(history))%list
      /\ forall later,
          subsequence rest later -> subsequence calls (rev added ++ later)%list.

(** A computation that returns has, as its last two calls, read the text
    of a toast and logged a line to the console. *)
Definition endsWithToast {A} (m : M BState A) : Prop :=
  forall s a s',
    m s = (Ok a, s') ->
    exists line ctx h,
      s'.(history)
      = ConsoleLog line :: HTextContent (El ctx toastSelector)
          :: WaitForSelector ctx toastSelector false (Some 30000%N) :: h.

(** Any call will do. *)
Definition anyCall (c : Call) : Prop := True.

(** A command-level computation that neither acquires nor releases a
    browser. *)
Definition keeping {A} (m : M CState A) : Prop :=
  forall s,
    (snd (m s)).(below).(manager).(browser) = s.(below).(manager).(browser)
    /\ exists added,
        (snd (m s)).(below).(history) = (added ++ s.(below).(history))%list
        /\ Forall keepsBrowser added.

(** A browser in which no element ever shows up. *)
Definition nothingShows (c : Call) : option Thrown :=
  match c with
  | WaitForSelector _ _ false _ => Some timeoutError
  | _ => None
  end.

(** A browser in which every wait of the page-load heuristic times out. *)
Definition neverSettles (c : Call) : option Thrown :=
  match c with
  | WaitForSelector _ _ _ (Some 30000%N) => Some timeoutError
  | WaitForNetworkIdle _ _ (Some _) => Some timeoutError
  | _ => None
  end.

(** Options that ask for no timeout and a viewport without width. *)
Definition zeroOptions : BrowserOptions :=
  {| headless := None; slowMo := None; timeout := Some 0%N;
     viewport := Some {| width := 0; height := 800 |} |}.

Definition zeroState : BState :=
  {| history := []; manager := newBrowserManager zeroOptions |}.

(** The state of a manager that holds a browser and its page. *)
Definition openState : BState :=
  {| history := [];
     manager := {| browser := Some Chromium; page := Some TopPage;
                   options := DEFAULT_OPTIONS |} |}.

(** Sharing settings that give the internal access only. *)
Definition internalOnly (name : string) (access : Access) : SharingSettings.t :=
  {| SharingSettings.objectName := name;
     SharingSettings.internalAccess := access;
     SharingSettings.externalAccess := None;
     SharingSettings.grantAccessUsingHierarchies := None |}.

Definition supportEmail (allowAll : bool) : OrgWideEmail.t :=
  {| OrgWideEmail.displayName := "Support";
     OrgWideEmail.emailAddress := "support@example.com";
     OrgWideEmail.allowAllProfiles := allowAll |}.

Definition bulkOnly : DataLoader.t :=
  {| DataLoader.enableBulkApi := Some true;
     DataLoader.enableBulkApiSerialMode := None;
     DataLoader.batchSize := None |}.

Definition providerOff : IdentityProvider.t :=
  {| IdentityProvider.enabled := false;
     IdentityProvider.certificateName := Some "SelfSignedCert" |}.

Definition providerOn : IdentityProvider.t :=
  {| IdentityProvider.enabled := true;
     IdentityProvider.certificateName := Some "SelfSignedCert" |}.

(** The selector of the link that [activateFlow] clicks in the row menu. *)
Definition actionLink (activate : bool) : string :=
  hasText "a" (if activate then "Activate" else "Deactivate").


(** The call made for a setting that is given; none for one left out. *)
Definition asked {A} (x : option A) (call : A -> Call) : list Call :=
  match x with
  | Some a => [call a]
  | None => []
  end.


Definition weekOfOrders : PlatformEvent.t :=
  {| PlatformEvent.eventApiName := "Order_Event__e";
     PlatformEvent.retentionDays := 7 |}.

Definition batchesOfFifty : DataLoader.t :=
  {| DataLoader.enableBulkApi := None;
     DataLoader.enableBulkApiSerialMode := Some true;
     DataLoader.batchSize := Some 50%Z |}.

(** The flags of a run with [--continue-on-error] set or not. *)
Definition continuing (flags : Flags) (continue : bool) : Flags :=
  {| targetOrg := flags.(targetOrg);
     configFile := flags.(configFile);
     noHeadless := flags.(noHeadless);
     continueOnError := continue |}.

(** A document whose three lists are there and empty. *)
Definition emptyLists : SetupConfig :=
  {| sessionSettings := None; sharingSettings := Some [];
     einsteinActivityCapture := None; omniChannel := None;
     flows := Some []; orgWideEmails := Some [] |}.


(** A run that released as many browsers as it was handed, one at most, and
    that holds none when it ends, unless [browser.close()] threw. *)
Definition balanced {A} (env : Env) (out : Res A * CState) : Prop :=
  released (snd out).(below).(history) = acquired env (snd out).(below).(history)
  /\ released (snd out).(below).(history) <= 1
  /\ ((snd out).(below).(manager).(browser) = None \/ closeThrew env out).

(** The error that [this.error] throws for a caught [cause], after a prefix. *)
Definition wrapped (prefix : string) (e : Thrown) : Prop :=
  exists cause, e = ErrorObj "CLIError" (prefix ++ errorMessage cause).

Definition sessionFlags : ConfigSession.Flags :=
  {| ConfigSession.targetOrg := acme;
     ConfigSession.timeout := Some 60%Z;
     ConfigSession.forceLogout := None;
     ConfigSession.lockIp := None;
     ConfigSession.httpOnly := None;
     ConfigSession.secureConnections := None;
     ConfigSession.noHeadless := false |}.

Definition sharingFlags : ConfigSharing.Flags :=
  {| ConfigSharing.targetOrg := acme;
     ConfigSharing.object := "Account";
     ConfigSharing.internal := Private;
     ConfigSharing.external := None;
     ConfigSharing.noHierarchy := false;
     ConfigSharing.noHeadless := false |}.

Definition flowFlags (activate deactivate : bool) : SetupFlow.Flags :=
  {| SetupFlow.targetOrg := acme;
     SetupFlow.flowName := "Order_Fulfilment";
     SetupFlow.activate := activate;
     SetupFlow.deactivate := deactivate;
     SetupFlow.noHeadless := false |}.


(** [Number.MAX_SAFE_INTEGER], 2^53 - 1. *)
Definition MAX_SAFE_INTEGER : Z := 9007199254740991.

(** [Number.isSafeInteger(z)]: an integer that [toString()] prints in plain
    decimal, digit for digit. *)
Definition isSafeInteger (z : Z) : Prop :=
  (- MAX_SAFE_INTEGER <= z <= MAX_SAFE_INTEGER)%Z.


(** * Properties *)

(** ** Sequential code *)

Lemma bind_unit_ret {S} (m : M S unit) (s : S) : (m ;; ret tt) s = m s.
Proof.
  unfold bind, ret. destruct (m s) as [[[]|e] s']; reflexivity.
Qed.

Lemma bind_cong {S A B} (m m' : M S A) (k : A -> M S B) :
  (forall s, m s = m' s) -> forall s, (x <- m ;; k x) s = (x <- m' ;; k x) s.
Proof.
  intros H s. unfold bind. rewrite H. reflexivity.
Qed.

Lemma bind_cong_r {S A B} (m : M S A) (k k' : A -> M S B) :
  (forall a s, k a s = k' a s) -> forall s, (x <- m ;; k x) s = (x <- m ;; k' x) s.
Proof.
  intros H s. unfold bind. destruct (m s) as [[a|e] s']; auto.
Qed.

Lemma bind_assoc {S A B C} (m : M S A) (f : A -> M S B) (g : B -> M S C) (s : S) :
  (y <- (x <- m ;; f x) ;; g y) s = (x <- m ;; y <- f x ;; g y) s.
Proof.
  unfold bind. destruct (m s) as [[a|e] s']; reflexivity.
Qed.

Lemma forOf_ext {S A} (f g : A -> M S unit) (xs : list A) :
  (forall x s, f x s = g x s) -> forall s, forOf xs f s = forOf xs g s.
Proof.
  intros H. induction xs as [|x xs IH]; intros s; simpl.
  - reflexivity.
  - unfold bind. rewrite H. destruct (g x s) as [[[]|e] s']; auto.
Qed.

Lemma forOf_map {S A B} (h : A -> B) (f : B -> M S unit) (xs : list A) (s : S) :
  forOf (map h xs) f s = forOf xs (fun x => f (h x)) s.
Proof.
  revert s. induction xs as [|x xs IH]; intros s; simpl.
  - reflexivity.
  - unfold bind. destruct (f (h x) s) as [[[]|e] s']; auto.
Qed.

Lemma forOf_app {S A} (f : A -> M S unit) (xs ys : list A) (s : S) :
  forOf (xs ++ ys)%list f s = (forOf xs f ;; forOf ys f) s.
Proof.
  revert s. induction xs as [|x xs IH]; intros s; simpl.
  - reflexivity.
  - rewrite bind_assoc. apply bind_cong_r. intros _ s'. apply IH.
Qed.

Lemma attempts_then {S A B} (block : M S unit) (rest : M S B)
      (f : A -> M S unit) (xs ys : list A) (k : M S B) :
  (forall s, block s = forOf xs f s) ->
  (forall s, rest s = (forOf ys f ;; k) s) ->
  forall s, (block ;; rest) s = (forOf (xs ++ ys)%list f ;; k) s.
Proof.
  intros Hb Hr s.
  rewrite (bind_cong _ _ _ (forOf_app f xs ys)), bind_assoc.
  rewrite (bind_cong _ _ _ Hb). apply bind_cong_r. intros _ s'. apply Hr.
Qed.

(** ** [run] attempts the operations of the batch in the fixed order *)

Section Refinement.

Variable env : Env.
Variable flags : Flags.
Variable session : SalesforceSession.
Variable config : SetupConfig.

Let try_ := attempt env flags session.(session_page).

Lemma applySessionSettings_attempts s :
  applySessionSettings env flags session config s
  = forOf (map OpSessionSettings (single config.(sessionSettings))) try_ s.
Proof.
  unfold applySessionSettings. destruct (sessionSettings config) as [v|]; simpl.
  - rewrite bind_unit_ret. reflexivity.
  - reflexivity.
Qed.

Lemma applySharingSettings_attempts s :
  applySharingSettings env flags session config s
  = forOf (map OpSharingSettings (entries config.(sharingSettings))) try_ s.
Proof.
  unfold applySharingSettings. destruct (sharingSettings config) as [l|]; simpl.
  - rewrite forOf_map. apply forOf_ext. intros x s'. reflexivity.
  - reflexivity.
Qed.

Lemma applyEinsteinActivityCapture_attempts s :
  applyEinsteinActivityCapture env flags session config s
  = forOf (map OpActivityCapture (single config.(einsteinActivityCapture))) try_ s.
Proof.
  unfold applyEinsteinActivityCapture.
  destruct (einsteinActivityCapture config) as [v|]; simpl.
  - rewrite bind_unit_ret. reflexivity.
  - reflexivity.
Qed.

Lemma applyOmniChannel_attempts s :
  applyOmniChannel env flags session config s
  = forOf (map OpOmniChannel (single config.(omniChannel))) try_ s.
Proof.
  unfold applyOmniChannel. destruct (omniChannel config) as [v|]; simpl.
  - rewrite bind_unit_ret. reflexivity.
  - reflexivity.
Qed.

Lemma applyFlows_attempts s :
  applyFlows env flags session config s
  = forOf (map OpFlowActivation (entries config.(flows))) try_ s.
Proof.
  unfold applyFlows. destruct (flows config) as [l|]; simpl.
  - rewrite forOf_map. apply forOf_ext. intros x s'. reflexivity.
  - reflexivity.
Qed.

Lemma applyOrgWideEmails_attempts s :
  applyOrgWideEmails env flags session config s
  = forOf (map OpOrgWideEmail (entries config.(orgWideEmails))) try_ s.
Proof.
  unfold applyOrgWideEmails. destruct (orgWideEmails config) as [l|]; simpl.
  - rewrite forOf_map. apply forOf_ext. intros x s'. reflexivity.
  - reflexivity.
Qed.

(** The six blocks, one after the other, are the attempts of
    [operations config]. *)
Lemma blocks_attempts {A} (k : M CState A) s :
  (applySessionSettings env flags session config ;;
   applySharingSettings env flags session config ;;
   applyEinsteinActivityCapture env flags session config ;;
   applyOmniChannel env flags session config ;;
   applyFlows env flags session config ;;
   applyOrgWideEmails env flags session config ;;
   k) s
  = (forOf (operations config) try_ ;; k) s.
Proof.
  unfold operations. revert s.
  repeat (apply attempts_then;
          [ first [ exact applySessionSettings_attempts
                  | exact applySharingSettings_attempts
                  | exact applyEinsteinActivityCapture_attempts
                  | exact applyOmniChannel_attempts
                  | exact applyFlows_attempts ] | ]).
  apply bind_cong. exact applyOrgWideEmails_attempts.
Qed.

End Refinement.

(** ** The attempts and the stream of results *)

(** Attempting a list of operations leaves exactly what the stream of
    results describes: the browser state, the output, both arrays and the
    error that escapes. *)
Lemma attempts_results env flags page ops :
  forall s,
    forOf ops (attempt env flags page) s
    = (outcomeOf (escaping flags.(continueOnError)
                    (fst (results env flags.(continueOnError) page ops s.(below)))),
       {| below := snd (results env flags.(continueOnError) page ops s.(below));
          ux := (rev (shownFor (fst (results env flags.(continueOnError) page ops
                                       s.(below)))) ++ s.(ux))%list;
          applied := (s.(applied)
                      ++ appliedOf (fst (results env flags.(continueOnError) page ops
                                           s.(below))))%list;
          failed := (s.(failed)
                     ++ failedOf (fst (results env flags.(continueOnError) page ops
                                         s.(below))))%list |}).
Proof.
  induction ops as [|op ops IH]; intros s.
  - simpl. unfold ret, escaping. rewrite !app_nil_r.
    destruct s, (continueOnError flags); reflexivity.
  - simpl forOf. unfold bind at 1.
    unfold attempt at 1, tryCatch, bind, spinnerStart, spinnerStop, pushApplied,
      pushFailed, logSuccess, warn, emit, lift, throw, ret.
    simpl. destruct (dispatch env page op (below s)) as [[[]|e] b'] eqn:Hd; simpl.
    + rewrite IH. simpl.
      destruct (results env (continueOnError flags) page ops b') as [rs b''] eqn:Hr.
      simpl. rewrite <- !app_assoc. simpl.
      unfold escaping. destruct (continueOnError flags); reflexivity.
    + destruct (continueOnError flags) eqn:Hc; simpl.
      * rewrite IH. simpl. rewrite ?Hc.
        destruct (results env true page ops b') as [rs b''] eqn:Hr.
        simpl. rewrite <- !app_assoc. reflexivity.
      * rewrite app_nil_r. reflexivity.
Qed.

Lemma appliedOf_length_failedOf rs :
  length (appliedOf rs) + length (failedOf rs) = length rs.
Proof.
  induction rs as [|[op [e|]] rs IH]; simpl; lia.
Qed.

Lemma spinnerStarts_shown rs older :
  spinnerStarts (rev (shownFor rs) ++ older)%list
  = (spinnerStarts older ++ map spinnerText (attempted rs))%list.
Proof.
  unfold spinnerStarts. rewrite rev_app_distr, rev_involutive, flat_map_app.
  f_equal. induction rs as [|[op [e|]] rs IH]; simpl; congruence.
Qed.

(** *** The stream when the batch continues on error *)

Lemma results_continue env page ops :
  forall b, attempted (fst (results env true page ops b)) = ops.
Proof.
  induction ops as [|op ops IH]; intros b; simpl.
  - reflexivity.
  - destruct (dispatch env page op b) as [[[]|e] b'];
      specialize (IH b'); destruct (results env true page ops b') as [rs b''];
      simpl in *; congruence.
Qed.

(** *** The stream when the batch stops at the first failure *)

Lemma appliedOf_succeeded ops : appliedOf (succeeded ops) = map appliedLabel ops.
Proof. induction ops; simpl; congruence. Qed.

Lemma failedOf_succeeded ops : failedOf (succeeded ops) = [].
Proof. induction ops; simpl; congruence. Qed.

Lemma firstFailure_succeeded ops : firstFailure (succeeded ops) = None.
Proof. induction ops; simpl; congruence. Qed.

Lemma attempted_succeeded ops : attempted (succeeded ops) = ops.
Proof. unfold attempted, succeeded. rewrite map_map. apply map_id. Qed.

Lemma appliedOf_app rs rs' : appliedOf (rs ++ rs')%list = (appliedOf rs ++ appliedOf rs')%list.
Proof. apply flat_map_app. Qed.

Lemma failedOf_app rs rs' : failedOf (rs ++ rs')%list = (failedOf rs ++ failedOf rs')%list.
Proof. apply flat_map_app. Qed.

Lemma firstFailure_after_succeeded ops rs :
  firstFailure (succeeded ops ++ rs)%list = firstFailure rs.
Proof. induction ops; simpl; congruence. Qed.

(** Either every operation completed, or the stream stops at the first
    failure: the operations before it completed, it failed, nothing follows. *)
Lemma results_abort env page ops :
  forall b,
    fst (results env false page ops b) = succeeded ops
    \/ exists i op e,
        nth_error ops i = Some op
        /\ fst (results env false page ops b)
           = (succeeded (firstn i ops) ++ [(op, Some e)])%list.
Proof.
  induction ops as [|op ops IH]; intros b; simpl.
  - left. reflexivity.
  - destruct (dispatch env page op b) as [[[]|e] b'].
    + specialize (IH b'). destruct (results env false page ops b') as [rs b''].
      simpl in *. destruct IH as [IH | (i & op' & e & Hn & IH)].
      * left. subst rs. reflexivity.
      * right. exists (S i), op', e. subst rs. split; [assumption | reflexivity].
    + right. exists 0, op, e. simpl. split; reflexivity.
Qed.

(** ** Calls made and the browser manager *)

Section Quiet.

Variable env : Env.
Variable P : Call -> Prop.

Lemma quiet_ret {A} (a : A) : quiet P (ret a).
Proof. intros s. split; [reflexivity | exists []; auto]. Qed.

Lemma quiet_throw {A} (e : Thrown) : quiet P (@throw BState A e).
Proof. intros s. split; [reflexivity | exists []; auto]. Qed.

Lemma quiet_bind {A B} (m : M BState A) (k : A -> M BState B) :
  quiet P m -> (forall a, quiet P (k a)) -> quiet P (x <- m ;; k x).
Proof.
  intros Hm Hk s. unfold bind.
  destruct (Hm s) as (Hman & added & Hh & HP).
  destruct (m s) as [[a|e] s1]; simpl in *.
  - destruct (Hk a s1) as (Hman' & added' & Hh' & HP').
    split; [congruence|].
    exists (added' ++ added)%list. rewrite Hh', Hh, app_assoc.
    split; [reflexivity | apply Forall_app; auto].
  - split; [assumption | exists added; auto].
Qed.

Lemma quiet_perform c : P c -> quiet P (perform env c).
Proof.
  intros Hc s. unfold perform.
  destruct (rejects env (history s) c); (split; [reflexivity | exists [c]; auto]).
Qed.

Lemma quiet_ask c : P c -> quiet P (ask env c).
Proof.
  intros Hc s. unfold ask.
  destruct (rejects env (history s) c); (split; [reflexivity | exists [c]; auto]).
Qed.

Lemma quiet_read c : P c -> quiet P (read env c).
Proof.
  intros Hc s. unfold read.
  destruct (rejects env (history s) c); (split; [reflexivity | exists [c]; auto]).
Qed.

Lemma quiet_consoleLog line : P (ConsoleLog line) -> quiet P (consoleLog line).
Proof. intros Hc s. split; [reflexivity | exists [ConsoleLog line]; auto]. Qed.

Lemma quiet_setPage p : quiet P (setPage p).
Proof. intros s. split; [reflexivity | exists []; auto]. Qed.

Lemma quiet_swallow {A} (m : M BState A) : quiet P m -> quiet P (swallow m).
Proof. intros Hm s. exact (Hm s). Qed.

Lemma quiet_when (b : bool) (m : M BState unit) : quiet P m -> quiet P (when b m).
Proof. intros Hm. destruct b; [assumption | apply quiet_ret]. Qed.

Lemma quiet_whenPresent {A} (x : option A) (body : A -> M BState unit) :
  (forall a, quiet P (body a)) -> quiet P (whenPresent x body).
Proof. intros Hb. destruct x; [apply Hb | apply quiet_ret]. Qed.

(** [waitForSelector] hands out the handle of the selector it waited for. *)
Lemma quiet_waitForSelector_then {B} ctx selector timeout (k : Handle -> M BState B) :
  P (WaitForSelector ctx selector false timeout) ->
  quiet P (k (El ctx selector)) ->
  quiet P (h <- waitForSelector env ctx selector timeout ;; k h).
Proof.
  intros Hc Hk s. unfold waitForSelector, bind, perform, ret.
  destruct (rejects env (history s) _); simpl.
  - split; [reflexivity | eexists [_]; split; [reflexivity | auto]].
  - destruct (Hk (record (WaitForSelector ctx selector false timeout) s))
      as (Hb & added & Hh & HP).
    split; [exact Hb|]. eexists (added ++ [_])%list. rewrite Hh, <- app_assoc.
    split; [reflexivity | apply Forall_app; auto].
Qed.

(** [getSetupIframe] asks for the frame of the iframe it found. *)
Lemma quiet_getSetupIframe page :
  P (Query page ("iframe[name=" ++ quote ++ "setupFrame" ++ quote
                   ++ "], iframe.setupFrame")) ->
  P (ContentFrame (El page ("iframe[name=" ++ quote ++ "setupFrame" ++ quote
                              ++ "], iframe.setupFrame"))) ->
  quiet P (getSetupIframe env page).
Proof.
  intros Hq Hf s. unfold getSetupIframe, query, bind, ask, ret.
  destruct (rejects env (history s) _); simpl;
    [split; [reflexivity | eexists [_]; split; [reflexivity | auto]]|].
  destruct (holds env (history s) _); simpl;
    [|split; [reflexivity | eexists [_]; split; [reflexivity | auto]]].
  destruct (rejects env _ (ContentFrame _)); simpl;
    [split; [reflexivity | eexists [_; _]; split; [reflexivity | auto]]|].
  destruct (holds env _ (ContentFrame _)); simpl;
    split; try reflexivity; eexists [_; _]; split; try reflexivity; auto.
Qed.

End Quiet.

(** Splits a browser-layer computation into its calls. *)
Ltac quiet_step :=
  lazymatch goal with
  | |- quiet _ (bind (waitForSelector _ _ _ _) _) => apply quiet_waitForSelector_then
  | |- quiet _ (getSetupIframe _ _) => apply quiet_getSetupIframe
  | |- quiet _ (ret _) => apply quiet_ret
  | |- quiet _ (throw _) => apply quiet_throw
  | |- quiet _ (bind _ _) => apply quiet_bind; [ | intros ? ]
  | |- quiet _ (swallow _) => apply quiet_swallow
  | |- quiet _ (when _ _) => apply quiet_when
  | |- quiet _ (whenPresent _ _) => apply quiet_whenPresent; intros ?
  | |- quiet _ (perform _ _) => apply quiet_perform
  | |- quiet _ (ask _ _) => apply quiet_ask
  | |- quiet _ (read _ _) => apply quiet_read
  | |- quiet _ (consoleLog _) => apply quiet_consoleLog
  | |- quiet _ (setPage _) => apply quiet_setPage
  | |- quiet _ (if ?b then _ else _) => destruct b
  | |- quiet _ (match ?x with _ => _ end) => destruct x
  end.

Ltac quiet_steps := repeat quiet_step.

Ltac quiet_unfold :=
  unfold configureSessionSettings, configureOrgWideDefaults,
    configureEinsteinActivityCapture, configureOmniChannel, activateFlow,
    configureOrgWideEmailAddress, navigateToSetup, getSetupUrl,
    waitForSetupPageLoad, clickButton, setInput, setCheckbox,
    selectOption, waitForToast, ifDefined.

Ltac quiet_unfold_all :=
  quiet_unfold; unfold getSetupIframe, waitForSelector, query.

(** No operation launches or closes a browser, or touches the manager. *)
Lemma dispatch_quiet env page op : quiet keepsBrowser (dispatch env page op).
Proof.
  destruct op; simpl; quiet_unfold_all; quiet_steps; exact I.
Qed.

Lemma results_quiet env continue page ops :
  forall b,
    (snd (results env continue page ops b)).(manager).(browser) = b.(manager).(browser)
    /\ exists added,
        (snd (results env continue page ops b)).(history) = (added ++ b.(history))%list
        /\ Forall keepsBrowser added.
Proof.
  induction ops as [|op ops IH]; intros b; simpl.
  - split; [reflexivity | exists []; auto].
  - destruct (dispatch_quiet env page op b) as (Hm & added & Hh & HP).
    destruct (dispatch env page op b) as [[[]|e] b']; simpl in *.
    + destruct (IH b') as (Hm' & added' & Hh' & HP').
      destruct (results env continue page ops b') as [rs b'']; simpl in *.
      split; [congruence|]. exists (added' ++ added)%list.
      rewrite Hh', Hh, app_assoc. split; [reflexivity | apply Forall_app; auto].
    + destruct continue.
      * destruct (IH b') as (Hm' & added' & Hh' & HP').
        destruct (results env true page ops b') as [rs b'']; simpl in *.
        split; [congruence|]. exists (added' ++ added)%list.
        rewrite Hh', Hh, app_assoc. split; [reflexivity | apply Forall_app; auto].
      * simpl. split; [assumption | exists added; auto].
Qed.

Lemma released_keepsBrowser added h :
  Forall keepsBrowser added -> released (added ++ h)%list = released h.
Proof.
  induction 1 as [|c added Hc _ IH]; simpl; [reflexivity|].
  destruct c; simpl in *; auto; contradiction.
Qed.

Lemma acquired_keepsBrowser env added h :
  Forall keepsBrowser added -> acquired env (added ++ h)%list = acquired env h.
Proof.
  induction 1 as [|c added Hc _ IH]; simpl; [reflexivity|].
  destruct c; simpl in *; auto; contradiction.
Qed.

(** ** The summary only logs *)

Lemma bind_ok {S A B} (m : M S A) (k : A -> M S B) s a s' :
  m s = (Ok a, s') -> (x <- m ;; k x) s = k a s'.
Proof. intros H. unfold bind. rewrite H. reflexivity. Qed.

Lemma bind_thrown {S A B} (m : M S A) (k : A -> M S B) s e s' :
  m s = (Throw e, s') -> (x <- m ;; k x) s = (Throw e, s').
Proof. intros H. unfold bind. rewrite H. reflexivity. Qed.

Lemma spinnerStarts_cons u shown :
  spinnerStarts (u :: shown)
  = (spinnerStarts shown ++ match u with SpinnerStart t => [t] | _ => [] end)%list.
Proof.
  unfold spinnerStarts. simpl. rewrite flat_map_app. simpl.
  rewrite app_nil_r. reflexivity.
Qed.

Lemma sameButLogs_refl s : sameButLogs s s.
Proof. repeat split. Qed.

Lemma sameButLogs_trans s1 s2 s3 :
  sameButLogs s1 s2 -> sameButLogs s2 s3 -> sameButLogs s1 s3.
Proof.
  intros (B1 & A1 & F1 & U1) (B2 & A2 & F2 & U2). repeat split; congruence.
Qed.

Lemma logging_ret {A} (a : A) : logging (ret a) a.
Proof. intros s. exists s. split; [reflexivity | apply sameButLogs_refl]. Qed.

Lemma logging_log text : logging (log text) tt.
Proof.
  intros s. eexists. split; [reflexivity|].
  repeat split. simpl. rewrite spinnerStarts_cons. apply app_nil_r.
Qed.

Lemma logging_bind {A B} (m : M CState A) (k : A -> M CState B) a b :
  logging m a -> logging (k a) b -> logging (x <- m ;; k x) b.
Proof.
  intros Hm Hk s. destruct (Hm s) as (s1 & E1 & S1).
  destruct (Hk s1) as (s2 & E2 & S2). exists s2.
  split; [rewrite (bind_ok _ _ _ _ _ E1); exact E2 | eapply sameButLogs_trans; eauto].
Qed.

Lemma logging_forOf {A} (f : A -> M CState unit) (xs : list A) :
  (forall x, logging (f x) tt) -> logging (forOf xs f) tt.
Proof.
  intros Hf. induction xs as [|x xs IH]; simpl.
  - apply logging_ret.
  - eapply logging_bind; [apply Hf | exact IH].
Qed.

Lemma logging_when (b : bool) (m : M CState unit) :
  logging m tt -> logging (when b m) tt.
Proof. intros Hm. destruct b; [exact Hm | apply logging_ret]. Qed.

Lemma summary_returns s :
  exists s', summary s = (Ok (resultOf s), s') /\ sameButLogs s s'.
Proof.
  unfold summary.
  destruct (logging_log (newline ++ repeatString "=" 60) s) as (s1 & E1 & S1).
  rewrite (bind_ok _ _ _ _ _ E1).
  destruct (logging_log "CONFIGURATION SUMMARY" s1) as (s2 & E2 & S2).
  rewrite (bind_ok _ _ _ _ _ E2).
  destruct (logging_log (repeatString "=" 60) s2) as (s3 & E3 & S3).
  rewrite (bind_ok _ _ _ _ _ E3).
  assert (S03 : sameButLogs s s3) by (eauto using sameButLogs_trans).
  rewrite (bind_ok get _ s3 s3 s3 eq_refl).
  destruct S03 as (B & Ap & Fa & U).
  assert (R : resultOf s = resultOf s3) by (unfold resultOf; rewrite Ap, Fa; reflexivity).
  rewrite R.
  match goal with
  | |- exists s', ?m s3 = _ /\ _ =>
      assert (L : logging m (resultOf s3))
  end.
  { eapply logging_bind; [apply logging_log|].
    eapply logging_bind; [apply logging_forOf; intros; apply logging_log|].
    eapply logging_bind.
    { apply logging_when. eapply logging_bind; [apply logging_log|].
      apply logging_forOf; intros; apply logging_log. }
    eapply logging_bind; [apply logging_log|]. apply logging_ret. }
  destruct (L s3) as (s' & E & S'). exists s'. split; [exact E|].
  eapply sameButLogs_trans; [|exact S']. repeat split; assumption.
Qed.

(** ** The run before the browser is released *)

Lemma resultOf_same s s' :
  s'.(applied) = s.(applied) -> s'.(failed) = s.(failed) -> resultOf s' = resultOf s.
Proof. intros Ha Hf. unfold resultOf. rewrite Ha, Hf. reflexivity. Qed.

(** When [connect] returns, the guarded part attempts the operations and
    ends with the summary, or with the escaping error wrapped by the outer
    [catch]. *)
Lemma runGuarded_connected env flags config session b :
  connecting env flags = (Ok session, b) ->
  exists s1,
    runGuarded env flags config
    = (match escaping flags.(continueOnError) (stream env flags config session b) with
       | None => Ok (resultOf s1)
       | Some e => Throw (configurationFailed e)
       end, s1)
    /\ s1.(below) = snd (results env flags.(continueOnError) session.(session_page)
                          (operations config) b)
    /\ s1.(applied) = appliedOf (stream env flags config session b)
    /\ s1.(failed) = failedOf (stream env flags config session b)
    /\ attemptsShown s1.(ux)
       = map spinnerText (attempted (stream env flags config session b)).
Proof.
  intros Hc. unfold runGuarded, tryCatch, runTry, stream.
  assert (E0 : lift (connect env flags.(targetOrg)) (start flags)
               = (Ok session, {| below := b; ux := (start flags).(ux);
                                 applied := []; failed := [] |})).
  { unfold lift. unfold connecting in Hc. rewrite Hc. reflexivity. }
  rewrite (bind_ok _ _ _ _ _ E0).
  rewrite (bind_ok spinnerStop _ _ tt _ eq_refl).
  rewrite (bind_ok (log _) _ _ tt _ eq_refl).
  rewrite blocks_attempts.
  pose proof (attempts_results env flags session.(session_page) (operations config)
                (connected flags session b)) as Ha.
  simpl in Ha. unfold spinnerStop, log, emit. simpl.
  set (rs := results env (continueOnError flags) (session_page session)
               (operations config) b) in *.
  destruct (escaping (continueOnError flags) (fst rs)) as [e|] eqn:He; simpl in Ha.
  - rewrite (bind_thrown _ _ _ _ _ Ha). unfold runCatch.
    rewrite (bind_ok spinnerStop _ _ tt _ eq_refl). unfold error, throw.
    eexists. split; [reflexivity|]. simpl. repeat split.
    unfold attemptsShown. rewrite spinnerStarts_cons, app_nil_r.
    rewrite spinnerStarts_shown. reflexivity.
  - rewrite (bind_ok _ _ _ _ _ Ha).
    match goal with |- context [summary ?s] =>
      destruct (summary_returns s) as (s1 & Es & (B & Ap & Fa & U)) end.
    rewrite Es. exists s1. simpl in *.
    split; [f_equal; f_equal; symmetry; apply resultOf_same; assumption|].
    repeat split; try assumption.
    unfold attemptsShown. rewrite U, spinnerStarts_shown. reflexivity.
Qed.

(** When [connect] throws, nothing is attempted. *)
Lemma runGuarded_not_connected env flags config e b :
  connecting env flags = (Throw e, b) ->
  exists s1,
    runGuarded env flags config = (Throw (configurationFailed e), s1)
    /\ s1.(below) = b
    /\ s1.(applied) = []
    /\ s1.(failed) = []
    /\ attemptsShown s1.(ux) = [].
Proof.
  intros Hc. unfold runGuarded, tryCatch, runTry.
  assert (E0 : lift (connect env flags.(targetOrg)) (start flags)
               = (@Throw SalesforceSession e,
                  {| below := b; ux := (start flags).(ux);
                     applied := []; failed := [] |})).
  { unfold lift. unfold connecting in Hc. rewrite Hc. reflexivity. }
  rewrite (bind_thrown _ _ _ _ _ E0). unfold runCatch.
  rewrite (bind_ok spinnerStop _ _ tt _ eq_refl). unfold error, throw.
  eexists. split; [reflexivity|]. simpl. repeat split.
Qed.

(** ** Acquiring and releasing the browser *)

Lemma disconnect_never_opened env s :
  s.(manager).(browser) = None -> disconnect env s = (Ok tt, s).
Proof.
  intros H. unfold disconnect, this. unfold bind. simpl. rewrite H. reflexivity.
Qed.

Lemma disconnect_opened env s b :
  s.(manager).(browser) = Some b ->
  disconnect env s
  = match env.(rejects) s.(history) Close with
    | Some e => (Throw e, record Close s)
    | None => (Ok tt, {| history := Close :: s.(history);
                         manager := {| browser := None; page := None;
                                       options := s.(manager).(options) |} |})
    end.
Proof.
  intros H. unfold disconnect, this, perform, setBrowser, setPage, bind. simpl.
  rewrite H. destruct (rejects env (history s) Close); reflexivity.
Qed.

Lemma perform_rejected env c s e :
  env.(rejects) s.(history) c = Some e -> perform env c s = (Throw e, record c s).
Proof. intros H. unfold perform. rewrite H. reflexivity. Qed.

Lemma perform_accepted env c s :
  env.(rejects) s.(history) c = None -> perform env c s = (Ok tt, record c s).
Proof. intros H. unfold perform. rewrite H. reflexivity. Qed.

Lemma acquired_launch env h c :
  (exists hl sm args, c = Launch hl sm args) ->
  acquired env (c :: h)
  = match env.(rejects) h c with
    | None => S (acquired env h)
    | Some _ => acquired env h
    end.
Proof. intros (hl & sm & args & ->). reflexivity. Qed.

Lemma released_launch h c :
  (exists hl sm args, c = Launch hl sm args) -> released (c :: h) = released h.
Proof. intros (hl & sm & args & ->). reflexivity. Qed.

(** [connect] closes nothing, acquires a browser exactly when it leaves one
    in the manager, and leaves one whenever it returns. *)
Lemma connect_browser env org s :
  s.(manager).(browser) = None ->
  released (snd (connect env org s)).(history) = released s.(history)
  /\ acquired env (snd (connect env org s)).(history)
     = acquired env s.(history) + held (snd (connect env org s))
  /\ (forall session,
         fst (connect env org s) = Ok session ->
         (snd (connect env org s)).(manager).(browser) = Some Chromium).
Proof.
  intros H. unfold connect.
  assert (Hthrow : forall e : Thrown,
             released (snd (@throw BState SalesforceSession e s)).(history)
             = released s.(history)
             /\ acquired env (snd (@throw BState SalesforceSession e s)).(history)
                = acquired env s.(history)
                  + held (snd (@throw BState SalesforceSession e s))
             /\ (forall session,
                    fst (@throw BState SalesforceSession e s) = Ok session ->
                    (snd (@throw BState SalesforceSession e s)).(manager).(browser)
                    = Some Chromium)).
  { intros e. unfold throw, held. simpl. rewrite H.
    repeat split; [lia | discriminate]. }
  destruct (truthy (connection_instanceUrl org)) as [u|]; [|apply Hthrow].
  destruct (truthy (connection_accessToken org)) as [t|]; [|apply Hthrow].
  clear Hthrow.
  rewrite (bind_ok (this) _ s s.(manager) s eq_refl).
  match goal with |- context [perform env ?c] => remember c as launch eqn:Hl end.
  assert (L : exists hl sm args, launch = Launch hl sm args)
    by (do 3 eexists; exact Hl).
  clear Hl.
  destruct (rejects env (history s) launch) as [e|] eqn:E1.
  - rewrite (bind_thrown _ _ _ _ _ (perform_rejected _ _ _ _ E1)).
    unfold held, record. cbn [fst snd history manager]. rewrite H.
    rewrite (acquired_launch _ _ _ L), (released_launch _ _ L), E1.
    repeat split; [lia | discriminate].
  - rewrite (bind_ok _ _ _ _ _ (perform_accepted _ _ _ E1)).
    rewrite (bind_ok (setBrowser _) _ _ tt _ eq_refl).
    match goal with |- context [?rest ?s2] =>
      lazymatch rest with
      | bind _ _ =>
          assert (Hq : quiet keepsBrowser rest)
            by (quiet_steps; exact I);
          destruct (Hq s2) as (Hb & added & Hh & HP)
      end
    end.
    unfold held. rewrite Hb, Hh. unfold record. cbn [history manager browser].
    rewrite released_keepsBrowser, acquired_keepsBrowser by assumption.
    rewrite (acquired_launch _ _ _ L), (released_launch _ _ L), E1.
    repeat split; lia.
Qed.

(** Before the [finally] block nothing was closed, and a browser was
    acquired exactly when the manager holds one. *)
Lemma runGuarded_browser env flags config :
  released (snd (runGuarded env flags config)).(below).(history) = 0
  /\ acquired env (snd (runGuarded env flags config)).(below).(history)
     = held (snd (runGuarded env flags config)).(below).
Proof.
  destruct (connect_browser env flags.(targetOrg) (start flags).(below) eq_refl)
    as (Hr & Ha & Ho).
  fold (connecting env flags) in Hr, Ha, Ho.
  destruct (connecting env flags) as [[session|e] b] eqn:Hc; simpl in Hr, Ha, Ho.
  - destruct (runGuarded_connected env flags config session b Hc)
      as (s1 & E & B & _). rewrite E. simpl. rewrite B.
    destruct (results_quiet env flags.(continueOnError) session.(session_page)
                (operations config) b) as (Hb & added & Hh & HP).
    unfold held. rewrite Hb, Hh.
    rewrite released_keepsBrowser, acquired_keepsBrowser by assumption.
    split; assumption.
  - destruct (runGuarded_not_connected env flags config e b Hc)
      as (s1 & E & B & _). rewrite E. simpl. rewrite B. split; assumption.
Qed.

(** What the [finally] block adds to the guarded part. *)
Lemma run_release env flags config :
  (snd (run env flags config)).(ux) = (snd (runGuarded env flags config)).(ux)
  /\ (snd (run env flags config)).(applied) = (snd (runGuarded env flags config)).(applied)
  /\ (snd (run env flags config)).(failed) = (snd (runGuarded env flags config)).(failed)
  /\ match (snd (runGuarded env flags config)).(below).(manager).(browser) with
     | None => run env flags config = runGuarded env flags config
     | Some _ =>
         (snd (run env flags config)).(below).(history)
         = Close :: (snd (runGuarded env flags config)).(below).(history)
         /\ match env.(rejects) (snd (runGuarded env flags config)).(below).(history)
                  Close with
            | Some e => fst (run env flags config) = Throw e
            | None =>
                fst (run env flags config) = fst (runGuarded env flags config)
                /\ (snd (run env flags config)).(below).(manager).(browser) = None
            end
     end.
Proof.
  unfold run, tryFinally. fold (runGuarded env flags config).
  destruct (runGuarded env flags config) as [r s1]. unfold lift. simpl.
  destruct (browser (manager (below s1))) as [b|] eqn:Hb.
  - rewrite (disconnect_opened env _ b Hb).
    destruct (rejects env (history (below s1)) Close); simpl; repeat split.
  - rewrite (disconnect_never_opened env _ Hb). destruct s1; simpl; repeat split.
Qed.

(** The outcome of the guarded part stands unless closing the browser
    throws. *)
Lemma run_outcome env flags config :
  fst (run env flags config) = fst (runGuarded env flags config)
  \/ closeThrew env (run env flags config).
Proof.
  destruct (run_release env flags config) as (_ & _ & _ & Rel).
  destruct (browser (manager (below (snd (runGuarded env flags config))))).
  - destruct Rel as (Hh & Hout).
    destruct (rejects env (history (below (snd (runGuarded env flags config)))) Close)
      as [e|] eqn:Hr.
    + right. exists (history (below (snd (runGuarded env flags config)))), e. auto.
    + left. apply Hout.
  - left. rewrite Rel. reflexivity.
Qed.

(** * The batch run *)

(** ** Continue on error *)

(** C1. When the batch continues on error and the session was established,
    every operation of the batch is attempted exactly once, in order,
    however many of them fail: the attempts shown are those of
    [operations config], as many as there are operations, and each leaves
    one entry in [applied] or [failed].  No error of an operation reaches
    the caller: the run returns the result built from the two lists, unless
    closing the browser itself throws. *)
Theorem continue_attempts_every_operation env flags config session b :
  flags.(continueOnError) = true ->
  connecting env flags = (Ok session, b) ->
  attempted (stream env flags config session b) = operations config
  /\ attemptsShown (snd (run env flags config)).(ux)
     = map spinnerText (operations config)
  /\ length (attemptsShown (snd (run env flags config)).(ux))
     = length (operations config)
  /\ (snd (run env flags config)).(applied) = appliedOf (stream env flags config session b)
  /\ (snd (run env flags config)).(failed) = failedOf (stream env flags config session b)
  /\ length (snd (run env flags config)).(applied)
     + length (snd (run env flags config)).(failed)
     = length (operations config)
  /\ (fst (run env flags config) = Ok (resultOf (snd (run env flags config)))
      \/ closeThrew env (run env flags config)).
Proof.
  intros Hcont Hc.
  destruct (runGuarded_connected env flags config session b Hc)
    as (s1 & E & B & Ap & Fa & At).
  unfold escaping in E. rewrite Hcont in E.
  destruct (run_release env flags config) as (U' & Ap' & Fa' & Rel).
  rewrite E in U', Ap', Fa', Rel. simpl in U', Ap', Fa', Rel.
  assert (Hall : attempted (stream env flags config session b) = operations config).
  { unfold stream. rewrite Hcont. apply results_continue. }
  unfold attemptsShown in *. rewrite U', Ap', Fa', At, Hall, Ap, Fa.
  split; [reflexivity|]. split; [reflexivity|].
  split; [apply length_map|].
  split; [reflexivity|]. split; [reflexivity|].
  split.
  { rewrite appliedOf_length_failedOf. rewrite <- Hall.
    unfold attempted. symmetry. apply length_map. }
  assert (R : resultOf (snd (run env flags config)) = resultOf s1)
    by (apply resultOf_same; assumption).
  rewrite R.
  destruct (run_outcome env flags config) as [O|O]; [left | right; exact O].
  rewrite O, E. reflexivity.
Qed.

Lemma continue_attempts_every_operation_witness :
  (batchFlags true).(continueOnError) = true
  /\ connecting (scripted (rowMissing "B")) (batchFlags true)
     = (Ok acmeSession, loggedIn (scripted (rowMissing "B")) (batchFlags true))
  /\ attemptsShown (snd (run (scripted (rowMissing "B")) (batchFlags true)
                           scenarioBatch)).(ux)
     = map spinnerText (operations scenarioBatch).
Proof.
  assert (H1 : (batchFlags true).(continueOnError) = true) by reflexivity.
  assert (H2 : connecting (scripted (rowMissing "B")) (batchFlags true)
               = (Ok acmeSession, loggedIn (scripted (rowMissing "B")) (batchFlags true)))
    by (vm_compute; reflexivity).
  split; [exact H1|]. split; [exact H2|].
  exact (proj1 (proj2 (continue_attempts_every_operation
                         (scripted (rowMissing "B")) (batchFlags true) scenarioBatch
                         acmeSession _ H1 H2))).
Defined.

(** Scenario A of the specification: flow B fails, the batch continues. *)
Example scenario_A :
  fst (run (scripted (rowMissing "B")) (batchFlags true) scenarioBatch)
  = Ok {| ApplySetupResult.success := false;
          ApplySetupResult.message := "Applied 2 settings, 1 failed";
          ApplySetupResult.applied := ["Session Settings"; "Flow: A"];
          ApplySetupResult.failed :=
            ["Flow B: Waiting for selector failed: 60000ms exceeded"] |}.
Proof. vm_compute. reflexivity. Qed.

(** ** Abort on the first failure *)

Lemma firstn_succ_nth_error {A} (l : list A) :
  forall i x, nth_error l i = Some x -> firstn (S i) l = (firstn i l ++ [x])%list.
Proof.
  induction l as [|a l IH]; intros [|i] x H; simpl in *; try discriminate.
  - injection H as ->. reflexivity.
  - f_equal. apply IH. exact H.
Qed.

Lemma attempted_app rs rs' :
  attempted (rs ++ rs')%list = (attempted rs ++ attempted rs')%list.
Proof. apply map_app. Qed.

(** C2, as the code has it.  When the batch does not continue on error and
    the session was established, either every operation completes, or the
    run stops at the first failure, at index [i]: the operations before it
    are in [applied], the failure is the one entry of [failed], [i + 1]
    operations were attempted and none after it, and the caller receives
    the error of the failed operation wrapped by the outer [catch], a
    [CLIError] whose message is [Configuration failed: ] followed by the
    message of that error, unless closing the browser itself throws. *)
Theorem abort_stops_at_first_failure env flags config session b :
  flags.(continueOnError) = false ->
  connecting env flags = (Ok session, b) ->
  (stream env flags config session b = succeeded (operations config)
   /\ attemptsShown (snd (run env flags config)).(ux)
      = map spinnerText (operations config)
   /\ (snd (run env flags config)).(applied) = map appliedLabel (operations config)
   /\ (snd (run env flags config)).(failed) = []
   /\ (fst (run env flags config) = Ok (resultOf (snd (run env flags config)))
       \/ closeThrew env (run env flags config)))
  \/ exists i op e,
      nth_error (operations config) i = Some op
      /\ stream env flags config session b
         = (succeeded (firstn i (operations config)) ++ [(op, Some e)])%list
      /\ attemptsShown (snd (run env flags config)).(ux)
         = map spinnerText (firstn (S i) (operations config))
      /\ length (attemptsShown (snd (run env flags config)).(ux)) = S i
      /\ (snd (run env flags config)).(applied)
         = map appliedLabel (firstn i (operations config))
      /\ (snd (run env flags config)).(failed) = [failedEntry op e]
      /\ (fst (run env flags config) = Throw (configurationFailed e)
          \/ closeThrew env (run env flags config)).
Proof.
  intros Habort Hc.
  destruct (runGuarded_connected env flags config session b Hc)
    as (s1 & E & B & Ap & Fa & At).
  unfold escaping in E. rewrite Habort in E.
  destruct (run_release env flags config) as (U' & Ap' & Fa' & _).
  rewrite E in U', Ap', Fa'. simpl in U', Ap', Fa'.
  rewrite U', Ap', Fa', At, Ap, Fa.
  assert (R : resultOf (snd (run env flags config)) = resultOf s1)
    by (apply resultOf_same; assumption).
  assert (Hs : stream env flags config session b = succeeded (operations config)
               \/ exists i op e,
                   nth_error (operations config) i = Some op
                   /\ stream env flags config session b
                      = (succeeded (firstn i (operations config))
                         ++ [(op, Some e)])%list).
  { unfold stream. rewrite Habort. apply results_abort. }
  destruct Hs as [Hs | (i & op & e & Hn & Hs)]; rewrite Hs in *.
  - left. rewrite firstFailure_succeeded in E.
    rewrite attempted_succeeded, appliedOf_succeeded, failedOf_succeeded.
    repeat split.
    destruct (run_outcome env flags config) as [O|O]; [left | right; exact O].
    rewrite O, E, R. reflexivity.
  - right. exists i, op, e.
    rewrite firstFailure_after_succeeded in E. simpl in E.
    rewrite (firstn_succ_nth_error _ _ _ Hn).
    rewrite attempted_app, attempted_succeeded, appliedOf_app, failedOf_app,
      appliedOf_succeeded, failedOf_succeeded.
    cbn [attempted appliedOf failedOf flat_map map fst snd app].
    rewrite app_nil_r.
    split; [exact Hn|]. repeat split.
    + rewrite length_map, length_app, length_firstn. simpl.
      assert (i < length (operations config)) by (apply nth_error_Some; congruence).
      lia.
    + destruct (run_outcome env flags config) as [O|O]; [left | right; exact O].
      rewrite O, E. reflexivity.
Qed.

Lemma abort_stops_at_first_failure_witness :
  (batchFlags false).(continueOnError) = false
  /\ connecting (scripted (rowMissing "A")) (batchFlags false)
     = (Ok acmeSession, loggedIn (scripted (rowMissing "A")) (batchFlags false))
  /\ ((stream (scripted (rowMissing "A")) (batchFlags false) scenarioBatch acmeSession
         (loggedIn (scripted (rowMissing "A")) (batchFlags false))
       = succeeded (operations scenarioBatch)
       /\ attemptsShown (snd (run (scripted (rowMissing "A")) (batchFlags false)
                                scenarioBatch)).(ux)
          = map spinnerText (operations scenarioBatch)
       /\ (snd (run (scripted (rowMissing "A")) (batchFlags false) scenarioBatch)).(applied)
          = map appliedLabel (operations scenarioBatch)
       /\ (snd (run (scripted (rowMissing "A")) (batchFlags false) scenarioBatch)).(failed)
          = []
       /\ (fst (run (scripted (rowMissing "A")) (batchFlags false) scenarioBatch)
           = Ok (resultOf (snd (run (scripted (rowMissing "A")) (batchFlags false)
                                  scenarioBatch)))
           \/ closeThrew (scripted (rowMissing "A"))
                (run (scripted (rowMissing "A")) (batchFlags false) scenarioBatch)))
      \/ exists i op e,
          nth_error (operations scenarioBatch) i = Some op
          /\ stream (scripted (rowMissing "A")) (batchFlags false) scenarioBatch
               acmeSession (loggedIn (scripted (rowMissing "A")) (batchFlags false))
             = (succeeded (firstn i (operations scenarioBatch)) ++ [(op, Some e)])%list
          /\ attemptsShown (snd (run (scripted (rowMissing "A")) (batchFlags false)
                                   scenarioBatch)).(ux)
             = map spinnerText (firstn (S i) (operations scenarioBatch))
          /\ length (attemptsShown (snd (run (scripted (rowMissing "A"))
                                           (batchFlags false) scenarioBatch)).(ux))
             = S i
          /\ (snd (run (scripted (rowMissing "A")) (batchFlags false)
                     scenarioBatch)).(applied)
             = map appliedLabel (firstn i (operations scenarioBatch))
          /\ (snd (run (scripted (rowMissing "A")) (batchFlags false)
                     scenarioBatch)).(failed)
             = [failedEntry op e]
          /\ (fst (run (scripted (rowMissing "A")) (batchFlags false) scenarioBatch)
              = Throw (configurationFailed e)
              \/ closeThrew (scripted (rowMissing "A"))
                   (run (scripted (rowMissing "A")) (batchFlags false) scenarioBatch))).
Proof.
  assert (H1 : (batchFlags false).(continueOnError) = false) by reflexivity.
  assert (H2 : connecting (scripted (rowMissing "A")) (batchFlags false)
               = (Ok acmeSession,
                  loggedIn (scripted (rowMissing "A")) (batchFlags false)))
    by (vm_compute; reflexivity).
  split; [exact H1|]. split; [exact H2|].
  exact (abort_stops_at_first_failure (scripted (rowMissing "A")) (batchFlags false)
           scenarioBatch acmeSession _ H1 H2).
Defined.

(** Scenario B of the specification: flow A fails, the batch aborts; the
    session settings stay applied and flow B is never attempted. *)
Example scenario_B :
  fst (run (scripted (rowMissing "A")) (batchFlags false) scenarioBatch)
  = Throw (ErrorObj "CLIError"
             "Configuration failed: Waiting for selector failed: 60000ms exceeded")
  /\ (snd (run (scripted (rowMissing "A")) (batchFlags false) scenarioBatch)).(applied)
     = ["Session Settings"]
  /\ attemptsShown (snd (run (scripted (rowMissing "A")) (batchFlags false)
                           scenarioBatch)).(ux)
     = ["Applying session settings..."; "Activating flow A..."].
Proof. vm_compute. repeat split. Qed.

(** C2 as stated fails: in scenario B the error of the failed operation is
    the timeout of the row lookup, and what the caller receives is another
    error, made by the outer [catch]. *)
Lemma abort_error_reaches_caller_wrapped :
  firstFailure (stream (scripted (rowMissing "A")) (batchFlags false) scenarioBatch
                  acmeSession (loggedIn (scripted (rowMissing "A")) (batchFlags false)))
  = Some timeoutError
  /\ fst (run (scripted (rowMissing "A")) (batchFlags false) scenarioBatch)
     <> Throw timeoutError.
Proof.
  split.
  - vm_compute. reflexivity.
  - vm_compute. discriminate.
Qed.

(** ** The fixed category order *)

Lemma setMember_comm config x y :
  keyOf x <> keyOf y ->
  setMember (setMember config x) y = setMember (setMember config y) x.
Proof.
  destruct x, y; simpl; intros H; try reflexivity; contradiction H; reflexivity.
Qed.

Lemma fold_setMember_permutation doc doc' :
  Permutation doc doc' ->
  NoDup (map keyOf doc) ->
  forall config, fold_left setMember doc config = fold_left setMember doc' config.
Proof.
  induction 1 as [| x l l' HP IH | x y l | l l' l'' HP1 IH1 HP2 IH2];
    intros Hnd config; simpl.
  - reflexivity.
  - inversion Hnd; subst. apply IH. assumption.
  - inversion Hnd as [| ? ? Hin _]; subst. rewrite setMember_comm; [reflexivity|].
    intros Heq. apply Hin. simpl. left. symmetry. exact Heq.
  - rewrite IH1 by assumption. apply IH2.
    eapply Permutation_NoDup; [apply Permutation_map; exact HP1 | exact Hnd].
Qed.

Lemma memberAt_setMember config m : memberAt (setMember config m) (keyOf m) = Some m.
Proof. destruct m; reflexivity. Qed.

Lemma memberAt_setMember_other config m k :
  keyOf m <> k -> memberAt (setMember config m) k = memberAt config k.
Proof.
  destruct m, k; simpl; intros H; try reflexivity; contradiction H; reflexivity.
Qed.

Lemma memberAt_fold_other doc k :
  ~ In k (map keyOf doc) ->
  forall config, memberAt (fold_left setMember doc config) k = memberAt config k.
Proof.
  induction doc as [|x doc IH]; intros Hk config; simpl.
  - reflexivity.
  - rewrite IH by (intros Hin; apply Hk; right; exact Hin).
    apply memberAt_setMember_other. intros Heq. apply Hk. left. exact Heq.
Qed.

Lemma memberAt_fold doc m :
  NoDup (map keyOf doc) -> In m doc ->
  forall config, memberAt (fold_left setMember doc config) (keyOf m) = Some m.
Proof.
  induction doc as [|x doc IH]; intros Hnd Hin config; simpl in *.
  - contradiction.
  - inversion Hnd as [| ? ? Hx Hnd']; subst. destruct Hin as [-> | Hin].
    + rewrite memberAt_fold_other by assumption. apply memberAt_setMember.
    + apply IH; assumption.
Qed.

Lemma filter_all {A} (p : A -> bool) (l : list A) :
  (forall x, In x l -> p x = true) -> filter p l = l.
Proof.
  induction l as [|a l IH]; intros H; simpl; [reflexivity|].
  rewrite (H a (or_introl eq_refl)). f_equal. apply IH. intros x Hx. apply H. right. exact Hx.
Qed.

Lemma filter_none {A} (p : A -> bool) (l : list A) :
  (forall x, In x l -> p x = false) -> filter p l = [].
Proof.
  induction l as [|a l IH]; intros H; simpl; [reflexivity|].
  rewrite (H a (or_introl eq_refl)). apply IH. intros x Hx. apply H. right. exact Hx.
Qed.

Lemma filter_rank_map {A} (C : A -> Operation) (l : list A) (n r : nat) :
  (forall a, rank (C a) = r) ->
  filter (fun op => rank op =? n)%nat (map C l) = if (r =? n)%nat then map C l else [].
Proof.
  intros HC. destruct (r =? n)%nat eqn:E.
  - apply filter_all. intros x Hx. apply in_map_iff in Hx as (a & <- & _).
    rewrite HC. exact E.
  - apply filter_none. intros x Hx. apply in_map_iff in Hx as (a & <- & _).
    rewrite HC. exact E.
Qed.

(** The operations of one category are those of the section under its key,
    in the order the section lists them. *)
Lemma ofCategory_operations config k :
  ofCategory k (operations config)
  = match memberAt config k with
    | Some m => operationsOf m
    | None => []
    end.
Proof.
  unfold ofCategory, operations. rewrite !filter_app.
  rewrite (filter_rank_map OpSessionSettings _ _ 0 (fun _ => eq_refl)).
  rewrite (filter_rank_map OpSharingSettings _ _ 1 (fun _ => eq_refl)).
  rewrite (filter_rank_map OpActivityCapture _ _ 2 (fun _ => eq_refl)).
  rewrite (filter_rank_map OpOmniChannel _ _ 3 (fun _ => eq_refl)).
  rewrite (filter_rank_map OpFlowActivation _ _ 4 (fun _ => eq_refl)).
  rewrite (filter_rank_map OpOrgWideEmail _ _ 5 (fun _ => eq_refl)).
  destruct k; simpl; rewrite ?app_nil_r;
    [ destruct (sessionSettings config)
    | destruct (sharingSettings config)
    | destruct (einsteinActivityCapture config)
    | destruct (omniChannel config)
    | destruct (flows config)
    | destruct (orgWideEmails config) ]; reflexivity.
Qed.

Lemma sorted_app (l l' : list Operation) (n : nat) :
  StronglySorted (fun a b => rank a <= rank b) l ->
  StronglySorted (fun a b => rank a <= rank b) l' ->
  Forall (fun a => rank a <= n) l ->
  Forall (fun b => n <= rank b) l' ->
  StronglySorted (fun a b => rank a <= rank b) (l ++ l')%list.
Proof.
  induction 1 as [|a l Hs IH Ha]; intros Hl' Hle Hge; simpl.
  - exact Hl'.
  - inversion Hle as [|? ? Han Hle']; subst. constructor.
    + apply IH; assumption.
    + apply Forall_app. split; [exact Ha|].
      eapply Forall_impl; [|exact Hge]. simpl. intros b Hb. lia.
Qed.

Lemma Forall_map_all {A} (P : Operation -> Prop) (C : A -> Operation) (l : list A) :
  (forall a, P (C a)) -> Forall P (map C l).
Proof. intros H. induction l; simpl; constructor; auto. Qed.

Lemma sorted_map {A} (C : A -> Operation) (l : list A) :
  (forall a a', rank (C a) <= rank (C a')) ->
  StronglySorted (fun a b => rank a <= rank b) (map C l).
Proof.
  intros HC. induction l as [|a l IH]; simpl; constructor; [exact IH|].
  apply Forall_map_all. intros a'. apply HC.
Qed.

Ltac ranks :=
  repeat (apply Forall_app; split);
  apply Forall_map_all; intros; simpl; lia.

(** The operations of a batch are listed category by category. *)
Lemma operations_sorted config :
  StronglySorted (fun a b => rank a <= rank b) (operations config).
Proof.
  unfold operations.
  apply (sorted_app _ _ 0); [apply sorted_map; intros; simpl; lia | | ranks | ranks].
  apply (sorted_app _ _ 1); [apply sorted_map; intros; simpl; lia | | ranks | ranks].
  apply (sorted_app _ _ 2); [apply sorted_map; intros; simpl; lia | | ranks | ranks].
  apply (sorted_app _ _ 3); [apply sorted_map; intros; simpl; lia | | ranks | ranks].
  apply (sorted_app _ _ 4); [apply sorted_map; intros; simpl; lia | | ranks | ranks].
  apply sorted_map; intros; simpl; lia.
Qed.

(** The attempts of a run, pinned: none when [connect] throws; otherwise
    those of the stream of results, which are all the operations, or, when
    the batch stops at the first failure, the operations up to and
    including the first one that failed. *)
Lemma run_attempts_pinned env flags config :
  match connecting env flags with
  | (Ok session, b) =>
      attemptsShown (snd (run env flags config)).(ux)
      = map spinnerText (attempted (stream env flags config session b))
      /\ (attempted (stream env flags config session b) = operations config
          \/ (flags.(continueOnError) = false
              /\ exists i op e,
                  nth_error (operations config) i = Some op
                  /\ stream env flags config session b
                     = (succeeded (firstn i (operations config)) ++ [(op, Some e)])%list
                  /\ attempted (stream env flags config session b)
                     = firstn (S i) (operations config)))
  | (Throw _, _) => attemptsShown (snd (run env flags config)).(ux) = []
  end.
Proof.
  destruct (run_release env flags config) as (U' & _).
  rewrite U'.
  destruct (connecting env flags) as [[session|e] b] eqn:Hc.
  - destruct (runGuarded_connected env flags config session b Hc)
      as (s1 & E & _ & _ & _ & At).
    rewrite E. cbn [snd]. split; [exact At|].
    unfold stream. destruct (continueOnError flags) eqn:Hcont.
    + left. apply results_continue.
    + destruct (results_abort env session.(session_page) (operations config) b)
        as [H | (i & op & e & Hn & H)]; rewrite H.
      * left. apply attempted_succeeded.
      * right. split; [reflexivity|]. exists i, op, e.
        split; [exact Hn|]. split; [reflexivity|].
        rewrite (firstn_succ_nth_error _ _ _ Hn).
        rewrite attempted_app, attempted_succeeded. reflexivity.
  - destruct (runGuarded_not_connected env flags config e b Hc)
      as (s1 & E & _ & _ & _ & At).
    rewrite E. simpl. exact At.
Qed.

(** C3. However the sections of the document are ordered (each key written
    once), the configuration read from it and hence the whole run are the
    same.  Once the session is established, the attempts of a run are those
    of [operations], in its order: all of them, or, when the batch stops at
    the first failure, the operations up to and including the first one
    that failed; without a session nothing is attempted.  [operations]
    lists the categories in the fixed order sessionSettings,
    sharingSettings, einsteinActivityCapture, omniChannel, flows,
    orgWideEmails: it is sorted by category, the operations of each
    category are those of the section of the document under that key, in
    the order the section lists them, and a category without a section
    contributes nothing. *)
Theorem fixed_category_order env flags doc doc' :
  NoDup (map keyOf doc) ->
  Permutation doc doc' ->
  run env flags (parseConfig doc') = run env flags (parseConfig doc)
  /\ match connecting env flags with
     | (Ok session, b) =>
         attemptsShown (snd (run env flags (parseConfig doc))).(ux)
         = map spinnerText (attempted (stream env flags (parseConfig doc) session b))
         /\ (attempted (stream env flags (parseConfig doc) session b)
             = operations (parseConfig doc)
             \/ (flags.(continueOnError) = false
                 /\ exists i op e,
                     nth_error (operations (parseConfig doc)) i = Some op
                     /\ stream env flags (parseConfig doc) session b
                        = (succeeded (firstn i (operations (parseConfig doc)))
                           ++ [(op, Some e)])%list
                     /\ attempted (stream env flags (parseConfig doc) session b)
                        = firstn (S i) (operations (parseConfig doc))))
     | (Throw _, _) =>
         attemptsShown (snd (run env flags (parseConfig doc))).(ux) = []
     end
  /\ StronglySorted (fun a b => rank a <= rank b) (operations (parseConfig doc))
  /\ (forall m, In m doc ->
                ofCategory (keyOf m) (operations (parseConfig doc)) = operationsOf m)
  /\ (forall k, ~ In k (map keyOf doc) ->
                ofCategory k (operations (parseConfig doc)) = []).
Proof.
  intros Hnd Hperm.
  split.
  { unfold parseConfig.
    rewrite <- (fold_setMember_permutation doc doc' Hperm Hnd). reflexivity. }
  split; [apply run_attempts_pinned|].
  split; [apply operations_sorted|].
  split.
  - intros m Hin. rewrite ofCategory_operations. unfold parseConfig.
    rewrite (memberAt_fold doc m Hnd Hin). reflexivity.
  - intros k Hk. rewrite ofCategory_operations. unfold parseConfig.
    rewrite (memberAt_fold_other doc k Hk). destruct k; reflexivity.
Qed.

Lemma fixed_category_order_witness :
  NoDup (map keyOf scenarioDocument)
  /\ Permutation scenarioDocument (rev scenarioDocument)
  /\ run (scripted nothingFails) (batchFlags true) (parseConfig (rev scenarioDocument))
     = run (scripted nothingFails) (batchFlags true) (parseConfig scenarioDocument).
Proof.
  assert (H1 : NoDup (map keyOf scenarioDocument)).
  { simpl. repeat constructor; simpl; intuition discriminate. }
  assert (H2 : Permutation scenarioDocument (rev scenarioDocument))
    by apply Permutation_rev.
  split; [exact H1|]. split; [exact H2|].
  exact (proj1 (fixed_category_order (scripted nothingFails) (batchFlags true)
                  scenarioDocument (rev scenarioDocument) H1 H2)).
Defined.

(** The flows are written before the session settings and attempted after. *)
Example scenario_order :
  attemptsShown (snd (run (scripted nothingFails) (batchFlags true)
                        scenarioBatch)).(ux)
  = ["Applying session settings..."; "Activating flow A..."; "Deactivating flow B..."].
Proof. vm_compute. reflexivity. Qed.

(** ** The result *)

(** C4, as the code has it.  A run that returns has attempted every
    operation of the batch, and its result reduces the stream of their
    results: each operation that completed gives its label to [applied],
    each one that failed gives one entry to [failed], made of its failure
    label, [: ] and the message of the error ([failedEntry]); [success] is
    true exactly when [failed] is empty.  The failure label is the applied
    label for the three single sections and the applied label without its
    colon for sharing settings, flows and org-wide emails. *)
Theorem result_reduces_the_stream env flags config result :
  fst (run env flags config) = Ok result ->
  (result.(ApplySetupResult.success) = true <-> result.(ApplySetupResult.failed) = [])
  /\ exists session b,
      connecting env flags = (Ok session, b)
      /\ attempted (stream env flags config session b) = operations config
      /\ result.(ApplySetupResult.applied) = appliedOf (stream env flags config session b)
      /\ result.(ApplySetupResult.failed) = failedOf (stream env flags config session b)
      /\ length result.(ApplySetupResult.applied)
         + length result.(ApplySetupResult.failed)
         = length (operations config).
Proof.
  intros Hok.
  destruct (run_outcome env flags config) as [O | (h & e & _ & _ & O)];
    [|congruence].
  rewrite O in Hok.
  destruct (connecting env flags) as [[session|e] b] eqn:Hc.
  - destruct (runGuarded_connected env flags config session b Hc)
      as (s1 & E & _ & Ap & Fa & _).
    rewrite E in Hok. simpl in Hok.
    destruct (escaping (continueOnError flags) (stream env flags config session b))
      as [e|] eqn:He; [discriminate|].
    injection Hok as <-. simpl.
    assert (Hall : attempted (stream env flags config session b) = operations config).
    { unfold escaping, stream in *. destruct (continueOnError flags).
      - apply results_continue.
      - destruct (results_abort env session.(session_page) (operations config) b)
          as [H | (i & op & e & _ & H)]; rewrite H in *.
        + apply attempted_succeeded.
        + rewrite firstFailure_after_succeeded in He. discriminate. }
    split.
    + rewrite Nat.eqb_eq. destruct (failed s1); simpl; split; congruence.
    + exists session, b. rewrite Ap, Fa. repeat split; try assumption.
      rewrite appliedOf_length_failedOf, <- Hall. unfold attempted.
      symmetry. apply length_map.
  - destruct (runGuarded_not_connected env flags config e b Hc) as (s1 & E & _).
    rewrite E in Hok. discriminate.
Qed.

Lemma result_reduces_the_stream_witness :
  fst (run (scripted (rowMissing "B")) (batchFlags true) scenarioBatch)
  = Ok {| ApplySetupResult.success := false;
          ApplySetupResult.message := "Applied 2 settings, 1 failed";
          ApplySetupResult.applied := ["Session Settings"; "Flow: A"];
          ApplySetupResult.failed :=
            ["Flow B: Waiting for selector failed: 60000ms exceeded"] |}
  /\ (false = true
      <-> ["Flow B: Waiting for selector failed: 60000ms exceeded"] = @nil string).
Proof.
  assert (H : fst (run (scripted (rowMissing "B")) (batchFlags true) scenarioBatch)
              = Ok {| ApplySetupResult.success := false;
                      ApplySetupResult.message := "Applied 2 settings, 1 failed";
                      ApplySetupResult.applied := ["Session Settings"; "Flow: A"];
                      ApplySetupResult.failed :=
                        ["Flow B: Waiting for selector failed: 60000ms exceeded"] |})
    by (vm_compute; reflexivity).
  split; [exact H|].
  exact (proj1 (result_reduces_the_stream (scripted (rowMissing "B")) (batchFlags true)
                  scenarioBatch _ H)).
Defined.

(** C4 as stated fails for the three list sections: the entry that a failed
    flow leaves in [failed] does not start with the label that it would have
    given to [applied]. *)
Lemma failed_entry_has_its_own_label :
  (snd (run (scripted (rowMissing "B")) (batchFlags true) scenarioBatch)).(failed)
  = ["Flow B: Waiting for selector failed: 60000ms exceeded"]
  /\ appliedLabel (OpFlowActivation flowB) = "Flow: B"
  /\ forall message,
      ~ In (appliedLabel (OpFlowActivation flowB) ++ ": " ++ message)
          (snd (run (scripted (rowMissing "B")) (batchFlags true) scenarioBatch)).(failed).
Proof.
  assert (H : (snd (run (scripted (rowMissing "B")) (batchFlags true)
                      scenarioBatch)).(failed)
              = ["Flow B: Waiting for selector failed: 60000ms exceeded"])
    by (vm_compute; reflexivity).
  split; [exact H|]. split; [reflexivity|].
  intros message Hin. rewrite H in Hin. simpl in Hin.
  destruct Hin as [Heq | []]. discriminate Heq.
Qed.

(** * Releasing the browser *)

(** C5, as the code has it.  [run] neither catches nor logs a failure of
    [disconnect]: when [browser.close()] throws, its error is what the
    caller receives, in place of the result or the error that the run had
    determined.  When closing returns, the caller receives what the guarded
    part had determined, and when no browser was opened nothing is closed
    and the run ends as the guarded part did.  In every case the output and
    the two lists stay as the guarded part left them. *)
Theorem release_error_replaces_outcome env flags config :
  (snd (run env flags config)).(ux) = (snd (runGuarded env flags config)).(ux)
  /\ (snd (run env flags config)).(applied) = (snd (runGuarded env flags config)).(applied)
  /\ (snd (run env flags config)).(failed) = (snd (runGuarded env flags config)).(failed)
  /\ (forall h e,
         (snd (run env flags config)).(below).(history) = Close :: h ->
         env.(rejects) h Close = Some e ->
         fst (run env flags config) = Throw e)
  /\ (forall h,
         (snd (run env flags config)).(below).(history) = Close :: h ->
         env.(rejects) h Close = None ->
         fst (run env flags config) = fst (runGuarded env flags config))
  /\ (acquired env (snd (runGuarded env flags config)).(below).(history) = 0 ->
      run env flags config = runGuarded env flags config).
Proof.
  destruct (run_release env flags config) as (U & Ap & Fa & Rel).
  destruct (runGuarded_browser env flags config) as (Hrel & Hacq).
  split; [exact U|]. split; [exact Ap|]. split; [exact Fa|].
  unfold held in Hacq.
  destruct (browser (manager (below (snd (runGuarded env flags config))))).
  - destruct Rel as (Hh' & Hout). split; [|split].
    + intros h e Hh Hr. rewrite Hh in Hh'. injection Hh' as Heq.
      rewrite <- Heq, Hr in Hout. exact Hout.
    + intros h Hh Hr. rewrite Hh in Hh'. injection Hh' as Heq.
      rewrite <- Heq, Hr in Hout. apply Hout.
    + intros H0. rewrite H0 in Hacq. discriminate.
  - split; [|split].
    + intros h e Hh _. rewrite Rel in Hh. rewrite Hh in Hrel. discriminate.
    + intros h Hh _. rewrite Rel in Hh. rewrite Hh in Hrel. discriminate.
    + intros _. exact Rel.
Qed.

Lemma release_error_replaces_outcome_witness :
  (snd (run (scripted closeFails) (batchFlags true) scenarioBatch)).(below).(history)
  = Close :: (snd (runGuarded (scripted closeFails) (batchFlags true)
                     scenarioBatch)).(below).(history)
  /\ (scripted closeFails).(rejects)
       (snd (runGuarded (scripted closeFails) (batchFlags true)
               scenarioBatch)).(below).(history) Close
     = Some closeError
  /\ fst (run (scripted closeFails) (batchFlags true) scenarioBatch) = Throw closeError.
Proof.
  assert (H1 : (snd (run (scripted closeFails) (batchFlags true)
                       scenarioBatch)).(below).(history)
               = Close :: (snd (runGuarded (scripted closeFails) (batchFlags true)
                                  scenarioBatch)).(below).(history))
    by (vm_compute; reflexivity).
  assert (H2 : (scripted closeFails).(rejects)
                 (snd (runGuarded (scripted closeFails) (batchFlags true)
                         scenarioBatch)).(below).(history) Close
               = Some closeError) by reflexivity.
  split; [exact H1|]. split; [exact H2|].
  exact (proj1 (proj2 (proj2 (proj2
           (release_error_replaces_outcome (scripted closeFails) (batchFlags true)
              scenarioBatch)))) _ closeError H1 H2).
Defined.

(** Closing returns: the caller receives the result that was determined. *)
Example release_keeps_the_outcome :
  fst (run (scripted nothingFails) (batchFlags true) scenarioBatch)
  = fst (runGuarded (scripted nothingFails) (batchFlags true) scenarioBatch)
  /\ released (snd (run (scripted nothingFails) (batchFlags true)
                      scenarioBatch)).(below).(history) = 1.
Proof. vm_compute. split; reflexivity. Qed.

(** C5 as stated fails: every operation completed and the result was
    determined, yet the caller receives the error of [browser.close()], and
    nothing was logged for it. *)
Lemma release_error_reaches_caller :
  fst (runGuarded (scripted closeFails) (batchFlags true) scenarioBatch)
  = Ok {| ApplySetupResult.success := true;
          ApplySetupResult.message := "Applied 3 settings, 0 failed";
          ApplySetupResult.applied := ["Session Settings"; "Flow: A"; "Flow: B"];
          ApplySetupResult.failed := [] |}
  /\ fst (run (scripted closeFails) (batchFlags true) scenarioBatch) = Throw closeError
  /\ (snd (run (scripted closeFails) (batchFlags true) scenarioBatch)).(ux)
     = (snd (runGuarded (scripted closeFails) (batchFlags true) scenarioBatch)).(ux).
Proof. vm_compute. repeat split. Qed.

(** C6. Whatever the batch, the mode and the failures, when [run] ends the
    browser was closed as many times as one was acquired, at most once, and
    the manager holds no browser unless closing it threw.  [disconnect] on
    a manager without a browser, never opened or already closed, changes
    nothing and returns. *)
Theorem browser_released_once env flags config :
  released (snd (run env flags config)).(below).(history)
  = acquired env (snd (run env flags config)).(below).(history)
  /\ released (snd (run env flags config)).(below).(history) <= 1
  /\ ((snd (run env flags config)).(below).(manager).(browser) = None
      \/ closeThrew env (run env flags config))
  /\ (forall h p opts,
         disconnect env {| history := h;
                           manager := {| browser := None; page := p; options := opts |} |}
         = (Ok tt, {| history := h;
                      manager := {| browser := None; page := p; options := opts |} |}))
  /\ (forall s,
         match disconnect env s with
         | (Ok _, s') => disconnect env s' = (Ok tt, s')
         | (Throw _, _) => True
         end).
Proof.
  destruct (run_release env flags config) as (_ & _ & _ & Rel).
  destruct (runGuarded_browser env flags config) as (Hrel & Hacq).
  unfold held in Hacq.
  assert (Hrun :
    released (snd (run env flags config)).(below).(history)
    = acquired env (snd (run env flags config)).(below).(history)
    /\ released (snd (run env flags config)).(below).(history) <= 1
    /\ ((snd (run env flags config)).(below).(manager).(browser) = None
        \/ closeThrew env (run env flags config))).
  { destruct (browser (manager (below (snd (runGuarded env flags config))))) eqn:Hb.
    - destruct Rel as (Hh & Hout). rewrite Hh. simpl. rewrite Hrel, Hacq.
      repeat split; [lia|].
      destruct (rejects env (history (below (snd (runGuarded env flags config)))) Close)
        as [e|] eqn:Hr.
      + right. exists (history (below (snd (runGuarded env flags config)))), e. auto.
      + left. apply Hout.
    - rewrite Rel, Hrel, Hacq. repeat split; [lia|]. left. exact Hb. }
  destruct Hrun as (H1 & H2 & H3).
  split; [exact H1|]. split; [exact H2|]. split; [exact H3|]. split.
  - intros h p opts. apply disconnect_never_opened. reflexivity.
  - intros s. destruct (browser (manager s)) as [b|] eqn:Hb.
    + rewrite (disconnect_opened env s b Hb).
      destruct (rejects env (history s) Close); [exact I|].
      apply disconnect_never_opened. reflexivity.
    + rewrite (disconnect_never_opened env s Hb).
      apply disconnect_never_opened. exact Hb.
Qed.

(** Every operation of scenario A and B fails for want of a toast: the
    browser is closed once all the same, in both modes. *)
Example released_once_when_all_fail :
  released (snd (run (scripted toastMissing) (batchFlags true)
                   scenarioBatch)).(below).(history) = 1
  /\ (snd (run (scripted toastMissing) (batchFlags true) scenarioBatch)).(failed)
     = ["Session Settings: Waiting for selector failed: 60000ms exceeded";
        "Flow A: Waiting for selector failed: 60000ms exceeded";
        "Flow B: Waiting for selector failed: 60000ms exceeded"]
  /\ released (snd (run (scripted toastMissing) (batchFlags false)
                      scenarioBatch)).(below).(history) = 1.
Proof. vm_compute. repeat split. Qed.

(** * Connecting *)

Lemma accepted_cons env h c rest :
  accepted env h (c :: rest) = true ->
  env.(rejects) h c = None /\ accepted env (c :: h) rest = true.
Proof.
  simpl. destruct (rejects env h c); [discriminate | auto].
Qed.

Lemma ask_accepted env c s :
  env.(rejects) s.(history) c = None ->
  ask env c s = (Ok (env.(holds) s.(history) c), record c s).
Proof. intros H. unfold ask. rewrite H. reflexivity. Qed.

Lemma connect_session_missing env org s :
  truthy org.(connection_instanceUrl) = None
  \/ truthy org.(connection_accessToken) = None ->
  connect env org s
  = (Throw (newError "Unable to get Salesforce session. Please authenticate first."), s).
Proof.
  intros [H|H]; unfold connect; rewrite H; [reflexivity|].
  destruct (truthy (connection_instanceUrl org)); reflexivity.
Qed.

Lemma connect_marker_absent env org s u t :
  truthy org.(connection_instanceUrl) = Some u ->
  truthy org.(connection_accessToken) = Some t ->
  accepted env s.(history) (loginCalls s.(manager).(options) u t) = true ->
  noLoginMarker env (rev (loginCalls s.(manager).(options) u t) ++ s.(history))%list
  = true ->
  exists s',
    connect env org s = (Throw (newError "Failed to authenticate to Salesforce"), s')
    /\ In (Goto TopPage (frontdoorUrl u t)) s'.(history).
Proof.
  intros Hu Ht Hacc Hno. unfold connect. rewrite Hu, Ht.
  unfold loginCalls in Hacc.
  apply accepted_cons in Hacc as (E1 & Hacc).
  apply accepted_cons in Hacc as (E2 & Hacc).
  apply accepted_cons in Hacc as (E3 & Hacc).
  apply accepted_cons in Hacc as (E4 & Hacc).
  apply accepted_cons in Hacc as (E5 & _).
  unfold noLoginMarker in Hno.
  destruct (rejects env _ (DocHas TopPage ".slds-global-header")) eqn:E6;
    [discriminate|].
  apply andb_prop in Hno as (M1 & Hno).
  destruct (rejects env _ (DocHas TopPage "#phHeaderLogoImage")) eqn:E7;
    [discriminate|].
  apply negb_true_iff in M1, Hno.
  eexists. split.
  - rewrite (bind_ok this _ s s.(manager) s eq_refl).
    erewrite bind_ok; [|apply perform_accepted; exact E1].
    rewrite (bind_ok (setBrowser _) _ _ tt _ eq_refl).
    erewrite bind_ok; [|apply perform_accepted; exact E2].
    rewrite (bind_ok (setPage _) _ _ tt _ eq_refl).
    erewrite bind_ok; [|apply perform_accepted; exact E3].
    erewrite bind_ok; [|apply perform_accepted; exact E4].
    erewrite bind_ok; [|apply perform_accepted; exact E5].
    erewrite bind_ok;
      [|erewrite bind_ok; [|apply ask_accepted; exact E6];
        unfold record; cbn [history manager];
        match goal with
        | |- (if ?b then _ else _) _ = _ =>
            replace b with false by (symmetry; exact M1)
        end;
        apply ask_accepted; exact E7].
    unfold record; cbn [history manager].
    match goal with
    | |- context [negb ?b] => replace b with false by (symmetry; exact Hno)
    end.
    reflexivity.
  - simpl. do 2 right. left. reflexivity.
Qed.

(** C9. [connect] finds no usable session in two ways: the instance URL or
    the access token is missing, or the browser was launched and sent to
    the front-door URL and the page shows neither login marker.  Either way
    it throws its authentication error before any operation is attempted:
    the run ends with that error, wrapped by the outer [catch] (unless
    closing the browser throws), with both lists empty; in the second case
    the navigation to the front door is in the history. *)
Theorem authentication_failure_is_fatal env flags config e :
  AuthenticationFailed env flags.(targetOrg) (start flags).(below) e ->
  fst (connecting env flags) = Throw e
  /\ (e = newError "Failed to authenticate to Salesforce" ->
      In (Goto TopPage (frontdoorOf flags.(targetOrg)))
         (snd (connecting env flags)).(history))
  /\ attemptsShown (snd (run env flags config)).(ux) = []
  /\ (snd (run env flags config)).(applied) = []
  /\ (snd (run env flags config)).(failed) = []
  /\ (fst (run env flags config) = Throw (configurationFailed e)
      \/ closeThrew env (run env flags config)).
Proof.
  intros Hauth.
  assert (Hc : fst (connecting env flags) = Throw e
               /\ (e = newError "Failed to authenticate to Salesforce" ->
                   In (Goto TopPage (frontdoorOf flags.(targetOrg)))
                      (snd (connecting env flags)).(history))).
  { unfold connecting. destruct Hauth as [Hm | u t Hu Ht Hacc Hno].
    - rewrite (connect_session_missing env _ _ Hm). split; [reflexivity|].
      intros H. discriminate H.
    - destruct (connect_marker_absent env _ _ u t Hu Ht Hacc Hno) as (s' & Hf & Hin).
      rewrite Hf. split; [reflexivity|]. intros _. unfold frontdoorOf. simpl snd.
      unfold truthy in Hu, Ht.
      destruct (connection_instanceUrl (targetOrg flags)) as [[|? ?]|];
        try discriminate;
        destruct (connection_accessToken (targetOrg flags)) as [[|? ?]|];
        try discriminate.
      injection Hu as <-. injection Ht as <-. exact Hin. }
  destruct Hc as (Hf & Hnav).
  split; [exact Hf|]. split; [exact Hnav|].
  destruct (connecting env flags) as [r b] eqn:Hc. simpl in Hf. subst r.
  destruct (runGuarded_not_connected env flags config e b Hc)
    as (s1 & E & _ & Ap & Fa & At).
  destruct (run_release env flags config) as (U' & Ap' & Fa' & _).
  rewrite E in U', Ap', Fa'. simpl in U', Ap', Fa'.
  rewrite U', Ap', Fa'. repeat split; try assumption.
  destruct (run_outcome env flags config) as [O|O]; [left | right; exact O].
  rewrite O, E. reflexivity.
Qed.

Lemma authentication_failure_is_fatal_witness :
  AuthenticationFailed loginPageOnly (batchFlags true).(targetOrg)
    (start (batchFlags true)).(below)
    (newError "Failed to authenticate to Salesforce")
  /\ fst (connecting loginPageOnly (batchFlags true))
     = Throw (newError "Failed to authenticate to Salesforce")
  /\ (snd (run loginPageOnly (batchFlags true) scenarioBatch)).(applied) = [].
Proof.
  assert (H : AuthenticationFailed loginPageOnly (batchFlags true).(targetOrg)
                (start (batchFlags true)).(below)
                (newError "Failed to authenticate to Salesforce")).
  { apply (MarkerAbsent _ _ _ "https://acme.my.salesforce.com" "00Dxx0000001gPL!AQ4AQ");
      reflexivity. }
  split; [exact H|].
  pose proof (authentication_failure_is_fatal loginPageOnly (batchFlags true)
                scenarioBatch _ H) as (H1 & _ & _ & H2 & _).
  split; [exact H1 | exact H2].
Defined.

(** Without an access token the browser is not even launched. *)
Example run_without_token :
  run (scripted nothingFails)
      {| targetOrg := noToken; configFile := "setup-config.json";
         noHeadless := false; continueOnError := true |}
      scenarioBatch
  = (Throw (ErrorObj "CLIError"
              "Configuration failed: Unable to get Salesforce session. Please authenticate first."),
     {| below := {| history := [];
                    manager := newBrowserManager
                                 {| headless := Some true; slowMo := None;
                                    timeout := None; viewport := None |} |};
        ux := [ SpinnerStop; SpinnerStart "Connecting to Salesforce...";
                Log "Loaded configuration from: setup-config.json" ];
        applied := [];
        failed := [] |}).
Proof. vm_compute. reflexivity. Qed.

(** * Primitive interactions *)






(** Two calls on an unchecked box: one click; on a checked box: none. *)
Example setCheckbox_twice :
  toggles (El TopPage (checkboxById "lockIp"))
    (snd ((setCheckbox (checkboxes false) TopPage (checkboxById "lockIp") true ;;
           setCheckbox (checkboxes false) TopPage (checkboxById "lockIp") true)
            emptyState)).(history) = 1
  /\ toggles (El TopPage (checkboxById "lockIp"))
       (snd ((setCheckbox (checkboxes true) TopPage (checkboxById "lockIp") true ;;
              setCheckbox (checkboxes true) TopPage (checkboxById "lockIp") true)
               emptyState)).(history) = 0.
Proof. vm_compute. split; reflexivity. Qed.


Lemma includes_empty s : includes s "" = true.
Proof. destruct s; reflexivity. Qed.

(** C8. [waitForToast] waits for the notification element: when the wait
    is given up, its error is thrown.  When the element shows up with text
    [text], [waitForToast] without an expected substring returns the text,
    whatever it is; with an expected substring it returns the text when the
    text contains it, and otherwise throws an error whose message carries
    both the expected and the actual text. *)
Theorem waitForToast_checks_the_text env page s text :
  env.(rejects) s.(history) (WaitForSelector page toastSelector false (Some 30000%N))
  = None ->
  env.(rejects) (WaitForSelector page toastSelector false (Some 30000%N) :: s.(history))
    (HTextContent (El page toastSelector)) = None ->
  env.(says) (WaitForSelector page toastSelector false (Some 30000%N) :: s.(history))
    (HTextContent (El page toastSelector)) = Some text ->
  fst (waitForToast env page None s) = Ok text
  /\ (forall expected,
         includes text expected = true ->
         fst (waitForToast env page (Some expected) s) = Ok text)
  /\ (forall expected,
         includes text expected = false ->
         fst (waitForToast env page (Some expected) s)
         = Throw (newError ("Expected toast " ++ quote ++ expected ++ quote
                              ++ " but got " ++ quote ++ text ++ quote)))
  /\ (forall s' e expected,
         env.(rejects) s'.(history)
           (WaitForSelector page toastSelector false (Some 30000%N)) = Some e ->
         fst (waitForToast env page expected s') = Throw e).
Proof.
  intros Hw Hr Ht.
  assert (Hgiveup : forall s' e expected,
             env.(rejects) s'.(history)
               (WaitForSelector page toastSelector false (Some 30000%N)) = Some e ->
             fst (waitForToast env page expected s') = Throw e).
  { intros s' e expected He.
    unfold waitForToast, waitForSelector, bind, perform. rewrite He. reflexivity. }
  assert (Hmsg : match truthy (Some text) with Some t => t | None => "" end = text)
    by (destruct text; reflexivity).
  assert (Hstep : forall expected,
             fst (waitForToast env page expected s)
             = match truthy expected with
               | Some e =>
                   if negb (includes text e)
                   then Throw (newError ("Expected toast " ++ quote ++ e ++ quote
                                           ++ " but got " ++ quote ++ text ++ quote))
                   else Ok text
               | None => Ok text
               end).
  { intros expected. unfold waitForToast, waitForSelector, bind, perform, read, ret.
    rewrite Hw. simpl. rewrite Hr, Ht, Hmsg. simpl.
    destruct (truthy expected) as [e|]; [|reflexivity].
    destruct (includes text e); reflexivity. }
  split; [apply Hstep|]. split; [|split; [|exact Hgiveup]];
    intros expected Hin; rewrite Hstep.
  - destruct expected as [|a e]; [reflexivity|]. cbn [truthy].
    rewrite Hin. reflexivity.
  - destruct expected as [|a e]; [rewrite includes_empty in Hin; discriminate|].
    cbn [truthy]. rewrite Hin. reflexivity.
Qed.

Lemma waitForToast_checks_the_text_witness :
  (toastPage (Some "Settings saved")).(rejects) emptyState.(history)
    (WaitForSelector SetupFrame toastSelector false (Some 30000%N)) = None
  /\ (toastPage (Some "Settings saved")).(rejects)
       (WaitForSelector SetupFrame toastSelector false (Some 30000%N)
        :: emptyState.(history))
       (HTextContent (El SetupFrame toastSelector)) = None
  /\ (toastPage (Some "Settings saved")).(says)
       (WaitForSelector SetupFrame toastSelector false (Some 30000%N)
        :: emptyState.(history))
       (HTextContent (El SetupFrame toastSelector)) = Some "Settings saved"
  /\ fst (waitForToast (toastPage (Some "Settings saved")) SetupFrame None emptyState)
     = Ok "Settings saved".
Proof.
  split; [reflexivity|]. split; [reflexivity|]. split; [reflexivity|].
  exact (proj1 (waitForToast_checks_the_text (toastPage (Some "Settings saved"))
                  SetupFrame emptyState "Settings saved" eq_refl eq_refl eq_refl)).
Defined.

Example waitForToast_unexpected :
  fst (waitForToast (toastPage (Some "Insufficient privileges")) SetupFrame
         (Some "saved") emptyState)
  = Throw (ErrorObj "Error"
             ("Expected toast " ++ quote ++ "saved" ++ quote ++ " but got "
                ++ quote ++ "Insufficient privileges" ++ quote))
  /\ fst (waitForToast (toastPage (Some "Settings saved")) SetupFrame
            (Some "saved") emptyState)
     = Ok "Settings saved"
  /\ fst (waitForToast (scripted toastMissing) SetupFrame None emptyState)
     = Throw timeoutError.
Proof. vm_compute. repeat split. Qed.

(** * Disabled features *)

Lemma addedBy_quiet (P : Call -> Prop) {A} (m : M BState A) s :
  quiet P m -> Forall P (addedBy m s).
Proof.
  intros Hq. destruct (Hq s) as (_ & added & Hh & HP).
  unfold addedBy. rewrite Hh, length_app.
  replace (length added + length (history s) - length (history s))
    with (length added + 0) by lia.
  rewrite firstn_app_2. simpl. rewrite app_nil_r. exact HP.
Qed.

Lemma disabled_capture_quiet env page :
  quiet (leavesAlone (checkboxById "emailCapture") (checkboxById "eventCapture"))
    (configureEinsteinActivityCapture env page (disabledCapture None None)).
Proof.
  unfold disabledCapture. quiet_unfold. unfold when.
  cbn [ActivityCapture.enabled]. quiet_steps; split; reflexivity.
Qed.

Lemma disabled_omni_quiet env page :
  quiet (leavesAlone (checkboxById "skillBased") (checkboxById "externalRouting"))
    (configureOmniChannel env page (disabledOmni None None)).
Proof.
  unfold disabledOmni. quiet_unfold. unfold when.
  cbn [OmniChannel.enabled]. quiet_steps; split; reflexivity.
Qed.

(** C10. With [enabled] false, [configureEinsteinActivityCapture] and
    [configureOmniChannel] behave as if the sub-options had not been given,
    whatever their values: no call that they make names the checkbox of a
    sub-option, so that only the main checkbox is set before Save. *)
Theorem disabled_leaves_sub_options_alone env page s
        (capture : ActivityCapture.t) (omni : OmniChannel.t) :
  capture.(ActivityCapture.enabled) = false ->
  omni.(OmniChannel.enabled) = false ->
  configureEinsteinActivityCapture env page capture s
  = configureEinsteinActivityCapture env page (disabledCapture None None) s
  /\ Forall (leavesAlone (checkboxById "emailCapture") (checkboxById "eventCapture"))
       (addedBy (configureEinsteinActivityCapture env page capture) s)
  /\ configureOmniChannel env page omni s
     = configureOmniChannel env page (disabledOmni None None) s
  /\ Forall (leavesAlone (checkboxById "skillBased") (checkboxById "externalRouting"))
       (addedBy (configureOmniChannel env page omni) s).
Proof.
  intros Hc Ho.
  assert (Ec : configureEinsteinActivityCapture env page capture
               = configureEinsteinActivityCapture env page (disabledCapture None None)).
  { destruct capture as [enabled emails events]. simpl in Hc. subst enabled.
    reflexivity. }
  assert (Eo : configureOmniChannel env page omni
               = configureOmniChannel env page (disabledOmni None None)).
  { destruct omni as [enabled skill external]. simpl in Ho. subst enabled.
    reflexivity. }
  rewrite Ec, Eo. repeat split.
  - apply addedBy_quiet, disabled_capture_quiet.
  - apply addedBy_quiet, disabled_omni_quiet.
Qed.

Lemma disabled_leaves_sub_options_alone_witness :
  (disabledCapture (Some true) (Some true)).(ActivityCapture.enabled) = false
  /\ (disabledOmni (Some true) (Some false)).(OmniChannel.enabled) = false
  /\ configureEinsteinActivityCapture (checkboxes true) TopPage
       (disabledCapture (Some true) (Some true)) emptyState
     = configureEinsteinActivityCapture (checkboxes true) TopPage
         (disabledCapture None None) emptyState.
Proof.
  split; [reflexivity|]. split; [reflexivity|].
  exact (proj1 (disabled_leaves_sub_options_alone (checkboxes true) TopPage emptyState
                  (disabledCapture (Some true) (Some true))
                  (disabledOmni (Some true) (Some false)) eq_refl eq_refl)).
Defined.

(** Disabling Einstein Activity Capture with both sub-options given: the
    main checkbox is read and clicked, then Save; when the feature is
    enabled the sub-options are read as well. *)
Example disabled_capture_calls :
  filter (fun c => match c with HChecked _ | HClick _ => true | _ => false end)
    (rev (addedBy (configureEinsteinActivityCapture (checkboxes true) TopPage
                     (disabledCapture (Some true) (Some true))) emptyState))
  = [ HChecked (El SetupFrame (checkboxById "activityCapture"));
      HClick (El SetupFrame (checkboxById "activityCapture"));
      HClick (El SetupFrame
                (hasText "button" "Save" ++ ", " ++ hasText "lightning-button" "Save"
                   ++ ", " ++ hasText "a.slds-button" "Save")) ]
  /\ filter (fun c => match c with HChecked _ => true | _ => false end)
       (rev (addedBy (configureEinsteinActivityCapture (checkboxes true) TopPage
                        {| ActivityCapture.enabled := true;
                           ActivityCapture.captureEmails := Some true;
                           ActivityCapture.captureEvents := Some true |}) emptyState))
     = [ HChecked (El SetupFrame (checkboxById "activityCapture"));
         HChecked (El SetupFrame (checkboxById "emailCapture"));
         HChecked (El SetupFrame (checkboxById "eventCapture")) ].
Proof. vm_compute. split; reflexivity. Qed.

(** * More of the browser layer *)

Lemma addedBy_app {A} (m : M BState A) s added :
  (snd (m s)).(history) = (added ++ s.(history))%list -> addedBy m s = added.
Proof.
  intros Hh. unfold addedBy. rewrite Hh, length_app.
  replace (length added + length (history s) - length (history s))
    with (length added + 0) by lia.
  rewrite firstn_app_2. simpl. apply app_nil_r.
Qed.

Lemma snd_perform env c s : snd (perform env c s) = record c s.
Proof. unfold perform. destruct (rejects env (history s) c); reflexivity. Qed.

(** The three waits of the page-load heuristic; a wait that times out is
    passed over. *)
Lemma waitForSetupPageLoad_waits env page s :
  waitForSetupPageLoad env page s
  = (Ok tt,
     record (WaitForNetworkIdle page 500 (Some 10000%N))
       (record (WaitForSelector page
                  (".setupcontent, .setup-content, [class*=" ++ quote
                     ++ "setup" ++ quote ++ "]") false (Some 30000%N))
          (record (WaitForSelector page ".slds-spinner" true (Some 30000%N)) s))).
Proof.
  unfold waitForSetupPageLoad, bind, swallow. rewrite !snd_perform. reflexivity.
Qed.

Lemma waitForSetupPageLoad_added env page s :
  addedBy (waitForSetupPageLoad env page) s
  = [ WaitForNetworkIdle page 500 (Some 10000%N);
      WaitForSelector page
        (".setupcontent, .setup-content, [class*=" ++ quote ++ "setup" ++ quote ++ "]")
        false (Some 30000%N);
      WaitForSelector page ".slds-spinner" true (Some 30000%N) ].
Proof.
  apply addedBy_app. rewrite waitForSetupPageLoad_waits. reflexivity.
Qed.

(** X1. The page-load heuristic of [waitForSetupPageLoad] never fails: it
    makes its three waits, for the spinner to hide, for the Setup content
    and for the network to idle, in this order and whichever of them time
    out, and returns. *)
Theorem waitForSetupPageLoad_never_throws env page s :
  fst (waitForSetupPageLoad env page s) = Ok tt
  /\ rev (addedBy (waitForSetupPageLoad env page) s)
     = [ WaitForSelector page ".slds-spinner" true (Some 30000%N);
         WaitForSelector page
           (".setupcontent, .setup-content, [class*=" ++ quote ++ "setup" ++ quote ++ "]")
           false (Some 30000%N);
         WaitForNetworkIdle page 500 (Some 10000%N) ]
  /\ (snd (waitForSetupPageLoad env page s)).(manager) = s.(manager).
Proof.
  pose proof (waitForSetupPageLoad_waits env page s) as E.
  split; [rewrite E; reflexivity|]. split; [|rewrite E; reflexivity].
  rewrite waitForSetupPageLoad_added. reflexivity.
Qed.

(** X2. [navigateToSetup] fails only when reading the current URL, parsing
    it or the navigation itself throws, never for a wait of the page-load
    heuristic; and it navigates only to the origin followed by the path as
    it is, when the path starts with /lightning/, or by
    /lightning/setup/<path>/home otherwise. *)
Theorem navigateToSetup_fails_only_navigating env page setupPath s :
  (forall e,
      fst (navigateToSetup env page setupPath s) = Throw e ->
      exists h c,
        env.(rejects) h c = Some e
        /\ (c = PageUrl page \/ (exists u, c = NewURL u) \/ exists u, c = Goto page u))
  /\ (forall u,
         In (Goto page u) (addedBy (navigateToSetup env page setupPath) s) ->
         exists baseUrl, u = setupUrlFor baseUrl setupPath).
Proof.
  assert (Hret : forall (b : bool) (x y : string) (st : BState),
             (if b then ret x else @ret BState string y) st
             = (Ok (if b then x else y), st))
    by (intros [] ? ? ?; reflexivity).
  assert (Hcases :
    exists r st added,
      navigateToSetup env page setupPath s = (r, st)
      /\ st.(history) = (added ++ s.(history))%list
      /\ (forall e, r = Throw e ->
                    exists h c,
                      env.(rejects) h c = Some e
                      /\ (c = PageUrl page \/ (exists u, c = NewURL u)
                          \/ exists u, c = Goto page u))
      /\ (forall u, In (Goto page u) added ->
                    exists baseUrl, u = setupUrlFor baseUrl setupPath)).
  { unfold navigateToSetup, getSetupUrl.
    destruct (rejects env (history s) (PageUrl page)) as [e1|] eqn:E1.
    { exists (Throw e1), (record (PageUrl page) s), [PageUrl page].
      split; [|split; [reflexivity|split]].
      - apply bind_thrown. apply bind_thrown. unfold read. rewrite E1. reflexivity.
      - intros e [= <-]. exists (history s), (PageUrl page). auto.
      - intros u [H|[]]. discriminate H. }
    set (cu := match says env (history s) (PageUrl page) with
               | Some u => u | None => "" end).
    set (s1 := record (PageUrl page) s).
    destruct (rejects env (history s1) (NewURL cu)) as [e2|] eqn:E2.
    { exists (Throw e2), (record (NewURL cu) s1), [NewURL cu; PageUrl page].
      split; [|split; [reflexivity|split]].
      - apply bind_thrown.
        erewrite bind_ok; [|unfold read; rewrite E1; reflexivity].
        apply bind_thrown. unfold read. fold cu. fold s1. rewrite E2. reflexivity.
      - intros e [= <-]. exists (history s1), (NewURL cu). eauto.
      - intros u [H|[H|[]]]; discriminate H. }
    set (base := match says env (history s1) (NewURL cu) with
                 | Some o => o | None => "null" end).
    set (s2 := record (NewURL cu) s1).
    assert (Eurl : (currentUrl <- read env (PageUrl page) ;;
                    baseUrl <- read env
                      (NewURL match currentUrl with Some u => u | None => "" end) ;;
                    (let baseUrl := match baseUrl with Some o => o | None => "null" end in
                     if startsWith setupPath "/lightning/"
                     then ret (baseUrl ++ setupPath)
                     else ret (baseUrl ++ "/lightning/setup/" ++ setupPath ++ "/home"))) s
                   = (Ok (setupUrlFor base setupPath), s2)).
    { erewrite bind_ok; [|unfold read; rewrite E1; reflexivity].
      erewrite bind_ok; [|unfold read; fold cu; fold s1; rewrite E2; reflexivity].
      cbv zeta. fold base. fold s2. rewrite Hret. reflexivity. }
    rewrite (bind_ok _ _ _ _ _ Eurl).
    set (url := setupUrlFor base setupPath).
    destruct (rejects env (history s2) (Goto page url)) as [e3|] eqn:E3.
    - exists (Throw e3), (record (Goto page url) s2),
        [Goto page url; NewURL cu; PageUrl page].
      split; [|split; [reflexivity|split]].
      + apply bind_thrown. unfold perform. rewrite E3. reflexivity.
      + intros e [= <-]. exists (history s2), (Goto page url). eauto 6.
      + intros u [H|[H|[H|[]]]]; try discriminate H.
        injection H as <-. exists base. reflexivity.
    - rewrite (bind_ok _ _ s2 tt (record (Goto page url) s2))
        by (unfold perform; rewrite E3; reflexivity).
      assert (Hok : fst (waitForSetupPageLoad env page (record (Goto page url) s2))
                    = Ok tt)
        by (rewrite waitForSetupPageLoad_waits; reflexivity).
      assert (Hadded : rev (addedBy (waitForSetupPageLoad env page)
                              (record (Goto page url) s2))
                       = [ WaitForSelector page ".slds-spinner" true (Some 30000%N);
                           WaitForSelector page
                             (".setupcontent, .setup-content, [class*=" ++ quote
                                ++ "setup" ++ quote ++ "]") false (Some 30000%N);
                           WaitForNetworkIdle page 500 (Some 10000%N) ])
        by (rewrite waitForSetupPageLoad_added; reflexivity).
      destruct (waitForSetupPageLoad env page (record (Goto page url) s2))
        as [r st] eqn:Hw.
      simpl in Hok. subst r.
      exists (Ok tt), st,
        (addedBy (waitForSetupPageLoad env page) (record (Goto page url) s2)
         ++ [Goto page url; NewURL cu; PageUrl page])%list.
      split; [reflexivity|]. split; [|split].
      + apply (f_equal (@rev Call)) in Hadded. rewrite rev_involutive in Hadded.
        rewrite Hadded. rewrite <- app_assoc.
        replace st with (snd (waitForSetupPageLoad env page (record (Goto page url) s2)))
          by (rewrite Hw; reflexivity).
        unfold waitForSetupPageLoad, bind, swallow. rewrite !snd_perform. reflexivity.
      + intros e H. discriminate H.
      + intros u Hin. apply in_app_or in Hin as [Hin|Hin].
        * apply in_rev in Hin. rewrite Hadded in Hin.
          destruct Hin as [H|[H|[H|[]]]]; discriminate H.
        * destruct Hin as [H|[H|[H|[]]]]; try discriminate H.
          injection H as <-. exists base. reflexivity. }
  destruct Hcases as (r & st & added & Hrun & Hh & Hthrow & Hgoto).
  split.
  - intros e He. rewrite Hrun in He. apply Hthrow. exact He.
  - intros u Hin. rewrite (addedBy_app _ s added) in Hin; [apply Hgoto; exact Hin|].
    rewrite Hrun. exact Hh.
Qed.

Lemma navigateToSetup_fails_only_navigating_witness :
  fst (navigateToSetup (scripted neverSettles) TopPage "SecuritySession" emptyState)
  = Ok tt
  /\ forall u,
      In (Goto TopPage u)
         (addedBy (navigateToSetup (scripted neverSettles) TopPage "SecuritySession")
            emptyState) ->
      exists baseUrl, u = setupUrlFor baseUrl "SecuritySession".
Proof.
  split; [vm_compute; reflexivity|].
  exact (proj2 (navigateToSetup_fails_only_navigating (scripted neverSettles) TopPage
                  "SecuritySession" emptyState)).
Defined.

(** X3. [getSetupIframe] hands out the Setup frame exactly when the page
    has the iframe and the iframe has a content frame; in every other case
    in which it returns, it returns the page it was given. *)
Theorem getSetupIframe_frame_or_page env page s ctx s' :
  getSetupIframe env page s = (Ok ctx, s') ->
  (ctx = SetupFrame
   /\ env.(holds) s.(history) (Query page iframeSelector) = true
   /\ env.(holds) (Query page iframeSelector :: s.(history))
        (ContentFrame (El page iframeSelector)) = true)
  \/ (ctx = page
      /\ (env.(holds) s.(history) (Query page iframeSelector) = false
          \/ env.(holds) (Query page iframeSelector :: s.(history))
               (ContentFrame (El page iframeSelector)) = false)).
Proof.
  unfold getSetupIframe, query, bind, ask, ret. fold iframeSelector.
  destruct (rejects env (history s) (Query page iframeSelector)); simpl;
    [discriminate|].
  destruct (holds env (history s) (Query page iframeSelector)) eqn:Hq; simpl.
  - destruct (rejects env _ (ContentFrame (El page iframeSelector))); simpl;
      [discriminate|].
    destruct (holds env _ (ContentFrame (El page iframeSelector))) eqn:Hf;
      intros [= <- <-]; [left | right]; auto.
  - intros [= <- <-]. right. auto.
Qed.

Lemma getSetupIframe_frame_or_page_witness :
  getSetupIframe (scripted nothingFails) TopPage emptyState
  = (Ok SetupFrame, snd (getSetupIframe (scripted nothingFails) TopPage emptyState))
  /\ ((SetupFrame = SetupFrame
       /\ (scripted nothingFails).(holds) emptyState.(history)
            (Query TopPage iframeSelector) = true
       /\ (scripted nothingFails).(holds)
            (Query TopPage iframeSelector :: emptyState.(history))
            (ContentFrame (El TopPage iframeSelector)) = true)
      \/ (SetupFrame = TopPage
          /\ ((scripted nothingFails).(holds) emptyState.(history)
                (Query TopPage iframeSelector) = false
              \/ (scripted nothingFails).(holds)
                   (Query TopPage iframeSelector :: emptyState.(history))
                   (ContentFrame (El TopPage iframeSelector)) = false))).
Proof.
  assert (H : getSetupIframe (scripted nothingFails) TopPage emptyState
              = (Ok SetupFrame,
                 snd (getSetupIframe (scripted nothingFails) TopPage emptyState)))
    by (vm_compute; reflexivity).
  split; [exact H|].
  exact (getSetupIframe_frame_or_page (scripted nothingFails) TopPage emptyState
           SetupFrame _ H).
Defined.

(** The page without the iframe is used as it is. *)
Example getSetupIframe_without_iframe :
  fst (getSetupIframe loginPageOnly TopPage emptyState) = Ok TopPage.
Proof. reflexivity. Qed.

(** The calls of [connect], whatever its outcome: those of [loginCalls] and
    the two questions for the login markers. *)
Lemma connect_added env org s u t :
  truthy org.(connection_instanceUrl) = Some u ->
  truthy org.(connection_accessToken) = Some t ->
  exists added,
    (snd (connect env org s)).(history) = (added ++ s.(history))%list
    /\ Forall (fun c => In c (loginCalls s.(manager).(options) u t)
                        \/ c = DocHas TopPage ".slds-global-header"
                        \/ c = DocHas TopPage "#phHeaderLogoImage") added.
Proof.
  intros Hu Ht. unfold connect. rewrite Hu, Ht.
  rewrite (bind_ok this _ s s.(manager) s eq_refl).
  set (P := fun c => In c (loginCalls s.(manager).(options) u t)
                     \/ c = DocHas TopPage ".slds-global-header"
                     \/ c = DocHas TopPage "#phHeaderLogoImage").
  assert (PL : P (launchOptions s.(manager).(options))) by (left; left; reflexivity).
  destruct (rejects env (history s) (launchOptions s.(manager).(options)))
    as [e|] eqn:E1.
  - rewrite (bind_thrown _ _ _ _ _ (perform_rejected _ _ _ _ E1)).
    exists [launchOptions s.(manager).(options)]. split; [reflexivity | auto].
  - rewrite (bind_ok _ _ _ _ _ (perform_accepted _ _ _ E1)).
    rewrite (bind_ok (setBrowser _) _ _ tt _ eq_refl).
    match goal with |- context [?rest ?s2] =>
      lazymatch rest with
      | bind _ _ =>
          assert (Hq : quiet P rest)
            by (quiet_steps; unfold P, loginCalls; simpl; auto 10);
          destruct (Hq s2) as (_ & added & Hh & HP)
      end
    end.
    exists (added ++ [launchOptions s.(manager).(options)])%list.
    rewrite Hh. unfold record. cbn [history]. rewrite <- app_assoc.
    split; [reflexivity | apply Forall_app; auto].
Qed.

(** X4. When [connect] returns, the session carries the instance URL and
    the access token of the org, both non-empty, and the top-level page; the
    manager holds the browser and the page; the calls made are those of
    [loginCalls], ending with the navigation to the front-door URL that
    carries the token, followed by the questions for the login markers, one
    of which was answered with yes. *)
Theorem connect_returns_the_session env org s session s' :
  connect env org s = (Ok session, s') ->
  truthy org.(connection_instanceUrl) = Some session.(instanceUrl)
  /\ truthy org.(connection_accessToken) = Some session.(accessToken)
  /\ session.(session_page) = TopPage
  /\ s'.(manager) = {| browser := Some Chromium; page := Some TopPage;
                       options := s.(manager).(options) |}
  /\ (exists markers,
         s'.(history)
         = (markers
            ++ rev (loginCalls s.(manager).(options) session.(instanceUrl)
                      session.(accessToken))
            ++ s.(history))%list
         /\ (markers = [DocHas TopPage ".slds-global-header"]
             \/ markers = [DocHas TopPage "#phHeaderLogoImage";
                           DocHas TopPage ".slds-global-header"]))
  /\ noLoginMarker env
       (rev (loginCalls s.(manager).(options) session.(instanceUrl)
               session.(accessToken)) ++ s.(history))%list = false.
Proof.
  unfold connect.
  destruct (truthy (connection_instanceUrl org)) as [u|]; [|discriminate].
  destruct (truthy (connection_accessToken org)) as [t|]; [|discriminate].
  rewrite (bind_ok this _ s s.(manager) s eq_refl).
  unfold noLoginMarker, loginCalls.
  set (opts := s.(manager).(options)).
  set (c1 := launchOptions opts).
  set (c3 := SetViewport _ _). set (c4 := SetDefaultTimeout _).
  set (c5 := Goto TopPage (frontdoorUrl u t)).
  unfold bind, perform, ask, setBrowser, setPage, throw, ret. unfold record.
  cbn [history manager browser page options].
  destruct (rejects env (history s) c1); [discriminate|]. cbn [history manager].
  destruct (rejects env (c1 :: history s) NewPage); [discriminate|]. cbn [history manager].
  destruct (rejects env (NewPage :: c1 :: history s) c3); [discriminate|].
  cbn [history manager].
  destruct (rejects env (c3 :: NewPage :: c1 :: history s) c4); [discriminate|].
  cbn [history manager].
  destruct (rejects env (c4 :: c3 :: NewPage :: c1 :: history s) c5); [discriminate|].
  cbn [history manager rev app].
  destruct (rejects env (c5 :: c4 :: c3 :: NewPage :: c1 :: history s)
              (DocHas TopPage ".slds-global-header")) eqn:E6; [discriminate|].
  cbn [history manager].
  destruct (holds env (c5 :: c4 :: c3 :: NewPage :: c1 :: history s)
              (DocHas TopPage ".slds-global-header")) eqn:M1; cbn [negb andb].
  - intros [= <- <-]. cbn [instanceUrl accessToken session_page history manager].
    do 4 (split; [reflexivity|]). split.
    + exists [DocHas TopPage ".slds-global-header"].
      split; [reflexivity | left; reflexivity].
    + fold c5. rewrite E6, M1. reflexivity.
  - cbn [history manager].
    destruct (rejects env _ (DocHas TopPage "#phHeaderLogoImage")) eqn:E7;
      [discriminate|].
    cbn [history manager].
    destruct (holds env _ (DocHas TopPage "#phHeaderLogoImage")) eqn:M2; cbn [negb];
      [|discriminate].
    intros [= <- <-]. cbn [instanceUrl accessToken session_page history manager].
    do 4 (split; [reflexivity|]). split.
    + exists [DocHas TopPage "#phHeaderLogoImage"; DocHas TopPage ".slds-global-header"].
      split; [reflexivity | right; reflexivity].
    + fold c5. rewrite E6, M1, E7, M2. reflexivity.
Qed.

Lemma connect_returns_the_session_witness :
  connect (scripted nothingFails) acme emptyState
  = (Ok acmeSession, snd (connect (scripted nothingFails) acme emptyState))
  /\ truthy acme.(connection_accessToken) = Some acmeSession.(accessToken)
  /\ (snd (connect (scripted nothingFails) acme emptyState)).(manager)
     = {| browser := Some Chromium; page := Some TopPage;
          options := emptyState.(manager).(options) |}.
Proof.
  assert (H : connect (scripted nothingFails) acme emptyState
              = (Ok acmeSession, snd (connect (scripted nothingFails) acme emptyState)))
    by (vm_compute; reflexivity).
  split; [exact H|].
  pose proof (connect_returns_the_session (scripted nothingFails) acme emptyState
                acmeSession _ H) as (_ & H2 & _ & H4 & _).
  split; [exact H2 | exact H4].
Defined.

(** X5. Whatever options the browser manager was constructed with,
    [connect] never sets a default timeout of 0 and never a viewport with a
    side of 0: it passes the configured value, and the default (60000 ms,
    1920 by 1080) when the value is unset or 0. *)
Theorem connect_replaces_zero_by_default env org opts s c :
  s.(manager) = newBrowserManager opts ->
  In c (addedBy (connect env org) s) ->
  match c with
  | SetDefaultTimeout ms =>
      ms = orNumber opts.(timeout) 60000 /\ ms <> 0%N
  | SetViewport w h =>
      w = orNumber (option_map width opts.(viewport)) 1920
      /\ h = orNumber (option_map height opts.(viewport)) 1080
      /\ w <> 0%N /\ h <> 0%N
  | _ => True
  end.
Proof.
  intros Hm Hin.
  destruct (truthy (connection_instanceUrl org)) as [u|] eqn:Hu;
    [destruct (truthy (connection_accessToken org)) as [t|] eqn:Ht|].
  - destruct (connect_added env org s u t Hu Ht) as (added & Hh & HP).
    rewrite (addedBy_app _ s added Hh) in Hin.
    rewrite Forall_forall in HP. specialize (HP c Hin).
    rewrite Hm in HP. unfold loginCalls, newBrowserManager in HP. cbn [options] in HP.
    destruct HP as [[H|[H|[H|[H|[H|[]]]]]]|[H|H]]; subst c; try exact I.
    + unfold spread, DEFAULT_OPTIONS. cbn [viewport].
      destruct (viewport opts) as [[[|w] [|h]]|]; cbn; repeat split; discriminate.
    + unfold spread, DEFAULT_OPTIONS. cbn [timeout].
      destruct (timeout opts) as [[|ms]|]; cbn; split; try reflexivity; discriminate.
  - rewrite (addedBy_app _ s []) in Hin; [destruct Hin|].
    rewrite (connect_session_missing env org s (or_intror Ht)). reflexivity.
  - rewrite (addedBy_app _ s []) in Hin; [destruct Hin|].
    rewrite (connect_session_missing env org s (or_introl Hu)). reflexivity.
Qed.

Lemma connect_replaces_zero_by_default_witness :
  zeroState.(manager) = newBrowserManager zeroOptions
  /\ In (SetDefaultTimeout 60000)
        (addedBy (connect (scripted nothingFails) acme) zeroState)
  /\ (60000%N = orNumber zeroOptions.(timeout) 60000 /\ 60000%N <> 0%N).
Proof.
  assert (H1 : zeroState.(manager) = newBrowserManager zeroOptions) by reflexivity.
  assert (H2 : In (SetDefaultTimeout 60000)
                  (addedBy (connect (scripted nothingFails) acme) zeroState))
    by (vm_compute; do 2 right; left; reflexivity).
  split; [exact H1|]. split; [exact H2|].
  exact (connect_replaces_zero_by_default (scripted nothingFails) acme zeroOptions
           zeroState (SetDefaultTimeout 60000) H1 H2).
Defined.

(** The window size given to the browser keeps the 0 that the viewport
    replaces. *)
Example connect_with_zero_width :
  rev (addedBy (connect (scripted closeFails) noToken) zeroState) = []
  /\ firstn 3 (rev (addedBy (connect (scripted nothingFails) acme) zeroState))
     = [ Launch true (Some 50%N)
           [ "--no-sandbox"; "--disable-setuid-sandbox"; "--disable-dev-shm-usage";
             "--disable-gpu"; "--window-size=0,800" ];
         NewPage;
         SetViewport 1920 800 ].
Proof. vm_compute. split; reflexivity. Qed.

(** X6. [disconnect] on a manager that holds a browser closes it.  When
    closing returns, the manager holds neither browser nor page and keeps
    its options.  When closing throws, the error is thrown on and the
    manager is left as it was, still holding the browser, so that a second
    [disconnect] calls [browser.close()] again. *)
Theorem disconnect_clears_only_after_close env s b :
  s.(manager).(browser) = Some b ->
  (snd (disconnect env s)).(history) = Close :: s.(history)
  /\ match env.(rejects) s.(history) Close with
     | None =>
         fst (disconnect env s) = Ok tt
         /\ (snd (disconnect env s)).(manager)
            = {| browser := None; page := None; options := s.(manager).(options) |}
     | Some e =>
         fst (disconnect env s) = Throw e
         /\ (snd (disconnect env s)).(manager) = s.(manager)
         /\ (snd (disconnect env (snd (disconnect env s)))).(history)
            = Close :: Close :: s.(history)
     end.
Proof.
  intros Hb. rewrite (disconnect_opened env s b Hb).
  destruct (rejects env (history s) Close) as [e|] eqn:Hr; simpl.
  - repeat split.
    rewrite (disconnect_opened env (record Close s) b Hb).
    destruct (rejects env (history (record Close s)) Close); reflexivity.
  - repeat split.
Qed.

Lemma disconnect_clears_only_after_close_witness :
  openState.(manager).(browser) = Some Chromium
  /\ (snd (disconnect (scripted closeFails) openState)).(history)
     = Close :: openState.(history)
  /\ fst (disconnect (scripted closeFails) openState) = Throw closeError.
Proof.
  assert (H : openState.(manager).(browser) = Some Chromium) by reflexivity.
  split; [exact H|].
  pose proof (disconnect_clears_only_after_close (scripted closeFails) openState
                Chromium H) as (H1 & H2).
  split; [exact H1 | exact (proj1 H2)].
Defined.

(** X7. On a page where the element never shows up, [clickButton],
    [setInput], [setCheckbox], [selectOption] and [confirmDialog] throw the
    error of the wait and interact with nothing: the wait is the only call
    they make. *)
Theorem missing_element_no_interaction env page s e :
  (forall selector,
      env.(rejects) s.(history) (WaitForSelector page selector false None) = Some e) ->
  (forall label,
      clickButton env page label s
      = (Throw e, record (WaitForSelector page (buttonSelector label) false None) s))
  /\ (forall selector value,
         setInput env page selector value s
         = (Throw e, record (WaitForSelector page selector false None) s))
  /\ (forall selector checked,
         setCheckbox env page selector checked s
         = (Throw e, record (WaitForSelector page selector false None) s))
  /\ (forall selector value,
         selectOption env page selector value s
         = (Throw e, record (WaitForSelector page selector false None) s))
  /\ (forall confirm,
         confirmDialog env page confirm s
         = (Throw e,
            record (WaitForSelector page ".slds-modal__container, .modal-container"
                      false None) s)).
Proof.
  intros Hno.
  assert (Hw : forall selector B (k : Handle -> M BState B),
             (h <- waitForSelector env page selector None ;; k h) s
             = (Throw e, record (WaitForSelector page selector false None) s)).
  { intros selector B k. apply bind_thrown. unfold waitForSelector.
    apply bind_thrown. apply perform_rejected. apply Hno. }
  repeat split; intros; apply Hw.
Qed.

Lemma missing_element_no_interaction_witness :
  (forall selector,
      (scripted nothingShows).(rejects) emptyState.(history)
        (WaitForSelector SetupFrame selector false None) = Some timeoutError)
  /\ setCheckbox (scripted nothingShows) SetupFrame (checkboxById "lockIp") true emptyState
     = (Throw timeoutError,
        record (WaitForSelector SetupFrame (checkboxById "lockIp") false None) emptyState).
Proof.
  assert (H : forall selector,
             (scripted nothingShows).(rejects) emptyState.(history)
               (WaitForSelector SetupFrame selector false None) = Some timeoutError)
    by (intros selector; reflexivity).
  split; [exact H|].
  pose proof (missing_element_no_interaction (scripted nothingShows) SetupFrame
                emptyState timeoutError H) as (_ & _ & H3 & _).
  apply H3.
Defined.

(** X8. A toast whose text content is null or empty: [waitForToast]
    without an expected substring, or with an empty one, returns the empty
    string; with any other expected substring it throws, reporting an empty
    actual text. *)
Theorem waitForToast_without_text env page s :
  env.(rejects) s.(history) (WaitForSelector page toastSelector false (Some 30000%N))
  = None ->
  env.(rejects) (WaitForSelector page toastSelector false (Some 30000%N) :: s.(history))
    (HTextContent (El page toastSelector)) = None ->
  truthy (env.(says)
            (WaitForSelector page toastSelector false (Some 30000%N) :: s.(history))
            (HTextContent (El page toastSelector))) = None ->
  fst (waitForToast env page None s) = Ok ""
  /\ fst (waitForToast env page (Some "") s) = Ok ""
  /\ (forall a expected,
         fst (waitForToast env page (Some (String a expected)) s)
         = Throw (newError ("Expected toast " ++ quote ++ String a expected ++ quote
                              ++ " but got " ++ quote ++ "" ++ quote))).
Proof.
  intros Hw Hr Ht.
  assert (Hstep : forall expected,
             fst (waitForToast env page expected s)
             = match truthy expected with
               | Some e =>
                   if negb (includes "" e)
                   then Throw (newError ("Expected toast " ++ quote ++ e ++ quote
                                           ++ " but got " ++ quote ++ "" ++ quote))
                   else Ok ""
               | None => Ok ""
               end).
  { intros expected. unfold waitForToast, waitForSelector, bind, perform, read, ret.
    rewrite Hw. simpl. rewrite Hr. simpl. rewrite Ht.
    destruct (truthy expected) as [[|a e]|]; reflexivity. }
  split; [apply Hstep|]. split; [apply Hstep|].
  intros a expected. rewrite Hstep. reflexivity.
Qed.

Lemma waitForToast_without_text_witness :
  (toastPage None).(rejects) emptyState.(history)
    (WaitForSelector TopPage toastSelector false (Some 30000%N)) = None
  /\ fst (waitForToast (toastPage None) TopPage None emptyState) = Ok "".
Proof.
  split; [reflexivity|].
  exact (proj1 (waitForToast_without_text (toastPage None) TopPage emptyState
                  eq_refl eq_refl eq_refl)).
Defined.

(** * More of the automations *)

(** [page.$] hands out the handle of the selector it asked for, or null. *)
Lemma quiet_query_then env (P : Call -> Prop) {B} ctx selector
      (k : option Handle -> M BState B) :
  P (Query ctx selector) ->
  quiet P (k (Some (El ctx selector))) ->
  quiet P (k None) ->
  quiet P (h <- query env ctx selector ;; k h).
Proof.
  intros Hc Hsome Hnone s. unfold query, bind, ask, ret.
  destruct (rejects env (history s) (Query ctx selector)); simpl.
  - split; [reflexivity | eexists [_]; split; [reflexivity | auto]].
  - destruct (holds env (history s) (Query ctx selector)).
    + destruct (Hsome (record (Query ctx selector) s)) as (Hb & added & Hh & HP).
      split; [exact Hb|]. eexists (added ++ [_])%list. rewrite Hh, <- app_assoc.
      split; [reflexivity | apply Forall_app; auto].
    + destruct (Hnone (record (Query ctx selector) s)) as (Hb & added & Hh & HP).
      split; [exact Hb|]. eexists (added ++ [_])%list. rewrite Hh, <- app_assoc.
      split; [reflexivity | apply Forall_app; auto].
Qed.

Ltac quiet_walk :=
  repeat (lazymatch goal with
          | |- quiet _ (bind (query _ _ _) _) => apply quiet_query_then
          | _ => quiet_step
          end).

(** Proves that no call of an automation names a selector. *)
Ltac names_nothing :=
  unfold configureIdentityProvider, configureDataLoaderSettings,
    configurePlatformEventRetention;
  quiet_unfold; unfold confirmDialog;
  cbv beta iota zeta delta
    [ whenPresent when
      SessionSettings.sessionTimeout SessionSettings.forceLogoutOnSessionTimeout
      SessionSettings.lockSessionsToIp SessionSettings.requireHttpOnly
      SessionSettings.requireSecureConnections
      SharingSettings.objectName SharingSettings.internalAccess
      SharingSettings.externalAccess SharingSettings.grantAccessUsingHierarchies
      FlowActivation.flowApiName FlowActivation.activate
      OrgWideEmail.displayName OrgWideEmail.emailAddress OrgWideEmail.allowAllProfiles
      IdentityProvider.enabled IdentityProvider.certificateName
      DataLoader.enableBulkApi DataLoader.enableBulkApiSerialMode DataLoader.batchSize
      PlatformEvent.eventApiName PlatformEvent.retentionDays ];
  quiet_walk; reflexivity.

Lemma quiet_in (P : Call -> Prop) {A} (m : M BState A) s c :
  quiet P m -> In c (addedBy m s) -> P c.
Proof.
  intros Hq Hin. pose proof (addedBy_quiet P m s Hq) as HF.
  rewrite Forall_forall in HF. apply HF. exact Hin.
Qed.

(** X9. [configureSessionSettings] is a partial update: a setting that is
    not given is left alone, no call names its control. *)
Theorem configureSessionSettings_leaves_unset_alone env page options s c :
  In c (addedBy (configureSessionSettings env page options) s) ->
  (options.(SessionSettings.sessionTimeout) = None ->
   names (byAttr "select" "id" "timeout") c = false)
  /\ (options.(SessionSettings.forceLogoutOnSessionTimeout) = None ->
      names (checkboxById "forceLogout") c = false)
  /\ (options.(SessionSettings.lockSessionsToIp) = None ->
      names (checkboxById "lockIp") c = false)
  /\ (options.(SessionSettings.requireHttpOnly) = None ->
      names (checkboxById "httpOnly") c = false)
  /\ (options.(SessionSettings.requireSecureConnections) = None ->
      names (checkboxById "secureConnections") c = false).
Proof.
  intros Hin. destruct options as [t f l h sc]. cbn.
  repeat split; intros ->;
    refine (quiet_in (fun c => names _ c = false) _ s c _ Hin); names_nothing.
Qed.

Lemma configureSessionSettings_leaves_unset_alone_witness :
  In (HClick (El SetupFrame (buttonSelector "Save")))
     (addedBy (configureSessionSettings (scripted nothingFails) TopPage (timeoutOnly 60))
        emptyState)
  /\ names (checkboxById "lockIp") (HClick (El SetupFrame (buttonSelector "Save")))
     = false.
Proof.
  assert (H : In (HClick (El SetupFrame (buttonSelector "Save")))
                 (addedBy (configureSessionSettings (scripted nothingFails) TopPage
                             (timeoutOnly 60)) emptyState))
    by (vm_compute; repeat (first [left; reflexivity | right])).
  split; [exact H|].
  pose proof (configureSessionSettings_leaves_unset_alone (scripted nothingFails)
                TopPage (timeoutOnly 60) emptyState _ H) as (_ & _ & H3 & _).
  apply H3. reflexivity.
Defined.

(** X10. [configureOrgWideDefaults] leaves the external access and the
    hierarchy checkbox alone when they are not given. *)
Theorem configureOrgWideDefaults_leaves_unset_alone env page options s c :
  In c (addedBy (configureOrgWideDefaults env page options) s) ->
  (options.(SharingSettings.externalAccess) = None ->
   names (byAttr "select" "id" "externalAccess") c = false)
  /\ (options.(SharingSettings.grantAccessUsingHierarchies) = None ->
      names (checkboxById "hierarchy") c = false).
Proof.
  intros Hin. destruct options as [name internal external hierarchy]. cbn.
  repeat split; intros ->;
    refine (quiet_in (fun c => names _ c = false) _ s c _ Hin); names_nothing.
Qed.

Lemma configureOrgWideDefaults_leaves_unset_alone_witness :
  In (PSelect SetupFrame (byAttr "select" "id" "internalAccess") "Private")
     (addedBy (configureOrgWideDefaults (scripted nothingFails) TopPage
                 (internalOnly "Account" Private)) emptyState)
  /\ names (checkboxById "hierarchy")
       (PSelect SetupFrame (byAttr "select" "id" "internalAccess") "Private") = false.
Proof.
  assert (H : In (PSelect SetupFrame (byAttr "select" "id" "internalAccess") "Private")
                 (addedBy (configureOrgWideDefaults (scripted nothingFails) TopPage
                             (internalOnly "Account" Private)) emptyState))
    by (vm_compute; repeat (first [left; reflexivity | right])).
  split; [exact H|].
  pose proof (configureOrgWideDefaults_leaves_unset_alone (scripted nothingFails)
                TopPage (internalOnly "Account" Private) emptyState _ H) as (_ & H2).
  apply H2. reflexivity.
Defined.

(** X11. With [allowAllProfiles] false, [configureOrgWideEmailAddress]
    does not touch the checkbox of that name: false leaves the box as it
    is, it does not clear it. *)
Theorem configureOrgWideEmailAddress_never_clears env page options s c :
  options.(OrgWideEmail.allowAllProfiles) = false ->
  In c (addedBy (configureOrgWideEmailAddress env page options) s) ->
  names (checkboxById "allowAll") c = false.
Proof.
  intros Hoff Hin. destruct options as [name address allowAll]. cbn in Hoff.
  subst allowAll.
  refine (quiet_in (fun c => names _ c = false) _ s c _ Hin). names_nothing.
Qed.

Lemma configureOrgWideEmailAddress_never_clears_witness :
  (supportEmail false).(OrgWideEmail.allowAllProfiles) = false
  /\ In (PType SetupFrame (byAttr "input" "id" "displayName") "Support")
        (addedBy (configureOrgWideEmailAddress (checkboxes true) TopPage
                    (supportEmail false)) emptyState)
  /\ names (checkboxById "allowAll")
       (PType SetupFrame (byAttr "input" "id" "displayName") "Support") = false.
Proof.
  assert (H : In (PType SetupFrame (byAttr "input" "id" "displayName") "Support")
                 (addedBy (configureOrgWideEmailAddress (checkboxes true) TopPage
                             (supportEmail false)) emptyState))
    by (vm_compute; repeat (first [left; reflexivity | right])).
  split; [reflexivity|]. split; [exact H|].
  exact (configureOrgWideEmailAddress_never_clears (checkboxes true) TopPage
           (supportEmail false) emptyState _ eq_refl H).
Defined.

(** X12. [configureDataLoaderSettings] is a partial update: a setting that
    is not given is left alone. *)
Theorem configureDataLoaderSettings_leaves_unset_alone env page options s c :
  In c (addedBy (configureDataLoaderSettings env page options) s) ->
  (options.(DataLoader.enableBulkApi) = None ->
   names (checkboxById "bulkApi") c = false)
  /\ (options.(DataLoader.enableBulkApiSerialMode) = None ->
      names (checkboxById "serialMode") c = false)
  /\ (options.(DataLoader.batchSize) = None ->
      names (byAttr "input" "id" "batchSize") c = false).
Proof.
  intros Hin. destruct options as [bulk serial size]. cbn.
  repeat split; intros ->;
    refine (quiet_in (fun c => names _ c = false) _ s c _ Hin); names_nothing.
Qed.

Lemma configureDataLoaderSettings_leaves_unset_alone_witness :
  In (HChecked (El SetupFrame (checkboxById "bulkApi")))
     (addedBy (configureDataLoaderSettings (scripted nothingFails) TopPage bulkOnly)
        emptyState)
  /\ names (byAttr "input" "id" "batchSize")
       (HChecked (El SetupFrame (checkboxById "bulkApi"))) = false.
Proof.
  assert (H : In (HChecked (El SetupFrame (checkboxById "bulkApi")))
                 (addedBy (configureDataLoaderSettings (scripted nothingFails) TopPage
                             bulkOnly) emptyState))
    by (vm_compute; repeat (first [left; reflexivity | right])).
  split; [exact H|].
  pose proof (configureDataLoaderSettings_leaves_unset_alone (scripted nothingFails)
                TopPage bulkOnly emptyState _ H) as (_ & _ & H3).
  apply H3. reflexivity.
Defined.

(** X13. [configureIdentityProvider] takes one of two ways.  Disabling
    clicks Disable and confirms the dialog: it does not click Enable or
    Save, does not select a certificate and never cancels the dialog.
    Enabling does not click Disable and opens no dialog. *)
Theorem configureIdentityProvider_two_ways env page options s c :
  In c (addedBy (configureIdentityProvider env page options) s) ->
  (options.(IdentityProvider.enabled) = false ->
   names (buttonSelector "Enable Identity Provider") c = false
   /\ names (buttonSelector "Save") c = false
   /\ names (byAttr "select" "id" "certificate") c = false
   /\ names (hasText "button" "Cancel" ++ ", input[value=" ++ quote ++ "Cancel"
               ++ quote ++ "]") c = false)
  /\ (options.(IdentityProvider.enabled) = true ->
      names (buttonSelector "Disable") c = false
      /\ names ".slds-modal__container, .modal-container" c = false).
Proof.
  intros Hin. destruct options as [enabled certificate]. cbn.
  split; intros ->; repeat split;
    refine (quiet_in (fun c => names _ c = false) _ s c _ Hin); names_nothing.
Qed.

Lemma configureIdentityProvider_two_ways_witness :
  In (HClick (El SetupFrame (buttonSelector "Disable")))
     (addedBy (configureIdentityProvider (scripted nothingFails) TopPage providerOff)
        emptyState)
  /\ names (buttonSelector "Save") (HClick (El SetupFrame (buttonSelector "Disable")))
     = false.
Proof.
  assert (H : In (HClick (El SetupFrame (buttonSelector "Disable")))
                 (addedBy (configureIdentityProvider (scripted nothingFails) TopPage
                             providerOff) emptyState))
    by (vm_compute; repeat (first [left; reflexivity | right])).
  split; [exact H|].
  pose proof (configureIdentityProvider_two_ways (scripted nothingFails) TopPage
                providerOff emptyState _ H) as (H1 & _).
  apply H1. reflexivity.
Defined.

(** X14. [activateFlow] clicks the link that the flag asks for: no call
    names the link of the other action. *)
Theorem activateFlow_clicks_the_requested_action env page options s c :
  In c (addedBy (activateFlow env page options) s) ->
  names (actionLink (negb options.(FlowActivation.activate))) c = false.
Proof.
  intros Hin. destruct options as [name [|]]; cbn [FlowActivation.activate negb];
    refine (quiet_in (fun c => names _ c = false) _ s c _ Hin); names_nothing.
Qed.

Lemma activateFlow_clicks_the_requested_action_witness :
  In (PClick TopPage (actionLink false) None)
     (addedBy (activateFlow (scripted nothingFails) TopPage flowB) emptyState)
  /\ names (actionLink (negb flowB.(FlowActivation.activate)))
       (PClick TopPage (actionLink false) None) = false.
Proof.
  assert (H : In (PClick TopPage (actionLink false) None)
                 (addedBy (activateFlow (scripted nothingFails) TopPage flowB)
                    emptyState))
    by (vm_compute; repeat (first [left; reflexivity | right])).
  split; [exact H|].
  exact (activateFlow_clicks_the_requested_action (scripted nothingFails) TopPage
           flowB emptyState _ H).
Defined.

Lemma endsWithToast_bind {A B} (m : M BState A) (k : A -> M BState B) :
  (forall a, endsWithToast (k a)) -> endsWithToast (x <- m ;; k x).
Proof.
  intros Hk s b s' H. unfold bind in H.
  destruct (m s) as [[a|e] s1]; [|discriminate]. eapply Hk. exact H.
Qed.

Lemma endsWithToast_final env ctx line :
  endsWithToast (waitForToast env ctx None ;; consoleLog line).
Proof.
  intros s a s'. unfold waitForToast, waitForSelector, bind, perform, read, ret, consoleLog.
  destruct (rejects env (history s) _); simpl; [discriminate|].
  destruct (rejects env _ (HTextContent _)); simpl; [discriminate|].
  intros [= _ <-]. exists line, ctx, (history s). reflexivity.
Qed.

Ltac ends_with_toast :=
  repeat (lazymatch goal with
          | |- endsWithToast (bind (waitForToast _ _ None) (fun _ => consoleLog _)) =>
              apply endsWithToast_final
          | |- endsWithToast (bind _ _) => apply endsWithToast_bind; intros ?
          end).

(** X15. None of the nine automations returns without a toast: when one
    returns, the last thing it did in the browser was to wait for the toast
    and read its text, and the last thing of all to log its success line. *)
Theorem automations_return_after_a_toast env page :
  (forall op, endsWithToast (dispatch env page op))
  /\ (forall options, endsWithToast (configureIdentityProvider env page options))
  /\ (forall options, endsWithToast (configureDataLoaderSettings env page options))
  /\ (forall options, endsWithToast (configurePlatformEventRetention env page options)).
Proof.
  split; [|split; [|split]].
  - intros [v|v|v|v|v|v]; simpl;
      unfold configureSessionSettings, configureOrgWideDefaults,
        configureEinsteinActivityCapture, configureOmniChannel, activateFlow,
        configureOrgWideEmailAddress; cbv zeta; ends_with_toast.
  - intros options. unfold configureIdentityProvider. ends_with_toast.
  - intros options. unfold configureDataLoaderSettings. ends_with_toast.
  - intros options. unfold configurePlatformEventRetention. cbv zeta. ends_with_toast.
Qed.

(** A toast that reports an error is a toast all the same: the session
    settings count as configured. *)
Example error_toast_counts_as_success :
  fst (configureSessionSettings (toastPage (Some "Insufficient privileges")) TopPage
         (timeoutOnly 60) emptyState) = Ok tt.
Proof. vm_compute. reflexivity. Qed.

(** X16. The three automations that no command calls keep to the page, as
    the six others do: none of the nine launches or closes a browser or
    changes the browser that the manager holds. *)
Theorem automations_keep_the_browser env page :
  (forall op, quiet keepsBrowser (dispatch env page op))
  /\ (forall options, quiet keepsBrowser (configureIdentityProvider env page options))
  /\ (forall options, quiet keepsBrowser (configureDataLoaderSettings env page options))
  /\ (forall options,
         quiet keepsBrowser (configurePlatformEventRetention env page options)).
Proof.
  split; [|split; [|split]]; intros;
    [ apply dispatch_quiet
    | unfold configureIdentityProvider
    | unfold configureDataLoaderSettings
    | unfold configurePlatformEventRetention ];
    try (quiet_unfold_all; unfold confirmDialog, waitForSelector; quiet_steps; exact I).
Qed.

(** * What a successful automation has done *)

Lemma subsequence_app_l calls before made :
  subsequence calls made -> subsequence calls (before ++ made)%list.
Proof.
  intros H. induction before as [|c before IH]; simpl;
    [exact H | apply subsequence_skip, IH].
Qed.

Lemma subsequence_in calls made c :
  subsequence calls made -> In c calls -> In c made.
Proof.
  induction 1 as [made | calls c' made _ IH | calls c' made _ IH]; simpl.
  - intros [].
  - intros Hin. right. exact (IH Hin).
  - intros [-> | Hin]; [left; reflexivity | right; exact (IH Hin)].
Qed.

Lemma consumes_bind {A B} calls mid rest (m : M BState A) (k : A -> M BState B) :
  consumes calls mid m -> (forall a, consumes mid rest (k a)) ->
  consumes calls rest (x <- m ;; k x).
Proof.
  intros Hm Hk s b s' H. unfold bind in H.
  destruct (m s) as [[a|e] s1] eqn:Em; [|discriminate].
  destruct (Hm s a s1 Em) as (added1 & Hh1 & Hs1).
  destruct (Hk a s1 b s' H) as (added2 & Hh2 & Hs2).
  exists (added2 ++ added1)%list. split.
  - rewrite Hh2, Hh1. apply app_assoc.
  - intros later Hl. rewrite rev_app_distr, <- app_assoc. apply Hs1, Hs2, Hl.
Qed.

Lemma consumes_skip {A} calls (m : M BState A) :
  quiet anyCall m -> consumes calls calls m.
Proof.
  intros Hq s a s' H. destruct (Hq s) as (_ & added & Hh & _).
  rewrite H in Hh. exists added. split; [exact Hh|].
  intros later Hl. apply subsequence_app_l, Hl.
Qed.

Lemma consumes_perform env c calls : consumes (c :: calls) calls (perform env c).
Proof.
  intros s a s' H. unfold perform in H.
  destruct (rejects env (history s) c); [discriminate|].
  injection H as _ <-. exists [c]. split; [reflexivity|].
  intros later Hl. apply subsequence_take, Hl.
Qed.

Lemma consumes_ask env c calls : consumes (c :: calls) calls (ask env c).
Proof.
  intros s a s' H. unfold ask in H.
  destruct (rejects env (history s) c); [discriminate|].
  injection H as _ <-. exists [c]. split; [reflexivity|].
  intros later Hl. apply subsequence_take, Hl.
Qed.

Lemma consumes_read env c calls : consumes (c :: calls) calls (read env c).
Proof.
  intros s a s' H. unfold read in H.
  destruct (rejects env (history s) c); [discriminate|].
  injection H as _ <-. exists [c]. split; [reflexivity|].
  intros later Hl. apply subsequence_take, Hl.
Qed.

(** The wait hands the element on; the wait itself is passed over. *)
Lemma consumes_waitForSelector_then {B} env calls rest ctx selector timeout
      (k : Handle -> M BState B) :
  consumes calls rest (k (El ctx selector)) ->
  consumes calls rest (h <- waitForSelector env ctx selector timeout ;; k h).
Proof.
  intros Hk s b s' H. unfold waitForSelector, bind, perform, ret in H.
  destruct (rejects env (history s) _); [discriminate|].
  destruct (Hk _ b s' H) as (added & Hh & Hs).
  eexists (added ++ [_])%list. split.
  - rewrite Hh, <- app_assoc. reflexivity.
  - intros later Hl. rewrite rev_app_distr. simpl. apply subsequence_skip, Hs, Hl.
Qed.

Lemma consumes_makes {A} calls (m : M BState A) : consumes calls [] m -> makes calls m.
Proof.
  intros Hc s a s' H. destruct (Hc s a s' H) as (added & Hh & Hs).
  rewrite (addedBy_app m s added) by (rewrite H; exact Hh).
  rewrite <- (app_nil_r (rev added)). apply Hs, subsequence_nil.
Qed.

Ltac consume_skip :=
  apply consumes_skip; unfold waitForSelector, query; quiet_steps; exact I.

(** Walks through a computation, taking each expected call where it is made. *)
Ltac consume :=
  lazymatch goal with
  | |- consumes _ _ (bind (waitForSelector _ _ _ _) _) =>
      apply consumes_waitForSelector_then; consume
  | |- consumes _ _ (bind _ _) => eapply consumes_bind; [consume | intros ?; consume]
  | |- consumes _ _ (perform _ _) => first [apply consumes_perform | consume_skip]
  | |- consumes _ _ (ask _ _) => first [apply consumes_ask | consume_skip]
  | |- consumes _ _ (read _ _) => first [apply consumes_read | consume_skip]
  | |- consumes _ _ _ => consume_skip
  end.

Lemma getSetupIframe_value env page s ctx s' :
  getSetupIframe env page s = (Ok ctx, s') -> ctx = SetupFrame \/ ctx = page.
Proof.
  unfold getSetupIframe, query, bind, ask, ret.
  destruct (rejects env (history s) _); simpl; [discriminate|].
  destruct (holds env (history s) _); simpl.
  - destruct (rejects env _ (ContentFrame _)); simpl; [discriminate|].
    destruct (holds env _ (ContentFrame _)); intros [= <- _]; auto.
  - intros [= <- _]. auto.
Qed.

(** Every automation of a Setup page starts the same way: it logs a line,
    navigates, and resolves the frame that the rest works on. *)
Lemma makes_in_setup env page {A} line path (body : Ctx -> M BState A)
      (calls : Ctx -> list Call) s a s' :
  (forall ctx, consumes (calls ctx) [] (body ctx)) ->
  (consoleLog line ;; navigateToSetup env page path ;;
   setupPage <- getSetupIframe env page ;; body setupPage) s = (Ok a, s') ->
  exists setupPage,
    (setupPage = SetupFrame \/ setupPage = page)
    /\ subsequence (calls setupPage)
         (rev (addedBy (consoleLog line ;; navigateToSetup env page path ;;
                        setupPage <- getSetupIframe env page ;; body setupPage) s)).
Proof.
  intros Hbody H.
  assert (Hsnd : snd ((consoleLog line ;; navigateToSetup env page path ;;
                       setupPage <- getSetupIframe env page ;; body setupPage) s) = s')
    by (rewrite H; reflexivity).
  unfold bind in H. unfold consoleLog in H at 1.
  destruct (navigateToSetup env page path (record (ConsoleLog line) s))
    as [[[]|e] s2] eqn:En; [|discriminate].
  destruct (getSetupIframe env page s2) as [[ctx|e] s3] eqn:Ei; [|discriminate].
  assert (Hn : quiet anyCall (navigateToSetup env page path))
    by (quiet_unfold_all; quiet_steps; exact I).
  assert (Hi : quiet anyCall (getSetupIframe env page))
    by (quiet_unfold_all; quiet_steps; exact I).
  destruct (Hn (record (ConsoleLog line) s)) as (_ & added2 & Hh2 & _).
  destruct (Hi s2) as (_ & added3 & Hh3 & _).
  rewrite En in Hh2. rewrite Ei in Hh3. simpl in Hh2, Hh3.
  destruct (Hbody ctx s3 a s' H) as (added & Hh & Hs).
  exists ctx. split; [exact (getSetupIframe_value _ _ _ _ _ Ei)|].
  rewrite (addedBy_app _ s (added ++ added3 ++ added2 ++ [ConsoleLog line])%list).
  - rewrite rev_app_distr. apply subsequence_app_l.
    rewrite <- (app_nil_r (rev added)). apply Hs, subsequence_nil.
  - rewrite Hsnd, Hh, Hh3, Hh2. rewrite <- !app_assoc. reflexivity.
Qed.

Ltac consume_body :=
  unfold clickButton, setInput, setCheckbox, selectOption, waitForToast, ifDefined;
  cbv beta iota zeta delta
    [ whenPresent when app asked
      SessionSettings.sessionTimeout SessionSettings.forceLogoutOnSessionTimeout
      SessionSettings.lockSessionsToIp SessionSettings.requireHttpOnly
      SessionSettings.requireSecureConnections
      SharingSettings.objectName SharingSettings.internalAccess
      SharingSettings.externalAccess SharingSettings.grantAccessUsingHierarchies
      FlowActivation.flowApiName FlowActivation.activate
      OrgWideEmail.displayName OrgWideEmail.emailAddress OrgWideEmail.allowAllProfiles
      DataLoader.enableBulkApi DataLoader.enableBulkApiSerialMode DataLoader.batchSize
      PlatformEvent.eventApiName PlatformEvent.retentionDays ];
  consume.



(** X18. When [configureSessionSettings] returns, it has clicked Edit,
    selected the timeout and read each checkbox that was given, in the
    order of the source, and only then clicked Save and read the toast.  The
    value selected is the timeout in plain decimal, for a timeout that is a
    safe integer: there [toString()] gives these digits. *)
Theorem configureSessionSettings_edits_then_saves env page options s s' :
  (forall sessionTimeout,
      options.(SessionSettings.sessionTimeout) = Some sessionTimeout ->
      isSafeInteger sessionTimeout) ->
  configureSessionSettings env page options s = (Ok tt, s') ->
  exists setupPage,
    (setupPage = SetupFrame \/ setupPage = page)
    /\ subsequence
         ([ HClick (El setupPage (buttonSelector "Edit")) ]
          ++ asked options.(SessionSettings.sessionTimeout)
               (fun sessionTimeout =>
                  PSelect setupPage (byAttr "select" "id" "timeout")
                    (Z_toString sessionTimeout))
          ++ asked options.(SessionSettings.forceLogoutOnSessionTimeout)
               (fun _ => HChecked (El setupPage (checkboxById "forceLogout")))
          ++ asked options.(SessionSettings.lockSessionsToIp)
               (fun _ => HChecked (El setupPage (checkboxById "lockIp")))
          ++ asked options.(SessionSettings.requireHttpOnly)
               (fun _ => HChecked (El setupPage (checkboxById "httpOnly")))
          ++ asked options.(SessionSettings.requireSecureConnections)
               (fun _ => HChecked (El setupPage (checkboxById "secureConnections")))
          ++ [ HClick (El setupPage (buttonSelector "Save"));
               HTextContent (El setupPage toastSelector) ])%list
         (rev (addedBy (configureSessionSettings env page options) s)).
Proof.
  intros _ H. unfold configureSessionSettings in *.
  refine (makes_in_setup env page _ _ _ (fun setupPage => _) s tt s' _ H).
  intros ctx.
  destruct options as [[t|] [f|] [l|] [h|] [r|]]; consume_body.
Qed.

Lemma configureSessionSettings_edits_then_saves_witness :
  (forall sessionTimeout,
      (timeoutOnly 60).(SessionSettings.sessionTimeout) = Some sessionTimeout ->
      isSafeInteger sessionTimeout)
  /\ configureSessionSettings (scripted nothingFails) TopPage (timeoutOnly 60) emptyState
  = (Ok tt, snd (configureSessionSettings (scripted nothingFails) TopPage
                   (timeoutOnly 60) emptyState))
  /\ exists setupPage,
      (setupPage = SetupFrame \/ setupPage = TopPage)
      /\ subsequence
           [ HClick (El setupPage (buttonSelector "Edit"));
             PSelect setupPage (byAttr "select" "id" "timeout") "60";
             HClick (El setupPage (buttonSelector "Save"));
             HTextContent (El setupPage toastSelector) ]
           (rev (addedBy (configureSessionSettings (scripted nothingFails) TopPage
                            (timeoutOnly 60)) emptyState)).
Proof.
  assert (H : configureSessionSettings (scripted nothingFails) TopPage (timeoutOnly 60)
                emptyState
              = (Ok tt, snd (configureSessionSettings (scripted nothingFails) TopPage
                               (timeoutOnly 60) emptyState)))
    by (vm_compute; reflexivity).
  assert (H0 : forall sessionTimeout,
             (timeoutOnly 60).(SessionSettings.sessionTimeout) = Some sessionTimeout ->
             isSafeInteger sessionTimeout)
    by (intros t [= <-]; unfold isSafeInteger, MAX_SAFE_INTEGER; lia).
  split; [exact H0|]. split; [exact H|].
  exact (configureSessionSettings_edits_then_saves (scripted nothingFails) TopPage
           (timeoutOnly 60) emptyState _ H0 H).
Defined.

(** X19. When [configureOrgWideEmailAddress] returns, it has clicked Add,
    cleared and typed the display name, cleared and typed the address, read
    the checkbox if all profiles were to be allowed, and only then clicked
    Save and read the toast. *)
Theorem configureOrgWideEmailAddress_types_then_saves env page options s s' :
  configureOrgWideEmailAddress env page options s = (Ok tt, s') ->
  exists setupPage,
    (setupPage = SetupFrame \/ setupPage = page)
    /\ subsequence
         ([ HClick (El setupPage (buttonSelector "Add"));
            PClick setupPage (byAttr "input" "id" "displayName") (Some 3%N);
            PType setupPage (byAttr "input" "id" "displayName")
              options.(OrgWideEmail.displayName);
            PClick setupPage (byAttr "input" "id" "emailAddress") (Some 3%N);
            PType setupPage (byAttr "input" "id" "emailAddress")
              options.(OrgWideEmail.emailAddress) ]
          ++ (if options.(OrgWideEmail.allowAllProfiles)
              then [ HChecked (El setupPage (checkboxById "allowAll")) ] else [])
          ++ [ HClick (El setupPage (buttonSelector "Save"));
               HTextContent (El setupPage toastSelector) ])%list
         (rev (addedBy (configureOrgWideEmailAddress env page options) s)).
Proof.
  intros H. unfold configureOrgWideEmailAddress in *.
  refine (makes_in_setup env page _ _ _ (fun setupPage => _) s tt s' _ H).
  intros ctx.
  destruct options as [name address [|]]; consume_body.
Qed.

Lemma configureOrgWideEmailAddress_types_then_saves_witness :
  configureOrgWideEmailAddress (scripted nothingFails) TopPage (supportEmail false)
    emptyState
  = (Ok tt, snd (configureOrgWideEmailAddress (scripted nothingFails) TopPage
                   (supportEmail false) emptyState))
  /\ exists setupPage,
      (setupPage = SetupFrame \/ setupPage = TopPage)
      /\ subsequence
           [ HClick (El setupPage (buttonSelector "Add"));
             PClick setupPage (byAttr "input" "id" "displayName") (Some 3%N);
             PType setupPage (byAttr "input" "id" "displayName") "Support";
             PClick setupPage (byAttr "input" "id" "emailAddress") (Some 3%N);
             PType setupPage (byAttr "input" "id" "emailAddress") "support@example.com";
             HClick (El setupPage (buttonSelector "Save"));
             HTextContent (El setupPage toastSelector) ]
           (rev (addedBy (configureOrgWideEmailAddress (scripted nothingFails) TopPage
                            (supportEmail false)) emptyState)).
Proof.
  assert (H : configureOrgWideEmailAddress (scripted nothingFails) TopPage
                (supportEmail false) emptyState
              = (Ok tt, snd (configureOrgWideEmailAddress (scripted nothingFails) TopPage
                               (supportEmail false) emptyState)))
    by (vm_compute; reflexivity).
  split; [exact H|].
  exact (configureOrgWideEmailAddress_types_then_saves (scripted nothingFails) TopPage
           (supportEmail false) emptyState _ H).
Defined.

(** X20. When [configurePlatformEventRetention] returns, it has clicked
    Edit, triple-clicked the retention field and typed the number of days,
    and only then clicked Save and read the toast.  What it types is the
    number in plain decimal, for a number of days that is a safe integer:
    there [toString()] gives these digits. *)
Theorem configurePlatformEventRetention_types_then_saves env page options s s' :
  isSafeInteger options.(PlatformEvent.retentionDays) ->
  configurePlatformEventRetention env page options s = (Ok tt, s') ->
  exists setupPage,
    (setupPage = SetupFrame \/ setupPage = page)
    /\ subsequence
         [ HClick (El setupPage (buttonSelector "Edit"));
           PClick setupPage (byAttr "input" "id" "retention") (Some 3%N);
           PType setupPage (byAttr "input" "id" "retention")
             (Z_toString options.(PlatformEvent.retentionDays));
           HClick (El setupPage (buttonSelector "Save"));
           HTextContent (El setupPage toastSelector) ]
         (rev (addedBy (configurePlatformEventRetention env page options) s)).
Proof.
  intros _ H. unfold configurePlatformEventRetention in *. cbv zeta in *.
  refine (makes_in_setup env page _ _ _ (fun setupPage => _) s tt s' _ H).
  intros ctx.
  destruct options as [name days]; consume_body.
Qed.

Lemma configurePlatformEventRetention_types_then_saves_witness :
  isSafeInteger weekOfOrders.(PlatformEvent.retentionDays)
  /\ configurePlatformEventRetention (scripted nothingFails) TopPage weekOfOrders emptyState
  = (Ok tt, snd (configurePlatformEventRetention (scripted nothingFails) TopPage
                   weekOfOrders emptyState))
  /\ exists setupPage,
      (setupPage = SetupFrame \/ setupPage = TopPage)
      /\ subsequence
           [ HClick (El setupPage (buttonSelector "Edit"));
             PClick setupPage (byAttr "input" "id" "retention") (Some 3%N);
             PType setupPage (byAttr "input" "id" "retention") "7";
             HClick (El setupPage (buttonSelector "Save"));
             HTextContent (El setupPage toastSelector) ]
           (rev (addedBy (configurePlatformEventRetention (scripted nothingFails) TopPage
                            weekOfOrders) emptyState)).
Proof.
  assert (H : configurePlatformEventRetention (scripted nothingFails) TopPage
                weekOfOrders emptyState
              = (Ok tt, snd (configurePlatformEventRetention (scripted nothingFails)
                               TopPage weekOfOrders emptyState)))
    by (vm_compute; reflexivity).
  assert (H0 : isSafeInteger weekOfOrders.(PlatformEvent.retentionDays))
    by (unfold isSafeInteger, MAX_SAFE_INTEGER; simpl; lia).
  split; [exact H0|]. split; [exact H|].
  exact (configurePlatformEventRetention_types_then_saves (scripted nothingFails) TopPage
           weekOfOrders emptyState _ H0 H).
Defined.

(** X21. When [configureDataLoaderSettings] returns, it has clicked Edit,
    read each checkbox that was given, typed the batch size into its field
    if one was given, and only then clicked Save and read the toast.  What it
    types is the size in plain decimal, for a size that is a safe integer:
    there [toString()] gives these digits. *)
Theorem configureDataLoaderSettings_edits_then_saves env page options s s' :
  (forall batchSize,
      options.(DataLoader.batchSize) = Some batchSize -> isSafeInteger batchSize) ->
  configureDataLoaderSettings env page options s = (Ok tt, s') ->
  exists setupPage,
    (setupPage = SetupFrame \/ setupPage = page)
    /\ subsequence
         ([ HClick (El setupPage (buttonSelector "Edit")) ]
          ++ asked options.(DataLoader.enableBulkApi)
               (fun _ => HChecked (El setupPage (checkboxById "bulkApi")))
          ++ asked options.(DataLoader.enableBulkApiSerialMode)
               (fun _ => HChecked (El setupPage (checkboxById "serialMode")))
          ++ asked options.(DataLoader.batchSize)
               (fun batchSize =>
                  PType setupPage (byAttr "input" "id" "batchSize") (Z_toString batchSize))
          ++ [ HClick (El setupPage (buttonSelector "Save"));
               HTextContent (El setupPage toastSelector) ])%list
         (rev (addedBy (configureDataLoaderSettings env page options) s)).
Proof.
  intros _ H. unfold configureDataLoaderSettings in *.
  refine (makes_in_setup env page _ _ _ (fun setupPage => _) s tt s' _ H).
  intros ctx.
  destruct options as [[b|] [m|] [n|]]; consume_body.
Qed.

Lemma configureDataLoaderSettings_edits_then_saves_witness :
  (forall batchSize,
      batchesOfFifty.(DataLoader.batchSize) = Some batchSize -> isSafeInteger batchSize)
  /\ configureDataLoaderSettings (scripted nothingFails) TopPage batchesOfFifty emptyState
  = (Ok tt, snd (configureDataLoaderSettings (scripted nothingFails) TopPage
                   batchesOfFifty emptyState))
  /\ exists setupPage,
      (setupPage = SetupFrame \/ setupPage = TopPage)
      /\ subsequence
           [ HClick (El setupPage (buttonSelector "Edit"));
             HChecked (El setupPage (checkboxById "serialMode"));
             PType setupPage (byAttr "input" "id" "batchSize") "50";
             HClick (El setupPage (buttonSelector "Save"));
             HTextContent (El setupPage toastSelector) ]
           (rev (addedBy (configureDataLoaderSettings (scripted nothingFails) TopPage
                            batchesOfFifty) emptyState)).
Proof.
  assert (H : configureDataLoaderSettings (scripted nothingFails) TopPage
                batchesOfFifty emptyState
              = (Ok tt, snd (configureDataLoaderSettings (scripted nothingFails) TopPage
                               batchesOfFifty emptyState)))
    by (vm_compute; reflexivity).
  assert (H0 : forall batchSize,
             batchesOfFifty.(DataLoader.batchSize) = Some batchSize ->
             isSafeInteger batchSize)
    by (intros n [= <-]; unfold isSafeInteger, MAX_SAFE_INTEGER; lia).
  split; [exact H0|]. split; [exact H|].
  exact (configureDataLoaderSettings_edits_then_saves (scripted nothingFails) TopPage
           batchesOfFifty emptyState _ H0 H).
Defined.

(** X22. When [activateFlow] returns, it has typed the API name of the flow
    into the search field, pressed Enter, clicked the action that was asked
    for, and read the toast, in this order, on the page itself. *)
Theorem activateFlow_searches_then_acts env page options :
  makes
    [ HType (El page (byAttr "input" "placeholder" "Search"))
        options.(FlowActivation.flowApiName);
      KeyPress page "Enter";
      PClick page (actionLink options.(FlowActivation.activate)) None;
      HTextContent (El page toastSelector) ]
    (activateFlow env page options).
Proof.
  apply consumes_makes. destruct options as [name [|]];
    unfold activateFlow, navigateToSetup, getSetupUrl, waitForSetupPageLoad;
    cbv zeta; consume_body.
Qed.

(** * More of the batch run *)

(** The body of the outer [try], once [connect] is through: the attempts of
    the operations, then the summary. *)
Lemma runTry_attempts env flags config :
  runTry env flags config (start flags)
  = match connecting env flags with
    | (Ok session, b) =>
        (forOf (operations config) (attempt env flags session.(session_page)) ;;
         summary) (connected flags session b)
    | (Throw e, b) =>
        (Throw e, {| below := b; ux := (start flags).(ux); applied := []; failed := [] |})
    end.
Proof.
  unfold runTry.
  destruct (connecting env flags) as [[session|e] b] eqn:Hc.
  - assert (E0 : lift (connect env flags.(targetOrg)) (start flags)
                 = (Ok session, {| below := b; ux := (start flags).(ux);
                                   applied := []; failed := [] |}))
      by (unfold lift; unfold connecting in Hc; rewrite Hc; reflexivity).
    rewrite (bind_ok _ _ _ _ _ E0).
    rewrite (bind_ok spinnerStop _ _ tt _ eq_refl).
    rewrite (bind_ok (log _) _ _ tt _ eq_refl).
    rewrite blocks_attempts. reflexivity.
  - assert (E0 : lift (connect env flags.(targetOrg)) (start flags)
                 = (@Throw SalesforceSession e,
                    {| below := b; ux := (start flags).(ux);
                       applied := []; failed := [] |}))
      by (unfold lift; unfold connecting in Hc; rewrite Hc; reflexivity).
    rewrite (bind_thrown _ _ _ _ _ E0). reflexivity.
Qed.

(** X23. [run] reads the document only through the operations it lists: two
    documents with the same operations in the fixed order give the same run.
    A list section that is there and empty is as good as one left out. *)
Theorem run_reads_only_the_operations env flags config config' :
  operations config = operations config' ->
  run env flags config = run env flags config'.
Proof.
  intros H. unfold run, tryFinally, tryCatch.
  rewrite !runTry_attempts, H. reflexivity.
Qed.

Lemma run_reads_only_the_operations_witness :
  operations emptyLists = operations emptyConfig
  /\ run (scripted nothingFails) (batchFlags false) emptyLists
     = run (scripted nothingFails) (batchFlags false) emptyConfig.
Proof.
  assert (H : operations emptyLists = operations emptyConfig) by reflexivity.
  split; [exact H|].
  exact (run_reads_only_the_operations (scripted nothingFails) (batchFlags false)
           emptyLists emptyConfig H).
Defined.

Lemma failedOf_nil_results env page ops :
  forall b,
    failedOf (fst (results env true page ops b)) = [] ->
    results env false page ops b = results env true page ops b
    /\ firstFailure (fst (results env true page ops b)) = None.
Proof.
  induction ops as [|op ops IH]; intros b; simpl; [auto|].
  destruct (dispatch env page op b) as [[[]|e] b'].
  - specialize (IH b'). destruct (results env true page ops b') as [rs b''].
    destruct (results env false page ops b') as [rs' b3]. simpl in *.
    intros Hf. destruct (IH Hf) as (E & F). injection E as -> ->. auto.
  - destruct (results env true page ops b') as [rs b'']. simpl. discriminate.
Qed.

(** X24. [--continue-on-error] matters only when something fails: when the
    run that continues on error returns a result that reports success, the
    run that stops at the first failure is the same run, with the same calls,
    the same output and the same result. *)
Theorem modes_agree_when_nothing_fails env flags config r :
  fst (run env (continuing flags true) config) = Ok r ->
  r.(ApplySetupResult.success) = true ->
  run env (continuing flags false) config = run env (continuing flags true) config.
Proof.
  intros Hr Hs.
  assert (Hsame : runTry env (continuing flags false) config (start (continuing flags false))
                  = runTry env (continuing flags true) config
                      (start (continuing flags true))).
  { unfold run, tryFinally, tryCatch in Hr.
    rewrite !runTry_attempts. rewrite runTry_attempts in Hr.
    change (connecting env (continuing flags false))
      with (connecting env (continuing flags true)).
    destruct (connecting env (continuing flags true)) as [[session|e] b]; [|reflexivity].
    change (connected (continuing flags false) session b)
      with (connected (continuing flags true) session b).
    pose proof (attempts_results env (continuing flags true) session.(session_page)
                  (operations config) (connected (continuing flags true) session b))
      as Ht.
    pose proof (attempts_results env (continuing flags false) session.(session_page)
                  (operations config) (connected (continuing flags true) session b))
      as Hf.
    cbn [continuing continueOnError connected below applied failed ux app] in Ht, Hf.
    unfold escaping in Ht, Hf. cbn [outcomeOf] in Ht.
    rewrite (bind_ok _ _ _ _ _ Ht) in Hr.
    rewrite (bind_ok _ _ _ _ _ Ht).
    match type of Hr with context [summary ?s] =>
      destruct (summary_returns s) as (s1 & Es & _); rewrite Es in Hr
    end.
    assert (Hnone : failedOf (fst (results env true (session_page session)
                                     (operations config) b)) = []).
    { cbn [fst snd] in Hr.
      destruct (lift (disconnect env) s1) as [[[]|e] s2]; [|discriminate].
      cbn [fst] in Hr. injection Hr as <-.
      unfold resultOf in Hs. cbn [ApplySetupResult.success failed] in Hs.
      apply Nat.eqb_eq in Hs. apply length_zero_iff_nil in Hs. exact Hs. }
    destruct (failedOf_nil_results env _ _ _ Hnone) as (E & F).
    rewrite E, F in Hf. cbn [outcomeOf] in Hf.
    rewrite (bind_ok _ _ _ _ _ Hf). reflexivity. }
  unfold run, tryFinally, tryCatch. rewrite Hsame. reflexivity.
Qed.

Lemma modes_agree_when_nothing_fails_witness :
  fst (run (scripted nothingFails) (continuing (batchFlags false) true) scenarioBatch)
  = Ok (resultOf (snd (run (scripted nothingFails) (continuing (batchFlags false) true)
                         scenarioBatch)))
  /\ run (scripted nothingFails) (continuing (batchFlags false) false) scenarioBatch
     = run (scripted nothingFails) (continuing (batchFlags false) true) scenarioBatch.
Proof.
  assert (H : fst (run (scripted nothingFails) (continuing (batchFlags false) true)
                     scenarioBatch)
              = Ok (resultOf (snd (run (scripted nothingFails)
                                     (continuing (batchFlags false) true)
                                     scenarioBatch))))
    by (vm_compute; reflexivity).
  split; [exact H|].
  exact (modes_agree_when_nothing_fails (scripted nothingFails) (batchFlags false)
           scenarioBatch _ H eq_refl).
Defined.

(** * The commands of one operation *)

(** ** What neither launches nor closes *)

Lemma keeping_ret {A} (a : A) : keeping (ret a).
Proof. intros s. split; [reflexivity | exists []; auto]. Qed.

Lemma keeping_throw {A} (e : Thrown) : keeping (@throw CState A e).
Proof. intros s. split; [reflexivity | exists []; auto]. Qed.

Lemma keeping_emit u : keeping (emit u).
Proof. intros s. split; [reflexivity | exists []; auto]. Qed.

Lemma keeping_bind {A B} (m : M CState A) (k : A -> M CState B) :
  keeping m -> (forall a, keeping (k a)) -> keeping (x <- m ;; k x).
Proof.
  intros Hm Hk s. unfold bind.
  destruct (Hm s) as (Hman & added & Hh & HP).
  destruct (m s) as [[a|e] s1]; simpl in *.
  - destruct (Hk a s1) as (Hman' & added' & Hh' & HP').
    split; [congruence|].
    exists (added' ++ added)%list. rewrite Hh', Hh, app_assoc.
    split; [reflexivity | apply Forall_app; auto].
  - split; [assumption | exists added; auto].
Qed.

Lemma keeping_lift {A} (m : M BState A) : quiet keepsBrowser m -> keeping (lift m).
Proof.
  intros Hq s. unfold lift. destruct (Hq (below s)) as (Hman & added & Hh & HP).
  destruct (m (below s)) as [r b']. simpl in *.
  split; [assumption | exists added; auto].
Qed.

Lemma keeping_counts env {A} (m : M CState A) s :
  keeping m ->
  released (snd (m s)).(below).(history) = released s.(below).(history)
  /\ acquired env (snd (m s)).(below).(history) = acquired env s.(below).(history)
  /\ held (snd (m s)).(below) = held s.(below).
Proof.
  intros Hk. destruct (Hk s) as (Hman & added & Hh & HP).
  unfold held. rewrite Hman, Hh.
  rewrite released_keepsBrowser, acquired_keepsBrowser by assumption. auto.
Qed.

Ltac keeping_steps :=
  unfold spinnerStart, spinnerStop, log, logSuccess, warn, error;
  repeat lazymatch goal with
         | |- keeping (bind _ _) => apply keeping_bind; [ | intros ? ]
         | |- keeping (ret _) => apply keeping_ret
         | |- keeping (throw _) => apply keeping_throw
         | |- keeping (emit _) => apply keeping_emit
         | |- keeping (lift _) => apply keeping_lift
         end.

(** ** The shape the commands share *)

(** The guarded part: [connect], then what neither launches nor closes. *)
Lemma guarded_browser {A} env org (rest : SalesforceSession -> M CState A)
      (handler : Thrown -> M CState A) s0 :
  s0.(below).(manager).(browser) = None ->
  (forall session, keeping (rest session)) ->
  (forall e, keeping (handler e)) ->
  released (snd (tryCatch (session <- lift (connect env org) ;; rest session)
                   handler s0)).(below).(history)
  = released s0.(below).(history)
  /\ acquired env (snd (tryCatch (session <- lift (connect env org) ;; rest session)
                          handler s0)).(below).(history)
     = acquired env s0.(below).(history)
       + held (snd (tryCatch (session <- lift (connect env org) ;; rest session)
                      handler s0)).(below).
Proof.
  intros H0 Hrest Hhandler.
  destruct (connect_browser env org s0.(below) H0) as (Hr & Ha & _).
  unfold tryCatch, bind, lift.
  destruct (connect env org (below s0)) as [[session|e] b]; simpl in Hr, Ha.
  - match goal with |- context [rest session ?s] => set (s1 := s) end.
    destruct (keeping_counts env (rest session) s1 (Hrest session)) as (Kr & Ka & Kh).
    destruct (rest session s1) as [[a|e] s2] eqn:E; simpl in Kr, Ka, Kh.
    + simpl. rewrite Kr, Ka, Kh. auto.
    + destruct (keeping_counts env (handler e) s2 (Hhandler e)) as (Lr & La & Lh).
      rewrite Lr, La, Lh, Kr, Ka, Kh. auto.
  - match goal with |- context [handler e ?s] => set (s1 := s) end.
    destruct (keeping_counts env (handler e) s1 (Hhandler e)) as (Lr & La & Lh).
    rewrite Lr, La, Lh. auto.
Qed.

(** The [finally] block: [disconnect] closes the browser that is held. *)
Lemma finally_disconnect {A} env (guarded : M CState A) s0 :
  released (snd (tryFinally guarded (lift (disconnect env)) s0)).(below).(history)
  = held (snd (guarded s0)).(below) + released (snd (guarded s0)).(below).(history)
  /\ acquired env (snd (tryFinally guarded (lift (disconnect env)) s0)).(below).(history)
     = acquired env (snd (guarded s0)).(below).(history)
  /\ (((snd (tryFinally guarded (lift (disconnect env)) s0)).(below).(manager).(browser)
       = None
       /\ fst (tryFinally guarded (lift (disconnect env)) s0) = fst (guarded s0))
      \/ closeThrew env (tryFinally guarded (lift (disconnect env)) s0)).
Proof.
  unfold tryFinally, lift, held.
  destruct (guarded s0) as [r s1]. simpl.
  destruct (browser (manager (below s1))) as [b|] eqn:Hb.
  - rewrite (disconnect_opened env _ b Hb).
    destruct (rejects env (history (below s1)) Close) as [e|] eqn:Hr; simpl.
    + split; [reflexivity|]. split; [reflexivity|]. right.
      exists (history (below s1)), e. simpl. auto.
    + split; [reflexivity|]. split; [reflexivity|]. left. auto.
  - rewrite (disconnect_never_opened env _ Hb). simpl.
    split; [reflexivity|]. split; [reflexivity|]. left. auto.
Qed.

Lemma held_le_1 s : held s <= 1.
Proof. unfold held. destruct (browser (manager s)); lia. Qed.

Lemma single_balanced {A} env org (rest : SalesforceSession -> M CState A)
      (handler : Thrown -> M CState A) s0 :
  s0.(below).(history) = [] ->
  s0.(below).(manager).(browser) = None ->
  (forall session, keeping (rest session)) ->
  (forall e, keeping (handler e)) ->
  balanced env (tryFinally (tryCatch (session <- lift (connect env org) ;; rest session)
                              handler)
                  (lift (disconnect env)) s0).
Proof.
  intros Hh H0 Hrest Hhandler.
  destruct (guarded_browser env org rest handler s0 H0 Hrest Hhandler) as (Gr & Ga).
  destruct (finally_disconnect env
              (tryCatch (session <- lift (connect env org) ;; rest session) handler) s0)
    as (Fr & Fa & Fb).
  rewrite Hh in Gr, Ga. simpl in Gr, Ga.
  unfold balanced. rewrite Fr, Fa, Gr, Ga.
  split; [lia|]. split.
  - rewrite Nat.add_0_r. apply held_le_1.
  - destruct Fb as [(Hb & _) | Hc]; auto.
Qed.

(** X25. Each of the three commands of one operation releases as many
    browsers as it was handed, one at most, and holds none when it ends
    unless [browser.close()] threw. *)
Theorem commands_release_what_they_launched env :
  (forall flags, balanced env (ConfigSession.run env flags))
  /\ (forall flags, balanced env (ConfigSharing.run env flags))
  /\ (forall flags, balanced env (SetupFlow.run env flags)).
Proof.
  split; [|split]; intros flags.
  - unfold ConfigSession.run, ConfigSession.runTry.
    apply single_balanced; try reflexivity.
    + intros session. keeping_steps.
      exact (dispatch_quiet env _ (OpSessionSettings _)).
    + intros e. unfold ConfigSession.runCatch. keeping_steps.
  - unfold ConfigSharing.run, ConfigSharing.runTry.
    apply single_balanced; try reflexivity.
    + intros session. keeping_steps.
      exact (dispatch_quiet env _ (OpSharingSettings _)).
    + intros e. unfold ConfigSharing.runCatch. keeping_steps.
  - unfold SetupFlow.run.
    destruct (negb (SetupFlow.activate flags) && negb (SetupFlow.deactivate flags)).
    + unfold balanced, error, throw. simpl. auto.
    + rewrite (bind_ok (spinnerStart _) _ _ tt _ eq_refl).
      unfold SetupFlow.runTry.
      apply single_balanced; try reflexivity.
      * intros session. keeping_steps.
        exact (dispatch_quiet env _ (OpFlowActivation _)).
      * intros e. unfold SetupFlow.runCatch. keeping_steps.
Qed.

(** The outcome of a guarded body whose handler rethrows with a prefix. *)
Lemma single_outcome {A} env (body : M CState A) (handler : Thrown -> M CState A)
      (prefix : string) s0 :
  (forall e s, fst (handler e s) = Throw (ErrorObj "CLIError" (prefix ++ errorMessage e))) ->
  match fst (tryFinally (tryCatch body handler) (lift (disconnect env)) s0) with
  | Ok r => fst (body s0) = Ok r
  | Throw e =>
      wrapped prefix e
      \/ closeThrew env (tryFinally (tryCatch body handler) (lift (disconnect env)) s0)
  end.
Proof.
  intros Hhandler.
  destruct (finally_disconnect env (tryCatch body handler) s0) as (_ & _ & [(_ & E) | Hc]).
  - rewrite E. unfold tryCatch.
    destruct (body s0) as [[a|e] s1]; [reflexivity|].
    rewrite Hhandler. left. exists e. reflexivity.
  - destruct Hc as (h & e & Hh & Hr & Ho). rewrite Ho. right. exists h, e. auto.
Qed.





(** X27. Given neither [--activate] nor [--deactivate], the flow command
    throws before it does anything else: nothing is shown, no browser is
    launched, and no call reaches a page. *)
Theorem flow_command_wants_a_flag env flags :
  flags.(SetupFlow.activate) = false ->
  flags.(SetupFlow.deactivate) = false ->
  SetupFlow.run env flags
  = (Throw (ErrorObj "CLIError" "You must specify either --activate or --deactivate"),
     SetupFlow.idle flags)
  /\ (snd (SetupFlow.run env flags)).(ux) = []
  /\ (snd (SetupFlow.run env flags)).(below).(history) = [].
Proof.
  intros Ha Hd. unfold SetupFlow.run. rewrite Ha, Hd. simpl. auto.
Qed.

Lemma flow_command_wants_a_flag_witness :
  (flowFlags false false).(SetupFlow.activate) = false
  /\ (flowFlags false false).(SetupFlow.deactivate) = false
  /\ SetupFlow.run (scripted nothingFails) (flowFlags false false)
     = (Throw (ErrorObj "CLIError" "You must specify either --activate or --deactivate"),
        SetupFlow.idle (flowFlags false false)).
Proof.
  split; [reflexivity|]. split; [reflexivity|].
  exact (proj1 (flow_command_wants_a_flag (scripted nothingFails) (flowFlags false false)
                  eq_refl eq_refl)).
Defined.

Lemma in_addedBy {A} (m : M BState A) s c :
  In c (addedBy m s) -> In c (snd (m s)).(history).
Proof.
  unfold addedBy. intros H.
  rewrite <- (firstn_skipn (length (history (snd (m s))) - length (history s))
                (history (snd (m s)))).
  apply in_or_app. left. exact H.
Qed.

Lemma finally_keeps_history {A} env (guarded : M CState A) s0 c :
  In c (snd (guarded s0)).(below).(history) ->
  In c (snd (tryFinally guarded (lift (disconnect env)) s0)).(below).(history).
Proof.
  unfold tryFinally, lift. destruct (guarded s0) as [r s1]. simpl. intros Hin.
  destruct (browser (manager (below s1))) as [b|] eqn:Hb.
  - rewrite (disconnect_opened env _ b Hb).
    destruct (rejects env (history (below s1)) Close); simpl; auto.
  - rewrite (disconnect_never_opened env _ Hb). exact Hin.
Qed.

Lemma tryCatch_ok {S A} (body : M S A) (handler : Thrown -> M S A) s r :
  fst (body s) = Ok r -> tryCatch body handler s = body s.
Proof.
  unfold tryCatch. destruct (body s) as [[a|e] s']; [reflexivity | discriminate].
Qed.

(** What the body of the sharing command has done when it returns. *)
Lemma ConfigSharing_runTry_returns env flags s r :
  fst (ConfigSharing.runTry env flags s) = Ok r ->
  exists session b,
    configureOrgWideDefaults env session.(session_page) (ConfigSharing.optionsOf flags) b
    = (Ok tt, (snd (ConfigSharing.runTry env flags s)).(below)).
Proof.
  unfold ConfigSharing.runTry, bind, lift, spinnerStop, spinnerStart, log, logSuccess,
    emit, ret.
  destruct (connect env _ _) as [[session|e] b]; simpl; [|discriminate].
  destruct (configureOrgWideDefaults env _ _ b) as [[[]|e] b'] eqn:Ec; simpl;
    [|discriminate].
  intros _. exists session, b. exact Ec.
Qed.

(** X28. Whatever flags were given, a run of the sharing command that
    returns has read the checked state of the hierarchy checkbox. *)
Theorem sharing_command_reads_hierarchy env flags r :
  fst (ConfigSharing.run env flags) = Ok r ->
  exists setupPage,
    In (HChecked (El setupPage (checkboxById "hierarchy")))
       (snd (ConfigSharing.run env flags)).(below).(history).
Proof.
  intros Hr. unfold ConfigSharing.run in *.
  pose proof (single_outcome env (ConfigSharing.runTry env flags)
                ConfigSharing.runCatch "Failed to configure sharing settings: "
                (ConfigSharing.start flags) (fun e s => eq_refl)) as Hbody.
  rewrite Hr in Hbody.
  destruct (ConfigSharing_runTry_returns env flags _ r Hbody) as (session & b & Ec).
  assert (Hsnd : snd (configureOrgWideDefaults env (session_page session)
                        (ConfigSharing.optionsOf flags) b)
                 = (snd (ConfigSharing.runTry env flags (ConfigSharing.start flags))).(below))
    by (rewrite Ec; reflexivity).
  unfold configureOrgWideDefaults in Ec.
  pose proof (fun Hcalls =>
                makes_in_setup env (session_page session) _ _ _
                  (fun setupPage => [HChecked (El setupPage (checkboxById "hierarchy"))])
                  b tt _ Hcalls Ec) as Hm.
  destruct Hm as (setupPage & _ & Hsub);
    [intros ctx; unfold ConfigSharing.optionsOf; consume_body|].
  exists setupPage. apply finally_keeps_history.
  rewrite (tryCatch_ok _ _ _ r Hbody).
  pose proof (subsequence_in _ _ _ Hsub (or_introl eq_refl)) as Hrev.
  apply in_rev, in_addedBy in Hrev.
  change (In (HChecked (El setupPage (checkboxById "hierarchy")))
            (history (snd (configureOrgWideDefaults env (session_page session)
                             (ConfigSharing.optionsOf flags) b)))) in Hrev.
  rewrite Hsnd in Hrev. exact Hrev.
Qed.

Lemma sharing_command_reads_hierarchy_witness :
  fst (ConfigSharing.run (scripted nothingFails) sharingFlags)
  = Ok {| ConfigSharing.success := true;
          ConfigSharing.message := "Sharing settings configured for Account";
          ConfigSharing.result_object := "Account";
          ConfigSharing.settings :=
            {| ConfigSharing.settings_internalAccess := Private;
               ConfigSharing.settings_externalAccess := None;
               ConfigSharing.settings_grantAccessUsingHierarchies := true |} |}
  /\ exists setupPage,
      In (HChecked (El setupPage (checkboxById "hierarchy")))
         (snd (ConfigSharing.run (scripted nothingFails) sharingFlags)).(below).(history).
Proof.
  assert (H : fst (ConfigSharing.run (scripted nothingFails) sharingFlags)
              = Ok {| ConfigSharing.success := true;
                      ConfigSharing.message := "Sharing settings configured for Account";
                      ConfigSharing.result_object := "Account";
                      ConfigSharing.settings :=
                        {| ConfigSharing.settings_internalAccess := Private;
                           ConfigSharing.settings_externalAccess := None;
                           ConfigSharing.settings_grantAccessUsingHierarchies := true |} |})
    by (vm_compute; reflexivity).
  split; [exact H|].
  exact (sharing_command_reads_hierarchy (scripted nothingFails) sharingFlags _ H).
Defined.
